(** * Voice agent: conversation state machine, dispatcher, slot extraction
    and utterance assembly of [zendesk_voice_agent.py]

    A shallow embedding of the Python source.  The utterances, keywords
    and replies are modelled by [string] (ASCII text: case mapping,
    whitespace and word characters are the ASCII ones); the text handed to
    the speech service, which is the language model's and may hold any
    character, is a list of code points.  Dictionaries read through [.get]
    are records of optional fields or association lists, the module-level
    globals one record threaded through a state-and-exception monad, and
    the external collaborators (ticketing backend, language model, JSON
    scanning of the model's answer) section variables. *)

From Stdlib Require Import String Ascii List NArith ZArith Bool Arith Lia.
From Stdlib Require Import DecimalString.
Import ListNotations.
Open Scope string_scope.
Open Scope list_scope.
Open Scope nat_scope.

Infix "+++" := String.append (right associativity, at level 60).

(** ** Python string primitives *)

Module PyStr.

Definition code (c : ascii) : nat := nat_of_ascii c.

Definition in_range (lo hi : nat) (c : ascii) : bool :=
  (lo <=? code c) && (code c <=? hi).

Definition is_upper (c : ascii) : bool := in_range 65 90 c.
Definition is_lower (c : ascii) : bool := in_range 97 122 c.
Definition is_digit (c : ascii) : bool := in_range 48 57 c.
Definition is_alpha (c : ascii) : bool := is_upper c || is_lower c.

(** [str.isspace] on ASCII: TAB..CR, FS..US and the blank. *)
Definition is_space (c : ascii) : bool :=
  in_range 9 13 c || in_range 28 32 c.

(** [\w] on ASCII. *)
Definition is_word (c : ascii) : bool :=
  is_alpha c || is_digit c || Ascii.eqb c "_".

Definition lower_char (c : ascii) : ascii :=
  if is_upper c then ascii_of_nat (code c + 32) else c.

(** [s.lower()] *)
Fixpoint lower (s : string) : string :=
  match s with
  | EmptyString => EmptyString
  | String c s' => String (lower_char c) (lower s')
  end.

(** [s.lstrip()], [s.rstrip()], [s.strip()] *)
Fixpoint lstrip (s : string) : string :=
  match s with
  | EmptyString => EmptyString
  | String c s' => if is_space c then lstrip s' else s
  end.

Definition is_empty (s : string) : bool :=
  match s with EmptyString => true | _ => false end.

Fixpoint rstrip (s : string) : string :=
  match s with
  | EmptyString => EmptyString
  | String c s' =>
      let r := rstrip s' in
      if is_space c && is_empty r then EmptyString else String c r
  end.

Definition strip (s : string) : string := rstrip (lstrip s).

(** [s.startswith(p)] *)
Fixpoint starts_with (p s : string) : bool :=
  match p, s with
  | EmptyString, _ => true
  | String a p', String b s' => Ascii.eqb a b && starts_with p' s'
  | String _ _, EmptyString => false
  end.

(** [needle in hay] *)
Fixpoint contains (needle hay : string) : bool :=
  starts_with needle hay ||
  match hay with
  | EmptyString => false
  | String _ hay' => contains needle hay'
  end.

(** [any(k in s for k in keywords)] *)
Definition any_in (keywords : list string) (s : string) : bool :=
  existsb (fun k => contains k s) keywords.

(** [sep.join(parts)] *)
Definition join (sep : string) (parts : list string) : string :=
  String.concat sep parts.

(** [s[:n]] for [0 <= n] *)
Fixpoint take (n : nat) (s : string) : string :=
  match n, s with
  | S n', String c s' => String c (take n' s')
  | _, _ => EmptyString
  end.

(** Truth value of a [str]. *)
Definition nonempty (s : string) : bool := negb (is_empty s).

Definition first_nonspace (k : string) : bool :=
  match k with
  | String c _ => negb (is_space c)
  | EmptyString => false
  end.

Fixpoint last_nonspace (k : string) : bool :=
  match k with
  | EmptyString => false
  | String c EmptyString => negb (is_space c)
  | String _ k' => last_nonspace k'
  end.

(** A keyword that neither starts nor ends with whitespace. *)
Definition solid (k : string) : bool := first_nonspace k && last_nonspace k.

End PyStr.
Import PyStr.

(** ** The fragment of [re] used by the source

    A pattern is a sequence of atoms; repetition is greedy and backtracks,
    the way [re] explores alternatives, so that the first successful path in
    priority order is the match that [re.search] reports. *)

Module Re.

Inductive atom : Type :=
| Lit (ignorecase : bool) (s : string)   (* literal text *)
| Rep (cls : ascii -> bool) (lo : nat) (hi : option nat)
                                         (* cls{lo,hi}, greedy *)
| Alt (ignorecase : bool) (alts : list string)
                                         (* (?:a|b|...) over literals *)
| WordB                                  (* \b *)
| GOpen                                  (* ( of group 1 *)
| GClose.                                (* ) of group 1 *)

Definition pattern := list atom.

(** What a successful match reports: the text left after the match and
    the texts left at the opening and closing of group 1. *)
Record found : Type := mkFound {
  rest : string;
  g_open : option string;
  g_close : option string
}.

Definition cont := option ascii -> option string -> option string ->
                   string -> option found.

Definition char_eq (ignorecase : bool) (a c : ascii) : bool :=
  if ignorecase then Ascii.eqb (lower_char a) (lower_char c)
  else Ascii.eqb a c.

Definition word_opt (c : option ascii) : bool :=
  match c with Some x => is_word x | None => false end.

Definition head (s : string) : option ascii :=
  match s with String c _ => Some c | EmptyString => None end.

(** [\b]: exactly one side is a word character. *)
Definition at_boundary (prev : option ascii) (s : string) : bool :=
  xorb (word_opt prev) (word_opt (head s)).

Definition below (n : nat) (hi : option nat) : bool :=
  match hi with Some h => n <? h | None => true end.

Fixpoint lit (ic : bool) (l : string) (k : cont)
    (prev : option ascii) (go gc : option string) (s : string)
    : option found :=
  match l with
  | EmptyString => k prev go gc s
  | String a l' =>
      match s with
      | String c s' =>
          if char_eq ic a c then lit ic l' k (Some c) go gc s' else None
      | EmptyString => None
      end
  end.

(** Greedy repetition: one more character first, then the continuation. *)
Fixpoint rep (cls : ascii -> bool) (lo : nat) (hi : option nat) (n : nat)
    (k : cont) (prev : option ascii) (go gc : option string) (s : string)
    : option found :=
  let stop := if lo <=? n then k prev go gc s else None in
  match s with
  | String c s' =>
      if cls c && below n hi then
        match rep cls lo hi (S n) k (Some c) go gc s' with
        | Some r => Some r
        | None => stop
        end
      else stop
  | EmptyString => stop
  end.

Fixpoint alt (ic : bool) (alts : list string) (k : cont)
    (prev : option ascii) (go gc : option string) (s : string)
    : option found :=
  match alts with
  | [] => None
  | a :: alts' =>
      match lit ic a k prev go gc s with
      | Some r => Some r
      | None => alt ic alts' k prev go gc s
      end
  end.

Fixpoint match_here (p : pattern) : cont :=
  match p with
  | [] => fun _ go gc s => Some (mkFound s go gc)
  | Lit ic l :: p' => lit ic l (match_here p')
  | Rep cls lo hi :: p' => rep cls lo hi 0 (match_here p')
  | Alt ic alts :: p' => alt ic alts (match_here p')
  | WordB :: p' =>
      fun prev go gc s =>
        if at_boundary prev s then match_here p' prev go gc s else None
  | GOpen :: p' => fun prev _ gc s => match_here p' prev (Some s) gc s
  | GClose :: p' => fun prev go _ s => match_here p' prev go (Some s) s
  end.

(** The text of [s] between two of its suffixes. *)
Definition upto (s r : string) : string :=
  take (String.length s - String.length r) s.

Record match_obj : Type := mkMatch {
  group0 : string;
  group1 : option string
}.

Definition report (s : string) (f : found) : match_obj :=
  mkMatch (upto s (rest f))
          (match g_open f, g_close f with
           | Some o, Some c => Some (upto o c)
           | _, _ => None
           end).

Fixpoint search_from (p : pattern) (prev : option ascii) (s : string)
    : option match_obj :=
  match match_here p prev None None s with
  | Some f => Some (report s f)
  | None =>
      match s with
      | String c s' => search_from p (Some c) s'
      | EmptyString => None
      end
  end.

(** [re.search(p, s)] *)
Definition search (p : pattern) (s : string) : option match_obj :=
  search_from p None s.

(** [re.sub(p, repl, s)] for patterns that consume at least one
    character when they match; [skip] counts the characters of the
    current match still to be passed over. *)
Fixpoint sub_from (p : pattern) (repl : string) (prev : option ascii)
    (skip : nat) (s : string) : string :=
  match s with
  | EmptyString => EmptyString
  | String c s' =>
      match skip with
      | S k => sub_from p repl (Some c) k s'
      | O =>
          match match_here p prev None None s with
          | Some f =>
              match String.length s - String.length (rest f) with
              | S k => repl +++ sub_from p repl (Some c) k s'
              | O => String c (sub_from p repl (Some c) 0 s')
              end
          | None => String c (sub_from p repl (Some c) 0 s')
          end
      end
  end.

Definition sub (p : pattern) (repl s : string) : string :=
  sub_from p repl None 0 s.

End Re.

(** ** Intent and slot extraction *)

Definition one_of (chars : string) (c : ascii) : bool :=
  existsb (Ascii.eqb c) (list_ascii_of_string chars).

(** [[A-Za-z0-9._%+-]] *)
Definition user_char (c : ascii) : bool :=
  is_alpha c || is_digit c || one_of "._%+-" c.

(** [[A-Za-z0-9.-]] *)
Definition domain_char (c : ascii) : bool :=
  is_alpha c || is_digit c || one_of ".-" c.

(** [[A-Z|a-z]]: the bar is a member of the class. *)
Definition tld_char (c : ascii) : bool :=
  is_alpha c || one_of "|" c.

Definition ws : Re.atom := Re.Rep is_space 0 None.

Definition email_patterns : list Re.pattern :=
  [ (* standard email *)
    [Re.WordB; Re.Rep user_char 1 None; Re.Lit true "@";
     Re.Rep domain_char 1 None; Re.Lit true "."; Re.Rep tld_char 2 None;
     Re.WordB];
    (* spoken format *)
    [Re.Rep user_char 1 None; ws; Re.Lit true "at"; ws;
     Re.Rep domain_char 1 None; ws; Re.Lit true "dot"; ws;
     Re.Rep tld_char 2 None];
    (* with spaces *)
    [Re.Rep user_char 1 None; ws; Re.Lit true "@"; ws;
     Re.Rep domain_char 1 None; ws; Re.Lit true "."; ws;
     Re.Rep tld_char 2 None] ].

(** The clean-up applied to the matched text. *)
Definition clean_email (email : string) : string :=
  let email := Re.sub [Re.Rep is_space 1 None] EmptyString email in
  let email := Re.sub [Re.WordB; Re.Lit true "at"; Re.WordB] "@" email in
  Re.sub [Re.WordB; Re.Lit true "dot"; Re.WordB] "." email.

Fixpoint first_match (patterns : list Re.pattern) (text : string)
    : option Re.match_obj :=
  match patterns with
  | [] => None
  | p :: ps =>
      match Re.search p text with
      | Some m => Some m
      | None => first_match ps text
      end
  end.

Definition extract_email_from_text (text : string) : option string :=
  match first_match email_patterns text with
  | Some m => Some (clean_email (Re.group0 m))
  | None => None
  end.

(** ** Python values and dictionaries *)

Inductive pyval : Type :=
| VNone
| VBool (b : bool)
| VInt (z : Z)
| VStr (s : string).

(** Truth value, as tested by [if v], [not v] and [all([...])]. *)
Definition truthy (v : pyval) : bool :=
  match v with
  | VNone => false
  | VBool b => b
  | VInt z => negb (Z.eqb z 0)
  | VStr s => nonempty s
  end.

(** [str(v)], also what an f-string interpolates. *)
Definition py_str (v : pyval) : string :=
  match v with
  | VNone => "None"
  | VBool true => "True"
  | VBool false => "False"
  | VInt z => NilZero.string_of_int (Z.to_int z)
  | VStr s => s
  end.

Definition str_of_nat (n : nat) : string :=
  NilZero.string_of_uint (Nat.to_uint n).

(** [v == "name"] *)
Definition is_name (v : pyval) (name : string) : bool :=
  match v with VStr s => String.eqb s name | _ => false end.

(** The name of the Python type of a value, as the text of an
    [AttributeError] has it. *)
Definition type_name (v : pyval) : string :=
  match v with
  | VNone => "NoneType"
  | VBool _ => "bool"
  | VInt _ => "int"
  | VStr _ => "str"
  end.

Definition is_text (v : pyval) : bool :=
  match v with VStr _ => true | _ => false end.

(** A JSON object of scalars, in key order. *)
Definition Args := list (string * pyval).

Fixpoint lookup (k : string) (d : Args) : option pyval :=
  match d with
  | [] => None
  | (k', v) :: d' => if String.eqb k k' then Some v else lookup k d'
  end.

(** [d.get(k)] and [d.get(k, default)] *)
Definition get (d : Args) (k : string) : pyval :=
  match lookup k d with Some v => v | None => VNone end.

Definition get_or (d : Args) (k : string) (default : pyval) : pyval :=
  match lookup k d with Some v => v | None => default end.

(** The value found under [arguments] in a function call of the model:
    a JSON object, or any other JSON value.  (The object that the fallback
    pattern finds holds no inner brace, so its [arguments] is never an
    object.) *)
Inductive Arguments : Type :=
| Object (fields : Args)
| Scalar (v : pyval)
| Array (items : list pyval).

Coercion Object : Args >-> Arguments.

Definition nonempty_args (a : Args) : bool :=
  match a with [] => false | _ :: _ => true end.

(** Truth value of the arguments, as tested by [if function_name and
    arguments]. *)
Definition truthy_arguments (a : Arguments) : bool :=
  match a with
  | Object fields => nonempty_args fields
  | Scalar v => truthy v
  | Array items => negb (Nat.eqb (length items) 0)
  end.

Definition arguments_type (a : Arguments) : string :=
  match a with
  | Object _ => "dict"
  | Scalar v => type_name v
  | Array _ => "list"
  end.

(** An optional [str]: [None] or text; [if x] holds for non-empty text. *)
Definition truthy_str (x : option string) : bool :=
  match x with Some s => nonempty s | None => false end.

Definition fmt (x : option string) : string :=
  match x with Some s => s | None => "None" end.

Definition val_of (x : option string) : pyval :=
  match x with Some s => VStr s | None => VNone end.

(** ** Data model *)

(** The fields of a ticketing user that the agent reads. *)
Record Customer : Type := mkCustomer {
  cust_id : pyval;
  cust_name : pyval;
  cust_email : pyval;
  cust_phone : pyval;
  cust_created_at : pyval
}.

(** The fields of an open ticket that the agent reads.  A search result
    always carries the three keys; the subject and the description are JSON
    values, text as a rule and [VNone] for a JSON null. *)
Record Ticket : Type := mkTicket {
  t_id : Z;
  t_subject : pyval;
  t_description : pyval
}.

(** The uniform result shape of the dispatcher: one optional field per key
    that some operation returns. *)
Record Result : Type := mkResult {
  r_success : option bool;
  r_error : option string;
  r_needs_confirmation : option bool;
  r_email : option pyval;
  r_customer : option Customer;
  r_action : option string;
  r_ticket_id : option string;
  r_customer_id : option pyval;
  r_message : option string;
  r_appointments : option (list Ticket);
  r_orders : option (list Ticket);
  r_tickets : option (list Ticket)
}.

(** [{"error": e}] *)
Definition error_result (e : string) : Result :=
  mkResult None (Some e) None None None None None None None None None None.

(** [{"success": False, "error": "Customer not found"}] *)
Definition not_found_result : Result :=
  mkResult (Some false) (Some "Customer not found")
           None None None None None None None None None None.

(** [{"error": "Customer not found", "needs_confirmation": True,
      "email": email}] *)
Definition needs_confirmation_result (email : pyval) : Result :=
  mkResult None (Some "Customer not found") (Some true) (Some email)
           None None None None None None None None.

Definition customer_result (c : Customer) : Result :=
  mkResult (Some true) None None None (Some c)
           None None None None None None None.

Definition action_result (action ticket_id : string)
    (customer_id : option pyval) (message : string) : Result :=
  mkResult (Some true) None None None None (Some action) (Some ticket_id)
           customer_id (Some message) None None None.

(** [{"success": True, "message": m}] *)
Definition message_result (message : string) : Result :=
  mkResult (Some true) None None None None None None None (Some message)
           None None None.

Definition appointments_result (l : list Ticket) : Result :=
  mkResult (Some true) None None None None None None None None
           (Some l) None None.

Definition orders_result (l : list Ticket) : Result :=
  mkResult (Some true) None None None None None None None None
           None (Some l) None.

Definition tickets_result (l : list Ticket) : Result :=
  mkResult (Some true) None None None None None None None None
           None None (Some l).

(** [result.get("success")] as a condition *)
Definition succeeded (r : Result) : bool :=
  match r_success r with Some b => b | None => false end.

Definition flagged_needs_confirmation (r : Result) : bool :=
  match r_needs_confirmation r with Some b => b | None => false end.

Inductive Role : Type := user | assistant.

(** A dialogue turn; the content of an assistant turn is the reply, which
    is [None] when a failed escalation had no message. *)
Record Turn : Type := mkTurn {
  role : Role;
  content : option string
}.

Inductive Intent : Type := refund | escalate | support.

(** The module-level session variables. *)
Record Globals : Type := mkGlobals {
  conversation_history : list Turn;
  conversation_topic : string;
  customer_email : option string;
  customer_data : option Customer;
  pending_ticket_request : option Arguments;
  email_confirmation_pending : bool;
  last_intent : option Intent;
  last_intent_details : option string;
  transcript_buffer : list string
}.

Definition set_history (h : list Turn) (g : Globals) : Globals :=
  mkGlobals h (conversation_topic g) (customer_email g) (customer_data g)
    (pending_ticket_request g) (email_confirmation_pending g)
    (last_intent g) (last_intent_details g) (transcript_buffer g).

Definition set_topic (t : string) (g : Globals) : Globals :=
  mkGlobals (conversation_history g) t (customer_email g) (customer_data g)
    (pending_ticket_request g) (email_confirmation_pending g)
    (last_intent g) (last_intent_details g) (transcript_buffer g).

Definition set_email (e : option string) (g : Globals) : Globals :=
  mkGlobals (conversation_history g) (conversation_topic g) e
    (customer_data g) (pending_ticket_request g)
    (email_confirmation_pending g) (last_intent g) (last_intent_details g)
    (transcript_buffer g).

Definition set_customer_data (c : option Customer) (g : Globals) : Globals :=
  mkGlobals (conversation_history g) (conversation_topic g)
    (customer_email g) c (pending_ticket_request g)
    (email_confirmation_pending g) (last_intent g) (last_intent_details g)
    (transcript_buffer g).

Definition set_pending (p : option Arguments) (g : Globals) : Globals :=
  mkGlobals (conversation_history g) (conversation_topic g)
    (customer_email g) (customer_data g) p (email_confirmation_pending g)
    (last_intent g) (last_intent_details g) (transcript_buffer g).

Definition set_confirmation_pending (b : bool) (g : Globals) : Globals :=
  mkGlobals (conversation_history g) (conversation_topic g)
    (customer_email g) (customer_data g) (pending_ticket_request g) b
    (last_intent g) (last_intent_details g) (transcript_buffer g).

Definition set_intent (i : Intent) (details : string) (g : Globals)
    : Globals :=
  mkGlobals (conversation_history g) (conversation_topic g)
    (customer_email g) (customer_data g) (pending_ticket_request g)
    (email_confirmation_pending g) (Some i) (Some details)
    (transcript_buffer g).

Definition set_buffer (b : list string) (g : Globals) : Globals :=
  mkGlobals (conversation_history g) (conversation_topic g)
    (customer_email g) (customer_data g) (pending_ticket_request g)
    (email_confirmation_pending g) (last_intent g) (last_intent_details g)
    b.

(** ** Effects

    The external collaborators.  The ticketing methods catch their own
    failures and report them in their return value; [generate_content]
    answers [None] when the call (or reading its text) raises.
    [scan_function_call] stands for the search of the model's answer for a
    JSON object with a [function] key (last line that parses first, then
    the last brace-free match) and returns the values under [function] and
    [arguments] ([{}] when the key is missing).  The two fixed blocks
    of text of the prompt, the instructions before the session context and
    the response rules after the utterance, are parameters as well: no
    property below depends on their wording. *)

Record Env (World : Type) : Type := mkEnv {
  get_customer_by_email : pyval -> World -> option Customer * World;
  get_open_tickets_by_email : pyval -> World -> list Ticket * World;
  create_ticket :
    pyval -> pyval -> pyval -> pyval -> list string -> pyval ->
    World -> option string * World;
  add_comment_to_ticket : pyval -> pyval -> pyval -> World -> bool * World;
  create_customer : pyval -> World -> option Customer * World;
  generate_content : string -> World -> option string * World;
  scan_function_call : string -> option (pyval * Arguments);
  PROMPT_INSTRUCTIONS : string;
  PROMPT_RESPONSE_RULES : string
}.

Arguments get_customer_by_email {World}.
Arguments get_open_tickets_by_email {World}.
Arguments create_ticket {World}.
Arguments add_comment_to_ticket {World}.
Arguments create_customer {World}.
Arguments generate_content {World}.
Arguments scan_function_call {World}.
Arguments PROMPT_INSTRUCTIONS {World}.
Arguments PROMPT_RESPONSE_RULES {World}.

(** What an observer of a turn can see. *)
Inductive Event : Type :=
| EvLLM (prompt : string)
| EvDispatch (function_name : pyval) (arguments : Arguments)
| EvLog (record : string)
| EvSpeak (text : string).

(** The exceptions that the modelled code can raise.  An
    [AttributeError] carries the name of the type of the object and the
    attribute that it lacks, which make up its text. *)
Inductive Exn : Type :=
| UnboundLocalError
| AttributeError (owner attribute : string)
| TypeError
| LLMError.

(** [str(e)].  The program formats the text of an exception in the
    dispatcher only, where nothing but an [AttributeError] is raised; the
    other exceptions are given the name of their class. *)
Definition str_of_exn (e : Exn) : string :=
  match e with
  | AttributeError owner attribute =>
      "'" +++ owner +++ "' object has no attribute '" +++ attribute +++ "'"
  | UnboundLocalError => "UnboundLocalError"
  | TypeError => "TypeError"
  | LLMError => "LLMError"
  end.

Inductive outcome (A : Type) : Type :=
| Ok (a : A)
| Raised (e : Exn).

Arguments Ok {A}.
Arguments Raised {A}.

Definition and_then {A B} (o : outcome A) (k : A -> outcome B)
    : outcome B :=
  match o with
  | Ok a => k a
  | Raised e => Raised e
  end.

(** [v.lower()]: a method of [str] only. *)
Definition py_lower (v : pyval) : outcome string :=
  match v with
  | VStr s => Ok (lower s)
  | _ => Raised (AttributeError (type_name v) "lower")
  end.

Section Agent.

Context {World : Type}.
Variable env : Env World.

Record Machine : Type := mkMachine {
  globals : Globals;
  world : World;
  trace : list Event
}.

(** State and exceptions: the state reached when an exception is raised
    is kept, as the globals are when Python unwinds. *)
Definition M (A : Type) : Type := Machine -> outcome A * Machine.

Definition ret {A} (a : A) : M A := fun m => (Ok a, m).

Definition bind {A B} (c : M A) (k : A -> M B) : M B :=
  fun m =>
    match c m with
    | (Ok a, m') => k a m'
    | (Raised e, m') => (Raised e, m')
    end.

Definition raise {A} (e : Exn) : M A := fun m => (Raised e, m).

Definition try_except {A} (c : M A) (handler : Exn -> M A) : M A :=
  fun m =>
    match c m with
    | (Ok a, m') => (Ok a, m')
    | (Raised e, m') => handler e m'
    end.

Definition read {A} (f : Globals -> A) : M A :=
  fun m => (Ok (f (globals m)), m).

Definition update (f : Globals -> Globals) : M unit :=
  fun m => (Ok tt, mkMachine (f (globals m)) (world m) (trace m)).

Definition emit (e : Event) : M unit :=
  fun m => (Ok tt, mkMachine (globals m) (world m) (trace m ++ [e])).

Definition call {A} (op : World -> A * World) : M A :=
  fun m =>
    let (a, w) := op (world m) in
    (Ok a, mkMachine (globals m) w (trace m)).

Notation "x <- c ;; k" := (bind c (fun x => k))
  (at level 61, c at next level, right associativity).
Notation "c ;;; k" := (bind c (fun _ => k))
  (at level 61, right associativity).

(** ** Function dispatcher *)

Definition appointment_keywords : list string :=
  ["appointment"; "meeting"; "schedule"; "booking"; "call"; "evisa";
   "visa"].

Definition order_keywords : list string :=
  ["order"; "purchase"; "payment"; "invoice"].

Definition lift {A} (o : outcome A) : M A := fun m => (o, m).

(** [arguments.get(k)] and [arguments.get(k, default)]: a method of [dict]
    only. *)
Definition args_get (arguments : Arguments) (k : string) : M pyval :=
  match arguments with
  | Object fields => ret (get fields k)
  | _ => raise (AttributeError (arguments_type arguments) "get")
  end.

Definition args_get_or (arguments : Arguments) (k : string)
    (default : pyval) : M pyval :=
  match arguments with
  | Object fields => ret (get_or fields k default)
  | _ => raise (AttributeError (arguments_type arguments) "get")
  end.

(** The test of the appointments loop: both fields are lowered before the
    keywords are looked for. *)
Definition is_appointment (ticket : Ticket) : outcome bool :=
  and_then (py_lower (t_subject ticket)) (fun subject =>
  and_then (py_lower (t_description ticket)) (fun description =>
  Ok (any_in appointment_keywords subject ||
      any_in appointment_keywords description))).

(** The test of the orders comprehension: the subject alone is read. *)
Definition is_order (t : Ticket) : outcome bool :=
  and_then (py_lower (t_subject t)) (fun subject =>
  Ok (any_in order_keywords subject)).

(** The loop and the comprehension: the tickets that pass the test, in
    order, or the exception of the first ticket whose test raises. *)
Fixpoint select (test : Ticket -> outcome bool) (tickets : list Ticket)
    : outcome (list Ticket) :=
  match tickets with
  | [] => Ok []
  | ticket :: rest =>
      and_then (test ticket) (fun keep =>
      and_then (select test rest) (fun kept =>
      Ok (if (keep : bool) then ticket :: kept else kept)))
  end.

Definition all_truthy (vs : list pyval) : bool := forallb truthy vs.

Definition copy_customer (customer : Customer) : Customer :=
  mkCustomer (cust_id customer) (cust_name customer) (cust_email customer)
             (cust_phone customer) (cust_created_at customer).

Definition first_ticket_id (open_tickets : list Ticket) : option string :=
  match open_tickets with
  | t :: _ => Some (py_str (VInt (t_id t)))
  | [] => None
  end.

Definition escalation_note (reason : pyval) : string :=
  "Escalation to billing: " +++ py_str reason.

Definition escalated_message : string :=
  "Your request has been escalated to our billing department. They will review your case and contact you within 24 hours.".

Definition account_created_message : string :=
  "Great! I've created your account and submitted your request. Our team will review it and get back to you soon.".

Definition execute_zendesk_function (function_name : pyval)
    (arguments : Arguments) : M Result :=
  emit (EvDispatch function_name arguments) ;;;
  try_except
    (if is_name function_name "get_customer_info" then
       email <- args_get arguments "email" ;;
       if negb (truthy email) then ret (error_result "Email is required")
       else
         customer <- call (get_customer_by_email env email) ;;
         match customer with
         | Some customer => ret (customer_result (copy_customer customer))
         | None => ret not_found_result
         end
     else if is_name function_name "search_customer_tickets" then
       email <- args_get arguments "email" ;;
       search_type <- args_get_or arguments "search_type" (VStr "all") ;;
       if negb (truthy email) then ret (error_result "Email is required")
       else
         tickets <- call (get_open_tickets_by_email env email) ;;
         if is_name search_type "appointments" then
           appointments <- lift (select is_appointment tickets) ;;
           ret (appointments_result appointments)
         else if is_name search_type "orders" then
           orders <- lift (select is_order tickets) ;;
           ret (orders_result orders)
         else ret (tickets_result tickets)
     else if is_name function_name "create_support_ticket" then
       email <- args_get arguments "email" ;;
       subject <- args_get arguments "subject" ;;
       description <- args_get arguments "description" ;;
       priority <- args_get_or arguments "priority" (VStr "normal") ;;
       if negb (all_truthy [email; subject; description]) then
         ret (error_result "Email, subject, and description are required")
       else
         customer <- call (get_customer_by_email env email) ;;
         match customer with
         | None => ret (needs_confirmation_result email)
         | Some customer =>
             open_tickets <- call (get_open_tickets_by_email env email) ;;
             match first_ticket_id open_tickets with
             | Some ticket_id =>
                 success <- call (add_comment_to_ticket env (VStr ticket_id)
                                    description (VBool false)) ;;
                 if (success : bool) then
                   ret (action_result "note_added" ticket_id None
                          "Your request has been added to your existing ticket.")
                 else
                   ret (error_result "Failed to add note to existing ticket")
             | None =>
                 ticket_id <- call (create_ticket env subject description
                                      email (cust_name customer)
                                      ["voice_chat"; "support"] priority) ;;
                 if truthy_str ticket_id then
                   ret (action_result "ticket_created" (fmt ticket_id) None
                          "Your request has been submitted successfully.")
                 else ret (error_result "Failed to create ticket")
             end
         end
     else if is_name function_name "confirm_email_and_create_ticket" then
       email <- args_get arguments "email" ;;
       subject <- args_get arguments "subject" ;;
       description <- args_get arguments "description" ;;
       priority <- args_get_or arguments "priority" (VStr "normal") ;;
       if negb (all_truthy [email; subject; description]) then
         ret (error_result "Email, subject, and description are required")
       else
         customer <- call (create_customer env email) ;;
         match customer with
         | None => ret (error_result "Failed to create customer account")
         | Some customer =>
             ticket_id <- call (create_ticket env subject description email
                                  (cust_name customer)
                                  ["voice_chat"; "support"; "new_customer"]
                                  priority) ;;
             if truthy_str ticket_id then
               ret (action_result "customer_and_ticket_created"
                      (fmt ticket_id) (Some (cust_id customer))
                      account_created_message)
             else ret (error_result "Failed to create ticket")
         end
     else if is_name function_name "add_comment_to_ticket" then
       ticket_id <- args_get arguments "ticket_id" ;;
       comment <- args_get arguments "comment" ;;
       public <- args_get_or arguments "public" (VBool true) ;;
       if negb (all_truthy [ticket_id; comment]) then
         ret (error_result "Ticket ID and comment are required")
       else
         success <- call (add_comment_to_ticket env ticket_id comment
                            public) ;;
         if (success : bool) then
           ret (message_result
                  ("Comment added to ticket #" +++ py_str ticket_id))
         else ret (error_result "Failed to add comment")
     else if is_name function_name "escalate_to_billing" then
       email <- args_get arguments "email" ;;
       reason <- args_get arguments "reason" ;;
       priority <- args_get_or arguments "priority" (VStr "normal") ;;
       if negb (all_truthy [email; reason]) then
         ret (error_result "Email and reason are required")
       else
         customer <- call (get_customer_by_email env email) ;;
         match customer with
         | None => ret (error_result "Customer not found for escalation")
         | Some customer =>
             open_tickets <- call (get_open_tickets_by_email env email) ;;
             match first_ticket_id open_tickets with
             | Some ticket_id =>
                 note_success <-
                   call (add_comment_to_ticket env (VStr ticket_id)
                           (VStr (escalation_note reason)) (VBool false)) ;;
                 if (note_success : bool) then
                   ret (message_result escalated_message)
                 else
                   ret (error_result
                          "Failed to add escalation note to ticket")
             | None =>
                 ticket_id <-
                   call (create_ticket env
                           (VStr "Billing Escalation Request")
                           (VStr (escalation_note reason)) email
                           (cust_name customer)
                           ["voice_chat"; "support"; "escalation"]
                           priority) ;;
                 if truthy_str ticket_id then
                   ret (message_result escalated_message)
                 else
                   ret (error_result
                          "Failed to create ticket for escalation")
             end
         end
     else ret (error_result ("Unknown function: " +++ py_str function_name)))
    (fun e =>
       ret (error_result ("Function execution failed: " +++ str_of_exn e))).

(** ** Response renderer *)

Definition months : list string :=
  ["January"; "February"; "March"; "April"; "May"; "June"; "July";
   "August"; "September"; "October"; "November"; "December"].

Definition date_pattern : Re.pattern :=
  [Re.GOpen; Re.Rep is_digit 1 (Some 2); Re.Rep is_space 1 None;
   Re.Alt true months; Re.Rep is_space 1 None;
   Re.Rep is_digit 4 (Some 4); Re.GClose].

Definition payment_pattern : Re.pattern :=
  [Re.GOpen; Re.Rep is_digit 1 None; Re.GClose; ws; Re.Lit false "USD"].

Definition invoice_pattern : Re.pattern :=
  [Re.Lit true "Invoice"; ws; Re.Lit true "-"; ws;
   Re.GOpen; Re.Rep (fun c => negb (is_space c)) 1 None; Re.GClose].

Definition product_pattern : Re.pattern :=
  [Re.Lit true "Product"; ws; Re.Lit true "-"; ws;
   Re.GOpen; Re.Rep (fun c => is_word c || is_space c) 1 None;
   Re.GClose].

(** [head + m.group(1) + tail] when the pattern is found. *)
Definition with_group1 (p : Re.pattern) (text head tail : string)
    : option string :=
  match Re.search p text with
  | Some m => Some (head +++ fmt (Re.group1 m) +++ tail)
  | None => None
  end.

Definition or_empty (x : option string) : string :=
  match x with Some s => s | None => EmptyString end.

(** [re.search] needs text to search: for a description that is not text
    it raises [TypeError]. *)
Definition render_appointment (appt : Ticket) : outcome string :=
  let subject := py_str (t_subject appt) in
  match t_description appt with
  | VStr description =>
      Ok ((match with_group1 date_pattern description
                   ("Your " +++ subject +++ " appointment is scheduled for ")
                   ". " with
           | Some line => line
           | None => "Appointment: " +++ subject +++ ". "
           end) +++
          (if contains "paid" (lower description) then
             or_empty (with_group1 payment_pattern description
                         "You paid " " USD for this service. ")
           else EmptyString) +++
          "Details: " +++ description +++ " ")
  | _ => Raised TypeError
  end.

Definition render_order (order : Ticket) : outcome string :=
  let subject := py_str (t_subject order) in
  match t_description order with
  | VStr description =>
      Ok ("Order #" +++ py_str (VInt (t_id order)) +++ ": " +++ subject +++
          ". " +++
          or_empty (with_group1 invoice_pattern description "Invoice: " ". ")
          +++
          or_empty (with_group1 product_pattern description "Product: " ". ")
          +++
          "Details: " +++ description +++ " ")
  | _ => Raised TypeError
  end.

(** No pattern is searched for in a generic ticket: both fields are only
    formatted. *)
Definition render_ticket (ticket : Ticket) : outcome string :=
  Ok ("Ticket #" +++ py_str (VInt (t_id ticket)) +++ ": " +++
      py_str (t_subject ticket) +++ ". " +++
      "Details: " +++ py_str (t_description ticket) +++ " ").

(** The loop over the first three items, appending one rendering each. *)
Fixpoint render_each (render : Ticket -> outcome string) (l : list Ticket)
    : outcome string :=
  match l with
  | [] => Ok EmptyString
  | item :: rest =>
      and_then (render item) (fun line =>
      and_then (render_each render rest) (fun lines =>
      Ok (line +++ lines)))
  end.

Definition render_first3 (render : Ticket -> outcome string)
    (l : list Ticket) : outcome string :=
  render_each render (firstn 3 l).

Definition render_search (result : Result) : outcome string :=
  match r_appointments result with
  | Some appointments =>
      if negb (Nat.eqb (length appointments) 0) then
        and_then (render_first3 render_appointment appointments)
          (fun lines =>
             Ok ("I found " +++ str_of_nat (length appointments) +++
                 " appointment(s) for you. " +++ lines +++
                 "Would you like me to help you reschedule this appointment?"))
      else Ok "I don't see any appointments scheduled for you at the moment."
  | None =>
      match r_orders result with
      | Some orders =>
          if negb (Nat.eqb (length orders) 0) then
            and_then (render_first3 render_order orders) (fun lines =>
              Ok ("I found " +++ str_of_nat (length orders) +++
                  " order(s) for you. " +++ lines))
          else Ok "I don't see any orders in your account at the moment."
      | None =>
          let tickets :=
            match r_tickets result with Some l => l | None => [] end in
          if negb (Nat.eqb (length tickets) 0) then
            and_then (render_first3 render_ticket tickets) (fun lines =>
              Ok ("I found " +++ str_of_nat (length tickets) +++
                  " ticket(s) for you. " +++ lines))
          else Ok "I don't see any open tickets for you at the moment."
      end
  end.

Definition apology (result : Result) (default : string) : string :=
  "I'm sorry, but I encountered an issue: " +++
  (match r_error result with Some e => e | None => default end) +++
  ". Please try again or contact support directly.".

Definition welcome_back (customer_info : Customer) : string :=
  "Great! I found your account. Welcome back, " +++
  py_str (cust_name customer_info) +++ ". How can I help you today?".

Definition perfect (result : Result) : string :=
  "Perfect! " +++ fmt (r_message result) +++
  " Our team will review your request and get back to you soon.".

(** [last_intent in ["order", "ticket", "appointment"]]: the tracker
    assigns none of these three tags. *)
Definition asks_for_details (i : option Intent) : bool :=
  match i with
  | Some refund | Some escalate | Some support | None => false
  end.

(** The reply for the result of a plain dispatch. *)
Definition render (function_name : pyval) (result : Result)
    (intent : option Intent) : outcome (option string) :=
  if succeeded result then
    if is_name function_name "get_customer_info" then
      match r_customer result with
      | Some customer_info => Ok (Some (welcome_back customer_info))
      | None => Raised TypeError
      end
    else if is_name function_name "search_customer_tickets" then
      and_then (render_search result) (fun text => Ok (Some text))
    else if is_name function_name "create_support_ticket" then
      Ok (Some (perfect result))
    else if is_name function_name "confirm_email_and_create_ticket" then
      Ok (Some (perfect result))
    else if is_name function_name "add_comment_to_ticket" then
      Ok (Some ("Great! " +++ fmt (r_message result) +++
                ". Your information has been added to the ticket."))
    else if is_name function_name "escalate_to_billing" then
      Ok (r_message result)
    else if asks_for_details intent then
      (* last_ticket, last_order and last_appointment are locals that
         this path has not bound *)
      Raised UnboundLocalError
    else Ok (Some (apology result "Unknown error occurred"))
  else Ok (Some (apology result "Unknown error occurred")).

(** ** Prompt construction *)

Definition nl : string := String (ascii_of_nat 10) EmptyString.
Definition dq : string := String (ascii_of_nat 34) EmptyString.

(** [l[-n:]] for [0 < n] *)
Definition last_n {A} (n : nat) (l : list A) : list A :=
  skipn (length l - n) l.

Definition is_user (r : Role) : bool :=
  match r with user => true | assistant => false end.

Definition history_line (msg : Turn) : string :=
  (if is_user (role msg) then "Customer" else "Assistant") +++
  ": " +++ fmt (content msg) +++ nl.

(** [any("appointment" in r.lower() and "found" in r.lower() for r in
    responses)]: a [None] reply met before a hit has no [lower]. *)
Fixpoint already_found (responses : list (option string)) : outcome bool :=
  match responses with
  | [] => Ok false
  | None :: _ => Raised (AttributeError "NoneType" "lower")
  | Some response :: rest =>
      if contains "appointment" (lower response) &&
         contains "found" (lower response)
      then Ok true
      else already_found rest
  end.

Definition assistant_replies (turns : list Turn) : list (option string) :=
  map content (filter (fun msg => negb (is_user (role msg))) turns).

Definition customer_block (customer_data : option Customer) : string :=
  match customer_data with
  | Some c =>
      nl +++ nl +++ "Customer data available:" +++ nl +++
      "- Name: " +++ py_str (cust_name c) +++ nl +++
      "- Email: " +++ py_str (cust_email c) +++ nl +++
      "- Phone: " +++ py_str (cust_phone c) +++ nl
  | None => EmptyString
  end.

Definition is_some {A} (x : option A) : bool :=
  match x with Some _ => true | None => false end.

Definition build_function_calling_prompt (transcript : string)
    (history : list Turn) (customer_data : option Customer)
    (email : option string) : outcome string :=
  let recent_messages := last_n 4 history in
  let prompt := PROMPT_INSTRUCTIONS env in
  let prompt :=
    if negb (Nat.eqb (length history) 0) then
      prompt +++ nl +++ nl +++ "Recent conversation:" +++ nl +++
      String.concat EmptyString (map history_line recent_messages)
    else prompt in
  let prompt := prompt +++ customer_block customer_data in
  let prompt :=
    if truthy_str email && negb (is_some customer_data) then
      prompt +++ nl +++ nl +++ "Customer email provided: " +++
      fmt email +++ nl
    else prompt in
  let tail (prompt : string) :=
    prompt +++ nl +++ nl +++ "Customer says: " +++ transcript +++
    nl +++ nl +++ PROMPT_RESPONSE_RULES env in
  if 2 <? length history then
    let prompt :=
      prompt +++ nl +++ nl +++
      "Conversation context: The customer has been asking about rescheduling their appointment. " in
    let prompt :=
      if truthy_str email then
        prompt +++ "They provided their email: " +++ fmt email +++ ". "
      else prompt in
    let prompt :=
      if is_some customer_data then
        prompt +++ "I have their account information. "
      else prompt in
    match already_found (assistant_replies (last_n 4 history)) with
    | Raised e => Raised e
    | Ok hit =>
        let prompt :=
          if hit then
            prompt +++ "I already found their appointment information. "
          else prompt in
        Ok (tail (prompt +++ "Continue helping them with their request." +++
                  nl))
    end
  else Ok (tail prompt).

(** ** Conversation state machine *)

Definition refund_words : list string :=
  ["refund"; "money back"; "return"; "cancel"].
Definition escalate_words : list string := ["escalate"; "billing"].
Definition support_words : list string :=
  ["appointment"; "order"; "ticket"; "support"].

Definition confirmation_keywords : list string :=
  ["yes"; "correct"; "right"; "that's right"; "that is correct";
   "confirm"; "okay"; "ok"].
Definition denial_keywords : list string :=
  ["no"; "wrong"; "incorrect"; "that's wrong"; "that is wrong";
   "not correct"; "different"].

Definition simple_greetings : list string :=
  ["hello"; "hi"; "hey"; "good morning"; "good afternoon";
   "good evening"].
Definition general_questions : list string :=
  ["how are you"; "what can you help with"; "what can you do";
   "how does this work"].
Definition account_keywords : list string :=
  ["my account"; "my appointment"; "my order"; "my ticket"; "my payment";
   "how much did i pay"; "when is my"; "escalate"; "billing"].

Definition ask_for_email : string :=
  "I'll need your email address to help you with that. Could you please provide your email address?".
Definition ask_correct_email : string :=
  "I understand. Could you please provide the correct email address?".
Definition ask_yes_or_no : string :=
  "I didn't catch that. Could you please confirm if that email address is correct? Just say 'yes' or 'no'.".
Definition greeting_plain : string :=
  "Hello! I'm your customer service assistant. I can help you with account information, appointments, orders, and support requests. How can I assist you today?".
Definition greeting_named (name : pyval) : string :=
  "Hello " +++ py_str name +++
  "! I'm here to help. What would you like to know about your account or appointments?".
Definition help_known : string :=
  "Since I have your account information, I can help you with your appointments, orders, payments, and support requests. What would you like to know?".
Definition help_plain : string :=
  "I can help you with your account information, check appointments and orders, create support tickets, and answer questions about your services. What would you like to know?".
Definition ask_confirm_email (email : option pyval) : string :=
  "I don't see an account with the email " +++
  (match email with Some e => py_str e | None => "None" end) +++
  ". Is this email address correct? Please confirm by saying 'yes' or 'no'.".
Definition no_account (email : option string) (purpose : string)
    : string :=
  "I don't see any account details using the email " +++ fmt email +++
  ". Could you please check and provide me with the correct email address so I can " +++
  purpose +++ "?".
Definition escalated_anyway : string :=
  "I've escalated your request to our billing department. They will review your case and contact you within 24 hours.".
Definition llm_trouble : string :=
  "I'm sorry, I'm having trouble processing your request right now. Please try again.".
Definition please_repeat : string :=
  "I'm sorry, I didn't catch that. Could you please repeat?".

Definition user_turn (transcript : string) : Turn :=
  mkTurn user (Some transcript).
Definition assistant_turn (response_text : option string) : Turn :=
  mkTurn assistant response_text.

Definition append_turn (t : Turn) : M unit :=
  update (fun g => set_history (conversation_history g ++ [t]) g).

(** What ends every branch of the step: the user turn and the assistant
    turn are appended and the reply is returned. *)
Definition reply (transcript : string) (response_text : option string)
    : M (option string) :=
  append_turn (user_turn transcript) ;;;
  append_turn (assistant_turn response_text) ;;;
  ret response_text.

Definition is_pending (g : Globals) : bool :=
  email_confirmation_pending g &&
  match pending_ticket_request g with
  | Some a => truthy_arguments a
  | None => false
  end.

Definition resumes_billing (i : option Intent) : bool :=
  match i with
  | Some refund | Some escalate => true
  | _ => false
  end.

(** Step 1: a later extraction overwrites the session email. *)
Definition note_email (transcript : string) (g : Globals) : Globals :=
  if truthy_str (extract_email_from_text transcript) then
    set_email (extract_email_from_text transcript) g
  else g.

(** Step 2: the sticky intent. *)
Definition track_intent (transcript : string) (g : Globals) : Globals :=
  let transcript_lower := strip (lower transcript) in
  if any_in refund_words transcript_lower then
    set_intent refund transcript g
  else if any_in escalate_words transcript_lower then
    set_intent escalate transcript g
  else if any_in support_words transcript_lower then
    set_intent support transcript g
  else g.

(** Step 3: the turn taken while a confirmation is pending. *)
Definition confirmation_flow (transcript : string)
    (pending_request : Arguments) : M (option string) :=
  let transcript_lower := strip (lower transcript) in
  if any_in confirmation_keywords transcript_lower then
    update (set_confirmation_pending false) ;;;
    result <- execute_zendesk_function
                (VStr "confirm_email_and_create_ticket") pending_request ;;
    update (set_pending None) ;;;
    if succeeded result then
      reply transcript
        (Some (match r_message result with
               | Some message => message
               | None => "Your request has been submitted successfully."
               end))
    else reply transcript (Some (apology result "Unknown error"))
  else if any_in denial_keywords transcript_lower then
    update (set_confirmation_pending false) ;;;
    update (set_pending None) ;;;
    update (set_email None) ;;;
    reply transcript (Some ask_correct_email)
  else reply transcript (Some ask_yes_or_no).

(** Step 8: a scanned function call with a name and arguments. *)
Definition handle_function_call (transcript : string)
    (function_name : pyval) (arguments : Arguments) : M (option string) :=
  email <- read customer_email ;;
  (* [function_name == "create_support_ticket" and
      not arguments.get("email")] *)
  without_email <-
    (if is_name function_name "create_support_ticket" then
       email_argument <- args_get arguments "email" ;;
       ret (negb (truthy email_argument))
     else ret false) ;;
  if (without_email : bool) then
    reply transcript (Some ask_for_email)
  else if is_name function_name "get_customer_info" && truthy_str email
  then
    result <- execute_zendesk_function function_name arguments ;;
    if succeeded result then
      update (set_customer_data (r_customer result)) ;;;
      intent <- read last_intent ;;
      details <- read last_intent_details ;;
      if resumes_billing intent then
        escalation_result <-
          execute_zendesk_function (VStr "escalate_to_billing")
            (Object
               [("email", val_of email);
                ("reason",
                 VStr (if truthy_str details then fmt details
                       else "Refund request"));
                ("priority", VStr "high")]) ;;
        if succeeded escalation_result then
          reply transcript (r_message escalation_result)
        else reply transcript (Some escalated_anyway)
      else
        match r_customer result with
        | Some customer_info =>
            reply transcript (Some (welcome_back customer_info))
        | None => raise TypeError
        end
    else
      reply transcript (Some (no_account email "help you with your request"))
  else if is_name function_name "escalate_to_billing" then
    if truthy_str email then
      customer_check <-
        execute_zendesk_function (VStr "get_customer_info")
          (Object [("email", val_of email)]) ;;
      if succeeded customer_check then
        result <- execute_zendesk_function function_name arguments ;;
        reply transcript (r_message result)
      else
        reply transcript (Some (no_account email "escalate your request"))
    else
      result <- execute_zendesk_function function_name arguments ;;
      reply transcript (r_message result)
  else
    (* the local [result] has no value on the paths that reach the
       test of the confirmation flag *)
    let result : option Result := None in
    if is_name function_name "create_support_ticket" then
      match result with
      | None => raise UnboundLocalError
      | Some result =>
          if flagged_needs_confirmation result then
            update (set_pending (Some arguments)) ;;;
            update (set_confirmation_pending true) ;;;
            reply transcript (Some (ask_confirm_email (r_email result)))
          else
            result <- execute_zendesk_function function_name arguments ;;
            intent <- read last_intent ;;
            response_text <- lift (render function_name result intent) ;;
            reply transcript response_text
      end
    else
      result <- execute_zendesk_function function_name arguments ;;
      intent <- read last_intent ;;
      response_text <- lift (render function_name result intent) ;;
      reply transcript response_text.

(** Steps 6 and 7, inside the handler that turns every exception into
    the fixed apology. *)
Definition ask_llm (transcript prompt : string) : M (option string) :=
  try_except
    (emit (EvLLM prompt) ;;;
     response <- call (generate_content env prompt) ;;
     match response with
     | None => raise LLMError
     | Some text =>
         let response_text := strip text in
         match scan_function_call env response_text with
         | Some (function_name, arguments) =>
             if truthy function_name && truthy_arguments arguments then
               handle_function_call transcript function_name arguments
             else reply transcript (Some response_text)
         | None => reply transcript (Some response_text)
         end
     end)
    (fun _ => reply transcript (Some llm_trouble)).

Definition process_with_function_calling (transcript : string)
    : M (option string) :=
  update (note_email transcript) ;;;
  update (track_intent transcript) ;;;
  let transcript_lower := strip (lower transcript) in
  g <- read (fun g => g) ;;
  if is_pending g then
    confirmation_flow transcript
      (match pending_ticket_request g with
       | Some a => a
       | None => Object []
       end)
  else if any_in simple_greetings transcript_lower then
    match customer_data g with
    | Some c => reply transcript (Some (greeting_named (cust_name c)))
    | None => reply transcript (Some greeting_plain)
    end
  else if any_in general_questions transcript_lower then
    reply transcript
      (Some (if is_some (customer_data g) then help_known else help_plain))
  else if any_in account_keywords transcript_lower &&
          negb (is_some (customer_data g)) &&
          negb (truthy_str (customer_email g)) then
    reply transcript (Some ask_for_email)
  else
    prompt <- lift (build_function_calling_prompt transcript
                      (conversation_history g) (customer_data g)
                      (customer_email g)) ;;
    ask_llm transcript prompt.

(** ** The turn *)

Definition topic_prompt (transcript : string) : string :=
  "Analyze this user input and identify the main topic or intent: " +++
  dq +++ transcript +++ dq +++ nl +++ nl +++
  "Return only the topic in 1-3 words (e.g., " +++
  dq +++ "refund" +++ dq +++ ", " +++ dq +++ "email help" +++ dq +++ ", " +++
  dq +++ "greeting" +++ dq +++ ", " +++ dq +++ "technical support" +++ dq +++
  ").".

Definition detect_topic (transcript : string) : M unit :=
  emit (EvLLM (topic_prompt transcript)) ;;;
  topic_response <- call (generate_content env (topic_prompt transcript)) ;;
  match topic_response with
  | Some text => update (set_topic (lower (strip text)))
  | None => update (set_topic "general")
  end.

(** [history[-12:]] when more than twelve turns are held. *)
Definition truncate (history : list Turn) : list Turn :=
  if 12 <? length history then last_n 12 history else history.

Definition process_with_gemini (transcript : string) : M (option string) :=
  try_except
    (append_turn (user_turn transcript) ;;;
     g <- read (fun g => g) ;;
     (if is_empty (conversation_topic g) &&
         Nat.eqb (length (conversation_history g)) 1
      then detect_topic transcript else ret tt) ;;;
     response_text <- process_with_function_calling transcript ;;
     append_turn (assistant_turn response_text) ;;;
     update (fun g => set_history (truncate (conversation_history g)) g) ;;;
     ret response_text)
    (fun _ => ret (Some please_repeat)).

(** ** Utterance assembler *)

Inductive SttMessage : Type :=
| Malformed
| UtteranceEnd
| Results (transcript : string) (is_final is_interim speech_final : bool)
| Other.

Definition transcript_record (full_transcript : string)
    (response_text : option string) : string :=
  "User: " +++ full_transcript +++ nl +++
  "Assistant: " +++ fmt response_text +++ nl +++ nl.

(** What follows a completed utterance that is not ignored: the turn, the
    transcript record and the speech request. *)
Definition deliver (full_transcript : string) : M unit :=
  response_text <- process_with_gemini full_transcript ;;
  emit (EvLog (transcript_record full_transcript response_text)) ;;;
  if truthy_str response_text then emit (EvSpeak (fmt response_text))
  else ret tt.

(** [is_speaking] is the value of the shared flag when it is tested. *)
Definition on_stt_message (is_speaking : bool) (message : SttMessage)
    : M unit :=
  match message with
  | UtteranceEnd =>
      buffer <- read transcript_buffer ;;
      if negb (Nat.eqb (length buffer) 0) then
        let full_transcript := strip (join " " buffer) in
        update (set_buffer []) ;;;
        if nonempty full_transcript then
          if is_speaking then ret tt else deliver full_transcript
        else ret tt
      else ret tt
  | Results transcript is_final is_interim speech_final =>
      if nonempty transcript && is_final then
        update (fun g => set_buffer (transcript_buffer g ++ [transcript]) g)
      else ret tt
  | Malformed | Other => ret tt
  end.

Fixpoint feed (is_speaking : bool) (messages : list SttMessage) : M unit :=
  match messages with
  | [] => ret tt
  | message :: rest =>
      on_stt_message is_speaking message ;;; feed is_speaking rest
  end.

End Agent.

Arguments mkMachine {World}.
Arguments globals {World}.
Arguments world {World}.
Arguments trace {World}.

(** ** A small in-memory desk, to run the agent on concrete sessions *)

Module Desk.

(** Known customers, the open tickets with their requester, the next
    ticket id and the answers the model will give, in order. *)
Record World : Type := mkWorld {
  users : list Customer;
  open_tickets : list (string * Ticket);
  next_id : Z;
  answers : list string
}.

Definition has_email (email : pyval) (c : Customer) : bool :=
  String.eqb (py_str (cust_email c)) (py_str email).

Definition find_user (email : pyval) (w : World)
    : option Customer * World :=
  (find (has_email email) (users w), w).

Definition tickets_of (email : pyval) (w : World) : list Ticket * World :=
  (map snd (filter (fun p => String.eqb (fst p) (py_str email))
              (open_tickets w)), w).

Definition new_ticket (subject comment email name : pyval)
    (tags : list string) (priority : pyval) (w : World)
    : option string * World :=
  (Some (py_str (VInt (next_id w))),
   mkWorld (users w)
     (open_tickets w ++
      [(py_str email, mkTicket (next_id w) subject comment)])
     (next_id w + 1) (answers w)).

Definition comment (ticket_id text public : pyval) (w : World)
    : bool * World := (true, w).

Definition new_user (email : pyval) (w : World)
    : option Customer * World :=
  let c := mkCustomer (VInt (next_id w)) (VStr "Customer") email VNone
             VNone in
  (Some c,
   mkWorld (users w ++ [c]) (open_tickets w) (next_id w + 1) (answers w)).

Definition answer (prompt : string) (w : World) : option string * World :=
  match answers w with
  | a :: rest =>
      (Some a, mkWorld (users w) (open_tickets w) (next_id w) rest)
  | [] => (None, w)
  end.

(** The scan, given as the table of the answers that hold a call. *)
Fixpoint scan (calls : list (string * (pyval * Arguments)))
    (text : string) : option (pyval * Arguments) :=
  match calls with
  | [] => None
  | (t, c) :: rest => if String.eqb t text then Some c else scan rest text
  end.

Definition env (calls : list (string * (pyval * Arguments)))
    : Env World :=
  mkEnv World find_user tickets_of new_ticket comment new_user answer
        (scan calls) EmptyString EmptyString.

Definition fresh : Globals :=
  mkGlobals [] EmptyString None None None false None None [].

Definition start (w : World) : Machine := mkMachine fresh w [].

End Desk.

Definition dquote : string := String (ascii_of_nat 34) EmptyString.
Definition q (s : string) : string := dquote +++ s +++ dquote.

Definition demo_args : Args :=
  [("email", VStr "new@example.com"); ("subject", VStr "Printer");
   ("description", VStr "Printer is broken")].

Definition demo_call_text : string :=
  "{" +++ q "function" +++ ": " +++ q "create_support_ticket" +++ ", " +++
  q "arguments" +++ ": {" +++ q "email" +++ ": " +++ q "new@example.com" +++
  ", " +++ q "subject" +++ ": " +++ q "Printer" +++ ", " +++
  q "description" +++ ": " +++ q "Printer is broken" +++ "}}".

Definition demo_env : Env Desk.World :=
  Desk.env
    [(demo_call_text, (VStr "create_support_ticket", Object demo_args))].

Definition demo_world : Desk.World :=
  Desk.mkWorld [] [] 1 [demo_call_text].


(** ** Vocabulary of the properties *)

(** A computation that only talks to the backend: it returns, and leaves
    the session variables and the trace as they were. *)
Definition backend_only {World A} (c : @M World A) : Prop :=
  forall m, exists a w, c m = (Ok a, mkMachine (globals m) w (trace m)).

(** A computation that only talks to the backend and may raise: whatever
    its outcome, the session variables and the trace are as they were. *)
Definition backend_or_raise {World A} (c : @M World A) : Prop :=
  forall m, exists o w, c m = (o, mkMachine (globals m) w (trace m)).

(** Two machines agree on one session variable. *)
Definition same {World B} (proj : Globals -> B) (m m' : @Machine World)
    : Prop :=
  proj (globals m') = proj (globals m).

(** Whatever its outcome, [c] leaves a machine related to the one it
    started from. *)
Definition keeps {World A} (R : @Machine World -> @Machine World -> Prop)
    (c : @M World A) : Prop :=
  forall m, R m (snd (c m)).

(** [c] ends by appending the user turn and the assistant turn of its
    reply, or raises with the history untouched. *)
Definition appends {World} (transcript : string)
    (c : @M World (option string)) : Prop :=
  forall m,
    match c m with
    | (Ok r, m') =>
        conversation_history (globals m') =
        conversation_history (globals m) ++
        [user_turn transcript; assistant_turn r]
    | (Raised _, m') =>
        conversation_history (globals m') = conversation_history (globals m)
    end.

(** The session after a reply: both turns appended. *)
Definition replied (transcript : string) (response_text : option string)
    (g : Globals) : Globals :=
  set_history
    (conversation_history g ++
     [user_turn transcript; assistant_turn response_text]) g.

(** The session as the step sees it after steps 1 and 2. *)
Definition noted (transcript : string) (g : Globals) : Globals :=
  track_intent transcript (note_email transcript g).

Definition with_globals {World} (g : Globals) (m : @Machine World)
    : @Machine World :=
  mkMachine g (world m) (trace m).

(** The machine with its transcript buffer emptied. *)
Definition cleared {World} (m : @Machine World) : @Machine World :=
  with_globals (set_buffer [] (globals m)) m.

(** A final transcript segment, with its [speech_final] flag. *)
Definition final_segment (segment : string * bool) : SttMessage :=
  Results (fst segment) true false (snd segment).

(** The texts that final segments leave in the buffer. *)
Definition buffered (segments : list (string * bool)) : list string :=
  filter nonempty (map fst segments).

(** Processing utterances one after the other. *)
Fixpoint converse {World} (env : Env World) (utterances : list string)
    (m : @Machine World) : @Machine World :=
  match utterances with
  | [] => m
  | transcript :: rest =>
      converse env rest (snd (process_with_gemini env transcript m))
  end.

Definition is_dispatch (e : Event) : bool :=
  match e with EvDispatch _ _ => true | _ => false end.

(** *** The bucketing of open tickets as the specification words it

    Each ticket is classified by keyword match against its subject and
    description, appointments first, then orders, then generic tickets. *)

Inductive Bucket : Type := Appointments | Orders | Tickets.

(** The text of a field; a field that is not text has none. *)
Definition text_of (v : pyval) : string :=
  match v with VStr s => s | _ => EmptyString end.

Definition spec_mentions (keywords : list string) (t : Ticket) : bool :=
  any_in keywords (lower (text_of (t_subject t))) ||
  any_in keywords (lower (text_of (t_description t))).

Definition subject_mentions (keywords : list string) (t : Ticket) : bool :=
  any_in keywords (lower (text_of (t_subject t))).

(** The fields that the appointments filter lowers, and the one that the
    orders filter lowers, are text. *)
Definition text_fields (t : Ticket) : bool :=
  is_text (t_subject t) && is_text (t_description t).

Definition text_subject (t : Ticket) : bool := is_text (t_subject t).

(** The error that the dispatcher returns when a field that is not text is
    lowered. *)
Definition cannot_lower (v : pyval) : Result :=
  error_result
    ("Function execution failed: '" +++ type_name v +++
     "' object has no attribute 'lower'").

Definition spec_bucket (t : Ticket) : Bucket :=
  if spec_mentions ["appointment"; "meeting"; "schedule"; "booking"; "call";
                    "evisa"; "visa"] t then Appointments
  else if spec_mentions ["order"; "purchase"; "payment"; "invoice"] t
  then Orders
  else Tickets.

(** *** Sample sessions *)

Definition ann : Customer :=
  mkCustomer (VInt 7) (VStr "Ann") (VStr "ann@example.com") VNone VNone.

Definition visa_ticket : Ticket :=
  mkTicket 41 (VStr "Payment for visa appointment")
    (VStr "Paid 120 USD on 3 March 2025").

Definition late_ticket : Ticket :=
  mkTicket 42 (VStr "Question") (VStr "Where is my order?").

(** A ticket that was opened without a subject: the backend sends a JSON
    null for it. *)
Definition draft_ticket : Ticket :=
  mkTicket 43 VNone (VStr "Invoice - A17 for the visa order").

(** An order whose description is a JSON null. *)
Definition bare_order : Ticket := mkTicket 44 (VStr "Order 12") VNone.

Definition ann_world : Desk.World :=
  Desk.mkWorld [ann]
    [("ann@example.com", visa_ticket); ("ann@example.com", late_ticket)]
    43 [].

(** A session waiting for the confirmation of [new@example.com], with the
    identity of an earlier lookup still stored. *)
Definition awaiting : @Machine Desk.World :=
  mkMachine
    (mkGlobals [] "support" (Some "new@example.com") (Some ann)
       (Some (Object demo_args)) true None None [])
    demo_world [].

(** A session that knows the caller's email and nothing else. *)
Definition email_known : @Machine Desk.World :=
  mkMachine
    (mkGlobals [] "support" (Some "new@example.com") None None false None
       None [])
    demo_world [].

Definition draft_world : Desk.World :=
  Desk.mkWorld [ann]
    [("ann@example.com", visa_ticket); ("ann@example.com", draft_ticket)]
    45 [].

Definition bare_order_world : Desk.World :=
  Desk.mkWorld [ann] [("ann@example.com", bare_order)] 45 [].

Definition printer_request : string :=
  "please open a ticket, the printer is broken".

(** The prompt built for [printer_request] in the session [email_known]. *)
Definition printer_prompt : string :=
  match build_function_calling_prompt demo_env printer_request []
          None (Some "new@example.com") with
  | Ok prompt => prompt
  | Raised _ => EmptyString
  end.

Definition demo_world_answered : Desk.World := Desk.mkWorld [] [] 1 [].

Definition confirm_event : Event :=
  EvDispatch (VStr "confirm_email_and_create_ticket") demo_args.

Definition greeting_world : Desk.World := Desk.mkWorld [] [] 1 ["greeting"].

Definition seven_hellos : list string :=
  ["hello 1"; "hello 2"; "hello 3"; "hello 4"; "hello 5"; "hello 6";
   "hello 7"].

Definition search_args (search_type : string) : Args :=
  [("email", VStr "ann@example.com"); ("search_type", VStr search_type)].

(** ** Further functions of the source *)

(** *** [detect_customer_intent] *)

Module CustomerIntent.

(** The dictionary the function returns. *)
Record t : Type := mk {
  type : string;
  requires_email : bool;
  requires_account_access : bool;
  action_needed : option string
}.

Definition account_keywords : list string :=
  ["account"; "profile"; "details"; "information"; "change"; "update";
   "modify"].
Definition order_keywords : list string :=
  ["order"; "purchase"; "transaction"; "payment"; "invoice"; "receipt"].
Definition meeting_keywords : list string :=
  ["meeting"; "appointment"; "schedule"; "booking"; "call"; "evisa"].
Definition support_keywords : list string :=
  ["help"; "support"; "issue"; "problem"; "ticket"; "complaint"].

End CustomerIntent.

(** Four independent tests in sequence; each one that matches overwrites
    the type and sets its flags, and leaves the other keys as they are. *)
Definition detect_customer_intent (text : string) : CustomerIntent.t :=
  let text_lower := lower text in
  let intent := CustomerIntent.mk "general" false false None in
  let intent :=
    if any_in CustomerIntent.account_keywords text_lower then
      CustomerIntent.mk "account_management" true true
        (CustomerIntent.action_needed intent)
    else intent in
  let intent :=
    if any_in CustomerIntent.order_keywords text_lower then
      CustomerIntent.mk "order_inquiry" true
        (CustomerIntent.requires_account_access intent)
        (CustomerIntent.action_needed intent)
    else intent in
  let intent :=
    if any_in CustomerIntent.meeting_keywords text_lower then
      CustomerIntent.mk "meeting_management" true
        (CustomerIntent.requires_account_access intent)
        (CustomerIntent.action_needed intent)
    else intent in
  if any_in CustomerIntent.support_keywords text_lower then
    CustomerIntent.mk "support_request" true
      (CustomerIntent.requires_account_access intent) (Some "create_ticket")
  else intent.

(** *** The text that [speak_text_elevenlabs] submits

    The text is the reply of the language model and may hold any
    character.  A Python [str] is a sequence of Unicode code points, and
    [len], slicing, [replace] and [strip] count and test code points: the
    text is modelled by the list of its code points. *)

Module Speech.

Definition between (lo hi c : N) : bool := (N.leb lo c && N.leb c hi)%bool.

(** [c.isspace()]: the white space of Unicode. *)
Definition isspace (c : N) : bool :=
  (between 9 13 c || between 28 32 c || N.eqb c 133 || N.eqb c 160 ||
   N.eqb c 5760 || between 8192 8202 c || N.eqb c 8232 || N.eqb c 8233 ||
   N.eqb c 8239 || N.eqb c 8287 || N.eqb c 12288)%N%bool.

Fixpoint lstrip (s : list N) : list N :=
  match s with
  | [] => []
  | c :: s' => if isspace c then lstrip s' else s
  end.

Fixpoint rstrip (s : list N) : list N :=
  match s with
  | [] => []
  | c :: s' =>
      match rstrip s' with
      | [] => if isspace c then [] else [c]
      | r => c :: r
      end
  end.

(** [s.strip()] *)
Definition strip (s : list N) : list N := rstrip (lstrip s).

(** [s.replace(old, new)] for a one-character [old]. *)
Definition replace1 (old : N) (new s : list N) : list N :=
  flat_map (fun c => if N.eqb c old then new else [c]) s.

Definition LF : N := 10.
Definition CR : N := 13.
Definition SPACE : N := 32.
Definition FULL_STOP : N := 46.

End Speech.

(** The cleaning at the head of [speak_text_elevenlabs]: the text sent to
    the speech service, or [None] when the function returns without sending
    anything. *)
Definition speak_text_elevenlabs_text (text : list N) : option (list N) :=
  let text :=
    Speech.replace1 Speech.CR []
      (Speech.replace1 Speech.LF [Speech.SPACE] (Speech.strip text)) in
  let text :=
    if 500 <? length text then
      firstn 500 text ++
      [Speech.FULL_STOP; Speech.FULL_STOP; Speech.FULL_STOP]
    else text in
  match text with
  | [] => None
  | _ :: _ => Some text
  end.

(** Every character of a string satisfies a test. *)
Fixpoint all_chars (p : ascii -> bool) (s : string) : bool :=
  match s with
  | EmptyString => true
  | String c s' => p c && all_chars p s'
  end.

(** *** Queuing and playing audio

    Samples are the 16-bit integers of the decoded speech; a queued chunk
    is modelled by its samples ([tobytes] and [frombuffer] are inverse). *)

Definition chunk_size : nat := 1024.

(** [l[i:j]] for [0 <= i <= j] *)
Definition slice {A} (i j : nat) (l : list A) : list A :=
  firstn (j - i) (skipn i l).

(** [range(0, n, step)] for [0 < step] *)
Definition range_step (n step : nat) : list nat :=
  map (fun k => k * step) (seq 0 ((n + step - 1) / step)).

(** The chunks that [speak_text_elevenlabs] puts on the audio queue. *)
Definition audio_chunks {A} (samples : list A) : list (list A) :=
  map (fun i => slice i (i + chunk_size) samples)
      (range_step (length samples) chunk_size).

(** [audio_callback]: the samples written to the output block (each is
    then divided by 32768.0; silence is the sample 0) and the buffer that
    is left. *)
Definition audio_callback (audio_buffer : list Z) (frames : nat)
    : list Z * list Z :=
  if frames <=? length audio_buffer then
    (firstn frames audio_buffer, skipn frames audio_buffer)
  else if 0 <? length audio_buffer then
    (audio_buffer ++ repeat 0%Z (frames - length audio_buffer), [])
  else (repeat 0%Z frames, []).

(** ** Further vocabulary *)

(** A computation that only talks to the backend and whose value, when it
    returns one, satisfies [P]. *)
Definition settles {World A} (P : A -> Prop) (c : @M World A) : Prop :=
  forall m,
    exists o w,
      c m = (o, mkMachine (globals m) w (trace m)) /\
      match o with Ok a => P a | Raised _ => True end.

(** The uniform shape of a dispatcher result: success without an error, or
    an error without success. *)
Definition well_shaped (r : Result) : Prop :=
  (r_success r = Some true /\ r_error r = None) \/
  (succeeded r = false /\ exists e, r_error r = Some e).

Definition is_utterance_end (message : SttMessage) : bool :=
  match message with UtteranceEnd => true | _ => false end.

(** The text a message adds to the buffer, if any. *)
Definition buffered_text (message : SttMessage) : list string :=
  match message with
  | Results transcript is_final _ _ =>
      if nonempty transcript && is_final then [transcript] else []
  | _ => []
  end.

Definition the_six : list string :=
  ["get_customer_info"; "search_customer_tickets"; "create_support_ticket";
   "confirm_email_and_create_ticket"; "add_comment_to_ticket";
   "escalate_to_billing"].

(** The name of a dispatch recorded in the trace. *)
Definition dispatched (e : Event) : list pyval :=
  match e with EvDispatch function_name _ => [function_name] | _ => [] end.

Definition dispatches (tr : list Event) : list pyval :=
  flat_map dispatched tr.

(** The session email a lookup through the model would use. *)
Definition lookup_args (email : option string) : Args :=
  [("email", val_of email)].

(** The [required] lists of [ZENDESK_FUNCTIONS], the schema given to the
    model. *)
Definition ZENDESK_FUNCTIONS_required : list (string * list string) :=
  [("get_customer_info", ["email"]);
   ("search_customer_tickets", ["email"; "search_type"]);
   ("create_support_ticket", ["email"; "subject"; "description"]);
   ("confirm_email_and_create_ticket", ["email"; "subject"; "description"]);
   ("add_comment_to_ticket", ["ticket_id"; "comment"]);
   ("escalate_to_billing", ["email"; "reason"])].

(** A known identity is still known. *)
Definition remembers {World} (m m' : @Machine World) : Prop :=
  is_some (customer_data (globals m)) = true ->
  is_some (customer_data (globals m')) = true.

(** No confirmation is awaited: no pending request and the flag clear. *)
Definition idle (g : Globals) : Prop :=
  pending_ticket_request g = None /\ email_confirmation_pending g = false.

Definition stays_idle {World} (m m' : @Machine World) : Prop :=
  idle (globals m) -> idle (globals m').

(** *** Further sample sessions *)

Definition visa_note_args : Args :=
  [("email", VStr "ann@example.com"); ("subject", VStr "Visa");
   ("description", VStr "Paid again")].

(** Ann has given her email and asked for a refund; her identity has not
    been looked up yet. *)
Definition refund_caller : @Machine Desk.World :=
  mkMachine
    (mkGlobals [] "refund" (Some "ann@example.com") None None false
       (Some refund) (Some "I want a refund") [])
    ann_world [].

(** An answer of the model in which [arguments] is not an object: the
    flat call that the fallback pattern of the scan can find. *)
Definition flat_call_text : string :=
  "Sure. {" +++ q "function" +++ ": " +++ q "create_support_ticket" +++
  ", " +++ q "arguments" +++ ": " +++ q "new@example.com" +++ "}".

Definition flat_env : Env Desk.World :=
  Desk.env
    [(flat_call_text,
      (VStr "create_support_ticket", Scalar (VStr "new@example.com")))].

Definition flat_world : Desk.World := Desk.mkWorld [] [] 1 [flat_call_text].

Definition ticket_only : Args := [("ticket_id", VStr "41")].

(** An escalation for an address that the desk does not know. *)
Definition stranger_args : Args :=
  [("email", VStr "nobody@example.com"); ("reason", VStr "charged twice")].

Definition sample_messages : list SttMessage :=
  [Results "hello" true false false; Results "interim" false true false;
   Malformed; Results EmptyString true false false; Other;
   Results "there" true false true].

Definition text_description (t : Ticket) : bool :=
  is_text (t_description t).

(** The orders that a reply shows: the first three of the orders bucket. *)
Definition shown_orders (tickets : list Ticket) : list Ticket :=
  firstn 3 (filter (subject_mentions order_keywords) tickets).

(** A computation that returns, whatever the machine. *)
Definition succeeds {World A} (c : @M World A) : Prop :=
  forall m, exists a m', c m = (Ok a, m').

(** * Properties *)

(** ** Strings *)

Lemma starts_with_lower (k t : string) :
  starts_with k t = true -> starts_with (lower k) (lower t) = true.
Proof.
  revert t; induction k as [|a k IH]; intros [|b t]; simpl; try easy.
  intros H; apply andb_true_iff in H as [Hab Hk].
  apply Ascii.eqb_eq in Hab; subst b.
  now rewrite Ascii.eqb_refl, IH.
Qed.

Lemma contains_lower (k t : string) :
  contains k t = true -> contains (lower k) (lower t) = true.
Proof.
  induction t as [|b t IH]; simpl; intros H.
  - apply orb_true_iff in H as [H|H]; [|discriminate].
    apply starts_with_lower in H; simpl in H; now rewrite H.
  - apply orb_true_iff in H as [H|H].
    + apply starts_with_lower in H; simpl in H; now rewrite H.
    + rewrite (IH H); apply orb_true_r.
Qed.

Lemma contains_lstrip (k u : string) :
  first_nonspace k = true -> contains k u = true ->
  contains k (lstrip u) = true.
Proof.
  destruct k as [|c k]; [discriminate|]; simpl; intros Hc.
  induction u as [|a u IH]; [easy|].
  simpl lstrip; destruct (is_space a) eqn:Ha; [|easy].
  simpl; intros H; apply orb_true_iff in H as [H|H]; [|now apply IH].
  apply andb_true_iff in H as [Hca _]; apply Ascii.eqb_eq in Hca; subst a.
  now rewrite Ha in Hc.
Qed.

Lemma starts_with_rstrip (k u : string) :
  last_nonspace k = true -> starts_with k u = true ->
  starts_with k (rstrip u) = true.
Proof.
  revert u; induction k as [|c k IH]; [discriminate|].
  intros [|a u] Hl H; [discriminate|].
  simpl in H; apply andb_true_iff in H as [Hca Hk].
  apply Ascii.eqb_eq in Hca; subst a.
  destruct k as [|c' k].
  - simpl in Hl. simpl rstrip.
    destruct (is_space c); [discriminate|].
    simpl; now rewrite Ascii.eqb_refl.
  - assert (Hr : starts_with (String c' k) (rstrip u) = true)
      by (apply IH; [exact Hl | exact Hk]).
    simpl rstrip.
    destruct (rstrip u) as [|b r] eqn:Er; [discriminate|].
    rewrite andb_false_r.
    change (Ascii.eqb c c && starts_with (String c' k) (String b r) = true).
    now rewrite Ascii.eqb_refl, Hr.
Qed.

Lemma contains_empty (k : string) :
  last_nonspace k = true -> contains k EmptyString = false.
Proof. destruct k; simpl; easy. Qed.

Lemma contains_rstrip (k u : string) :
  last_nonspace k = true -> contains k u = true ->
  contains k (rstrip u) = true.
Proof.
  intros Hl; induction u as [|a u IH]; [easy|].
  intros H. cbn [contains] in H.
  apply orb_true_iff in H as [H|H].
  - apply (starts_with_rstrip _ _ Hl) in H.
    destruct (rstrip (String a u)); cbn [contains]; now rewrite H.
  - specialize (IH H).
    simpl rstrip.
    destruct (rstrip u) as [|b r] eqn:Er.
    + now rewrite contains_empty in IH.
    + rewrite andb_false_r. cbn [contains]. cbn [contains] in IH.
      rewrite IH. apply orb_true_r.
Qed.

Lemma contains_strip (k u : string) :
  solid k = true -> contains k u = true -> contains k (strip u) = true.
Proof.
  intros Hk H; apply andb_true_iff in Hk as [Hf Hl].
  unfold strip; apply contains_rstrip; [exact Hl|].
  now apply contains_lstrip.
Qed.

(** A keyword of lower-case letters found in the raw utterance is found in
    its lowered and trimmed form. *)
Lemma keyword_survives (k t : string) :
  solid k = true -> lower k = k -> contains k t = true ->
  contains k (strip (lower t)) = true.
Proof.
  intros Hs Hl H; apply contains_strip; [exact Hs|].
  rewrite <- Hl; now apply contains_lower.
Qed.

Lemma any_in_intro (keywords : list string) (k s : string) :
  In k keywords -> contains k s = true -> any_in keywords s = true.
Proof.
  intros Hin H; unfold any_in; apply existsb_exists; now exists k.
Qed.

Lemma starts_with_app (k h : string) :
  starts_with k h = true <-> exists post, h = k +++ post.
Proof.
  revert h; induction k as [|a k IH]; intros h; cbn [starts_with].
  - split; [intros _; now exists h | reflexivity].
  - destruct h as [|b h]; [split; [discriminate | intros (post & H); discriminate H]|].
    rewrite andb_true_iff, Ascii.eqb_eq, IH; split.
    + intros (-> & post & ->); now exists post.
    + intros (post & H); injection H as -> ->; split; [reflexivity|].
      now exists post.
Qed.

Lemma contains_app (k h : string) :
  contains k h = true <-> exists pre post, h = pre +++ k +++ post.
Proof.
  induction h as [|b h IH]; cbn [contains];
    rewrite orb_true_iff, starts_with_app.
  - split.
    + intros [(post & H)|H]; [|discriminate H].
      now exists EmptyString, post.
    + intros ([|c pre] & post & H); [|discriminate H].
      left; now exists post.
  - rewrite IH; split.
    + intros [(post & H)|(pre & post & H)].
      * now exists EmptyString, post.
      * exists (String b pre), post; cbn; now rewrite H.
    + intros ([|c pre] & post & H).
      * left; now exists post.
      * right; injection H as _ H; now exists pre, post.
Qed.

Lemma append_assoc (a b c : string) : (a +++ b) +++ c = a +++ b +++ c.
Proof. induction a as [|x a IH]; cbn; [reflexivity | now rewrite IH]. Qed.

(** A text that holds a keyword holds every part of the keyword. *)
Lemma contains_trans (a b c : string) :
  contains a b = true -> contains b c = true -> contains a c = true.
Proof.
  rewrite !contains_app; intros (p1 & q1 & ->) (p2 & q2 & ->).
  exists (p2 +++ p1), (q1 +++ q2).
  now rewrite !append_assoc.
Qed.

(** ** Frames *)

Section Frames.

Context {World : Type}.
Variable R : @Machine World -> @Machine World -> Prop.
Hypothesis R_refl : forall m, R m m.
Hypothesis R_trans : forall a b c, R a b -> R b c -> R a c.

Lemma keeps_ret {A} (a : A) : keeps R (ret a).
Proof. intros m; apply R_refl. Qed.

Lemma keeps_raise {A} (e : Exn) : keeps R (@raise World A e).
Proof. intros m; apply R_refl. Qed.

Lemma keeps_read {A} (f : Globals -> A) : keeps R (read f).
Proof. intros m; apply R_refl. Qed.

Lemma keeps_lift {A} (o : outcome A) : keeps R (lift o).
Proof. intros m; apply R_refl. Qed.

Lemma keeps_bind {A B} (c : M A) (k : A -> M B) :
  keeps R c -> (forall a, keeps R (k a)) -> keeps R (bind c k).
Proof.
  intros Hc Hk m; unfold bind; specialize (Hc m).
  destruct (c m) as [[a|e] m1]; simpl in *; [|exact Hc].
  eapply R_trans; [exact Hc | apply Hk].
Qed.

Lemma keeps_try {A} (c : M A) (h : Exn -> M A) :
  keeps R c -> (forall e, keeps R (h e)) -> keeps R (try_except c h).
Proof.
  intros Hc Hh m; unfold try_except; specialize (Hc m).
  destruct (c m) as [[a|e] m1]; simpl in *; [exact Hc|].
  eapply R_trans; [exact Hc | apply Hh].
Qed.

End Frames.

Section Dispatcher.

Context {World : Type} (env : Env World).

Lemma backend_only_ret {A} (a : A) : backend_only (@ret World A a).
Proof. intros m; exists a, (world m); now destruct m. Qed.

Lemma backend_only_call {A} (op : World -> A * World) :
  backend_only (call op).
Proof.
  intros m; unfold call; destruct (op (world m)) as [a w]; now exists a, w.
Qed.

Lemma backend_only_bind {A B} (c : @M World A) (k : A -> M B) :
  backend_only c -> (forall a, backend_only (k a)) -> backend_only (bind c k).
Proof.
  intros Hc Hk m; unfold bind.
  destruct (Hc m) as (a & w & ->).
  destruct (Hk a (mkMachine (globals m) w (trace m))) as (b & w' & ->).
  now exists b, w'.
Qed.

Lemma backend_or_raise_lift {A} (o : outcome A) :
  backend_or_raise (@lift World A o).
Proof. intros m; exists o, (world m); now destruct m. Qed.

Lemma backend_or_raise_only {A} (c : @M World A) :
  backend_only c -> backend_or_raise c.
Proof. intros H m; destruct (H m) as (a & w & ->); eauto. Qed.

Lemma backend_or_raise_bind {A B} (c : @M World A) (k : A -> M B) :
  backend_or_raise c -> (forall a, backend_or_raise (k a)) ->
  backend_or_raise (bind c k).
Proof.
  intros Hc Hk m; unfold bind.
  destruct (Hc m) as ([a|e] & w & ->); [|eauto].
  destruct (Hk a (mkMachine (globals m) w (trace m))) as (o & w' & ->).
  now exists o, w'.
Qed.

Lemma backend_or_raise_args_get (arguments : Arguments) (k : string) :
  backend_or_raise (@args_get World arguments k).
Proof.
  intros m; destruct arguments; cbn [args_get]; unfold ret, raise;
    eexists; exists (world m); now destruct m.
Qed.

Lemma backend_or_raise_args_get_or (arguments : Arguments) (k : string)
    (default : pyval) :
  backend_or_raise (@args_get_or World arguments k default).
Proof.
  intros m; destruct arguments; cbn [args_get_or]; unfold ret, raise;
    eexists; exists (world m); now destruct m.
Qed.

Ltac backend :=
  repeat match goal with
         | |- backend_or_raise (ret _) =>
             apply backend_or_raise_only, backend_only_ret
         | |- backend_or_raise (call _) =>
             apply backend_or_raise_only, backend_only_call
         | |- backend_or_raise (lift _) => apply backend_or_raise_lift
         | |- backend_or_raise (args_get _ _) =>
             apply backend_or_raise_args_get
         | |- backend_or_raise (args_get_or _ _ _) =>
             apply backend_or_raise_args_get_or
         | |- backend_or_raise (bind _ _) =>
             apply backend_or_raise_bind; [|intros ?]
         | |- backend_or_raise (if ?b then _ else _) => destruct b
         | |- backend_or_raise (match ?x with _ => _ end) => destruct x
         end.

(** A dispatch returns a result, records itself once in the trace and
    leaves the session variables alone. *)
Lemma execute_zendesk_function_spec (function_name : pyval)
    (arguments : Arguments) (m : Machine) :
  exists result w,
    execute_zendesk_function env function_name arguments m =
    (Ok result,
     mkMachine (globals m) w
       (trace m ++ [EvDispatch function_name arguments])).
Proof.
  unfold execute_zendesk_function.
  match goal with
  | |- context [try_except ?c _] =>
      set (body := c);
      assert (Hb : backend_or_raise body) by (subst body; backend)
  end.
  unfold bind, emit, try_except.
  destruct (Hb (mkMachine (globals m) (world m)
                  (trace m ++ [EvDispatch function_name arguments])))
    as ([r|e] & w & ->); unfold ret; eauto.
Qed.

End Dispatcher.

Section Session.

Context {World : Type} (env : Env World).

Lemma same_refl {B} (proj : Globals -> B) (m : @Machine World) :
  same proj m m.
Proof. reflexivity. Qed.

Lemma same_trans {B} (proj : Globals -> B) (a b c : @Machine World) :
  same proj a b -> same proj b c -> same proj a c.
Proof. unfold same; congruence. Qed.

Lemma same_ret {A B} (proj : Globals -> B) (a : A) :
  keeps (same proj) (@ret World A a).
Proof. apply keeps_ret, same_refl. Qed.

Lemma same_raise {A B} (proj : Globals -> B) (e : Exn) :
  keeps (same proj) (@raise World A e).
Proof. apply keeps_raise, same_refl. Qed.

Lemma same_read {A B} (proj : Globals -> B) (f : Globals -> A) :
  keeps (same proj) (@read World A f).
Proof. apply keeps_read, same_refl. Qed.

Lemma same_lift {A B} (proj : Globals -> B) (o : outcome A) :
  keeps (same proj) (@lift World A o).
Proof. apply keeps_lift, same_refl. Qed.

Lemma same_bind {A B C} (proj : Globals -> C) (c : @M World A)
    (k : A -> M B) :
  keeps (same proj) c -> (forall a, keeps (same proj) (k a)) ->
  keeps (same proj) (bind c k).
Proof. apply keeps_bind, same_trans. Qed.

Lemma same_try {A C} (proj : Globals -> C) (c : @M World A)
    (h : Exn -> M A) :
  keeps (same proj) c -> (forall e, keeps (same proj) (h e)) ->
  keeps (same proj) (try_except c h).
Proof. apply keeps_try, same_trans. Qed.

Lemma same_update {B} (proj : Globals -> B) (f : Globals -> Globals) :
  (forall g, proj (f g) = proj g) -> keeps (same proj) (@update World f).
Proof. intros H m; apply H. Qed.

Lemma same_emit {B} (proj : Globals -> B) (e : Event) :
  keeps (same proj) (@emit World e).
Proof. intros m; reflexivity. Qed.

Lemma same_call {A B} (proj : Globals -> B) (op : World -> A * World) :
  keeps (same proj) (call op).
Proof. intros m; unfold call; now destruct (op (world m)). Qed.

Lemma same_execute {B} (proj : Globals -> B) (function_name : pyval)
    (arguments : Arguments) :
  keeps (same proj) (execute_zendesk_function env function_name arguments).
Proof.
  intros m.
  destruct (execute_zendesk_function_spec env function_name arguments m)
    as (r & w & ->).
  reflexivity.
Qed.

Lemma same_args_get {B} (proj : Globals -> B) (arguments : Arguments)
    (k : string) :
  keeps (same proj) (@args_get World arguments k).
Proof.
  destruct arguments; cbn [args_get]; first [apply same_ret|apply same_raise].
Qed.

Lemma appends_reply (transcript : string) (r : option string) :
  appends transcript (@reply World transcript r).
Proof. intros m; simpl; now rewrite <- app_assoc. Qed.

Lemma appends_raise (transcript : string) (e : Exn) :
  appends transcript (@raise World _ e).
Proof. intros m; reflexivity. Qed.

Lemma appends_bind {A} (transcript : string) (c : @M World A)
    (k : A -> M (option string)) :
  keeps (same conversation_history) c ->
  (forall a, appends transcript (k a)) -> appends transcript (bind c k).
Proof.
  intros Hc Hk m; unfold bind; specialize (Hc m); unfold same in Hc.
  destruct (c m) as [[a|e] m1]; simpl in Hc; [|exact Hc].
  specialize (Hk a m1).
  destruct (k a m1) as [[r|e] m2]; now rewrite Hk, Hc.
Qed.

Lemma appends_try (transcript : string) (c : @M World (option string))
    (h : Exn -> M (option string)) :
  appends transcript c -> (forall e, appends transcript (h e)) ->
  appends transcript (try_except c h).
Proof.
  intros Hc Hh m; unfold try_except; specialize (Hc m).
  destruct (c m) as [[r|e] m1]; [exact Hc|].
  specialize (Hh e m1).
  destruct (h e m1) as [[r|e'] m2]; now rewrite Hh, Hc.
Qed.

Lemma same_if {A C} (proj : Globals -> C) (b : bool) (c1 c2 : @M World A) :
  keeps (same proj) c1 -> keeps (same proj) c2 ->
  keeps (same proj) (if b then c1 else c2).
Proof. now destruct b. Qed.

Lemma appends_if (transcript : string) (b : bool)
    (c1 c2 : @M World (option string)) :
  appends transcript c1 -> appends transcript c2 ->
  appends transcript (if b then c1 else c2).
Proof. now destruct b. Qed.

Lemma bind_ok {A B} (c : @M World A) (k : A -> M B) (m : Machine) (a : A)
    (m' : Machine) :
  c m = (Ok a, m') -> bind c k m = k a m'.
Proof. intros E; unfold bind; now rewrite E. Qed.

Lemma bind_raised {A B} (c : @M World A) (k : A -> M B) (m : Machine)
    (e : Exn) (m' : Machine) :
  c m = (Raised e, m') -> bind c k m = (Raised e, m').
Proof. intros E; unfold bind; now rewrite E. Qed.

End Session.

Ltac field_kept :=
  intros ?g; unfold note_email, track_intent;
  repeat match goal with
         | |- context [if ?b then _ else _] => destruct b
         end;
  reflexivity.

Ltac frame :=
  repeat match goal with
         | |- keeps _ (ret _) => apply same_ret
         | |- keeps _ (raise _) => apply same_raise
         | |- keeps _ (read _) => apply same_read
         | |- keeps _ (lift _) => apply same_lift
         | |- keeps _ (emit _) => apply same_emit
         | |- keeps _ (call _) => apply same_call
         | |- keeps _ (execute_zendesk_function _ _ _) =>
             apply same_execute
         | |- keeps _ (args_get _ _) => apply same_args_get
         | |- keeps _ (update _) => apply same_update; field_kept
         | |- keeps _ (bind _ _) => apply same_bind; [|intros ?]
         | |- keeps _ (try_except _ _) => apply same_try; [|intros ?]
         | |- keeps _ (if _ then _ else _) => apply same_if
         | |- keeps _ (match ?x with _ => _ end) => destruct x
         end.

Ltac turn :=
  repeat match goal with
         | |- appends _ (reply _ _) => apply appends_reply
         | |- appends _ (raise _) => apply appends_raise
         | |- appends _ (try_except _ _) => apply appends_try; [|intros ?]
         | |- appends _ (bind _ _) =>
             apply appends_bind; [solve [frame]|intros ?]
         | |- appends _ (if _ then _ else _) => apply appends_if
         | |- appends _ (match ?x with _ => _ end) => destruct x
         end.

Section Turn.

Context {World : Type} (env : Env World).

(** Every branch of the step appends exactly the user turn and the
    assistant turn of its reply; a step that raises (the prompt cannot be
    built over a reply that was [None]) appends nothing. *)
Lemma process_with_function_calling_appends (transcript : string) :
  appends transcript (process_with_function_calling env transcript).
Proof.
  unfold process_with_function_calling, confirmation_flow, ask_llm,
    handle_function_call.
  cbv beta iota zeta.
  turn.
Qed.

Lemma detect_topic_spec (transcript : string) (m : @Machine World) :
  exists m',
    detect_topic env transcript m = (Ok tt, m') /\
    conversation_history (globals m') = conversation_history (globals m).
Proof.
  unfold detect_topic, bind, emit, call, update; cbn [globals world trace].
  destruct (generate_content env (topic_prompt transcript) (world m))
    as [[text|] w]; eexists; split; reflexivity.
Qed.

(** What one processed utterance does to the history: the user turn is
    appended by the wrapper and again by the step, and so is the assistant
    turn, before the truncation; when the step raises, only the wrapper's
    user turn is appended and nothing is truncated. *)
Lemma process_with_gemini_history (transcript : string)
    (m : @Machine World) :
  let h := conversation_history (globals m) in
  let u := user_turn transcript in
  let out := process_with_gemini env transcript m in
  (exists r,
     fst out = Ok r /\
     conversation_history (globals (snd out)) =
     truncate (h ++ [u; u; assistant_turn r; assistant_turn r])) \/
  (fst out = Ok (Some please_repeat) /\
   conversation_history (globals (snd out)) = h ++ [u]).
Proof.
  intros h u out; subst out.
  set (m1 := with_globals (set_history (h ++ [u]) (globals m)) m).
  assert (Ht : exists m2,
             (if is_empty (conversation_topic (globals m1)) &&
                 Nat.eqb (length (conversation_history (globals m1))) 1
              then detect_topic env transcript else ret tt) m1 = (Ok tt, m2)
             /\ conversation_history (globals m2) = h ++ [u]).
  { destruct (_ && _).
    - destruct (detect_topic_spec transcript m1) as (m2 & E & Hh).
      exists m2; split; [exact E | now rewrite Hh].
    - exists m1; split; reflexivity. }
  destruct Ht as (m2 & Et & H2).
  pose proof (process_with_function_calling_appends transcript m2) as Ha.
  unfold process_with_gemini, try_except.
  rewrite (bind_ok _ _ m tt m1) by reflexivity.
  rewrite (bind_ok _ _ m1 (globals m1) m1) by reflexivity.
  rewrite (bind_ok _ _ m1 tt m2) by exact Et.
  destruct (process_with_function_calling env transcript m2)
    as [[r|e] m3] eqn:Ep.
  - rewrite (bind_ok _ _ m2 r m3) by exact Ep.
    left; exists r; split; [reflexivity|].
    cbn. rewrite Ha, H2. unfold h, u.
    now rewrite <- !app_assoc.
  - rewrite (bind_raised _ _ m2 e m3) by exact Ep.
    right; split; [reflexivity|]. cbn. now rewrite Ha, H2.
Qed.

Lemma process_with_gemini_buffer (transcript : string) :
  keeps (same transcript_buffer) (process_with_gemini env transcript).
Proof.
  unfold process_with_gemini, process_with_function_calling,
    confirmation_flow, ask_llm, handle_function_call, detect_topic, reply,
    append_turn.
  cbv beta iota zeta.
  frame.
Qed.

Lemma deliver_buffer (full_transcript : string) :
  keeps (same transcript_buffer) (deliver env full_transcript).
Proof.
  unfold deliver.
  apply same_bind; [apply process_with_gemini_buffer|intros r].
  frame.
Qed.

End Turn.

(** ** The extractor *)

(** C5: on "contact me at jeff dot smith at gmail dot com" the spoken-form
    pattern matches the leftmost candidate "me at jeff dot smith"; after
    the whitespace is removed no "at" or "dot" stands at a word boundary, so
    nothing is rewritten and the extractor returns "meatjeffdotsmith", not an
    address of the shape jeff.smith@gmail.com.  On "no email here" it returns
    none. *)
Theorem extract_email_spoken_form :
  extract_email_from_text "contact me at jeff dot smith at gmail dot com"
    = Some "meatjeffdotsmith" /\
  extract_email_from_text "no email here" = None.
Proof. split; vm_compute; reflexivity. Qed.

(** The match that the spoken-form pattern reports on that utterance. *)
Example spoken_form_match :
  Re.search (nth 1 email_patterns [])
    "contact me at jeff dot smith at gmail dot com"
  = Some (Re.mkMatch "me at jeff dot smith" None).
Proof. vm_compute; reflexivity. Qed.

(** The standard and the spaced forms are extracted as addresses. *)
Example extract_email_written_forms :
  extract_email_from_text "my email is jeff.smith@gmail.com thanks"
    = Some "jeff.smith@gmail.com" /\
  extract_email_from_text "it is jeff @ gmail . com" = Some "jeff@gmail.com".
Proof. split; vm_compute; reflexivity. Qed.

(** ** The conversation step *)

Section Step.

Context {World : Type} (env : Env World).

Lemma reply_eq (transcript : string) (r : option string)
    (m : @Machine World) :
  reply transcript r m = (Ok r, with_globals (replied transcript r (globals m)) m).
Proof.
  unfold reply, append_turn, bind, update, ret, with_globals, replied.
  cbn. unfold set_history at 1 2 3. cbn. now rewrite <- app_assoc.
Qed.

(** Steps 1 and 2 touch the session email and the sticky intent only. *)
Lemma noted_frame (transcript : string) (g : Globals) :
  conversation_history (noted transcript g) = conversation_history g /\
  customer_data (noted transcript g) = customer_data g /\
  pending_ticket_request (noted transcript g) = pending_ticket_request g /\
  email_confirmation_pending (noted transcript g)
    = email_confirmation_pending g /\
  transcript_buffer (noted transcript g) = transcript_buffer g.
Proof.
  unfold noted, note_email, track_intent.
  repeat match goal with
         | |- context [if ?b then _ else _] => destruct b
         end; repeat split; reflexivity.
Qed.

Lemma noted_is_pending (transcript : string) (g : Globals) :
  is_pending (noted transcript g) = is_pending g.
Proof.
  destruct (noted_frame transcript g) as (_ & _ & Hp & Hc & _).
  unfold is_pending; now rewrite Hp, Hc.
Qed.

Lemma process_with_function_calling_unfold (transcript : string)
    (m : @Machine World) :
  process_with_function_calling env transcript m =
  let g := noted transcript (globals m) in
  let transcript_lower := strip (lower transcript) in
  (if is_pending g then
     confirmation_flow env transcript
       (match pending_ticket_request g with
        | Some a => a
        | None => Object []
        end)
   else if any_in simple_greetings transcript_lower then
     match customer_data g with
     | Some c => reply transcript (Some (greeting_named (cust_name c)))
     | None => reply transcript (Some greeting_plain)
     end
   else if any_in general_questions transcript_lower then
     reply transcript
       (Some (if is_some (customer_data g) then help_known else help_plain))
   else if any_in account_keywords transcript_lower &&
           negb (is_some (customer_data g)) &&
           negb (truthy_str (customer_email g)) then
     reply transcript (Some ask_for_email)
   else
     bind (lift (build_function_calling_prompt env transcript
                   (conversation_history g) (customer_data g)
                   (customer_email g)))
          (ask_llm env transcript))
    (with_globals g m).
Proof. reflexivity. Qed.

(** The three branches of the confirmation flow. *)

Lemma confirmation_flow_confirmed (transcript : string) (args : Arguments)
    (m : @Machine World) :
  any_in confirmation_keywords (strip (lower transcript)) = true ->
  exists response w,
    confirmation_flow env transcript args m =
    (Ok (Some response),
     mkMachine
       (replied transcript (Some response)
          (set_pending None (set_confirmation_pending false (globals m))))
       w
       (trace m ++
        [EvDispatch (VStr "confirm_email_and_create_ticket") args])).
Proof.
  intros Hc; unfold confirmation_flow; rewrite Hc.
  unfold bind at 1; unfold update at 1; cbn [fst snd].
  unfold bind at 1.
  destruct (execute_zendesk_function_spec env
              (VStr "confirm_email_and_create_ticket") args
              (mkMachine (set_confirmation_pending false (globals m))
                 (world m) (trace m))) as (r & w & ->).
  unfold bind at 1; unfold update at 1.
  destruct (succeeded r); rewrite reply_eq; eexists; eexists; reflexivity.
Qed.

Lemma confirmation_flow_denied (transcript : string) (args : Arguments)
    (m : @Machine World) :
  any_in confirmation_keywords (strip (lower transcript)) = false ->
  any_in denial_keywords (strip (lower transcript)) = true ->
  confirmation_flow env transcript args m =
  (Ok (Some ask_correct_email),
   with_globals
     (replied transcript (Some ask_correct_email)
        (set_email None
           (set_pending None (set_confirmation_pending false (globals m)))))
     m).
Proof.
  intros Hc Hd; unfold confirmation_flow; rewrite Hc, Hd.
  unfold bind, update; cbn [fst snd]; now rewrite reply_eq.
Qed.

Lemma confirmation_flow_unclear (transcript : string) (args : Arguments)
    (m : @Machine World) :
  any_in confirmation_keywords (strip (lower transcript)) = false ->
  any_in denial_keywords (strip (lower transcript)) = false ->
  confirmation_flow env transcript args m =
  (Ok (Some ask_yes_or_no),
   with_globals (replied transcript (Some ask_yes_or_no) (globals m)) m).
Proof.
  intros Hc Hd; unfold confirmation_flow; rewrite Hc, Hd.
  now rewrite reply_eq.
Qed.

Lemma pending_step (transcript : string) (args : Arguments)
    (m : @Machine World) :
  email_confirmation_pending (globals m) = true ->
  pending_ticket_request (globals m) = Some args ->
  truthy_arguments args = true ->
  process_with_function_calling env transcript m =
  confirmation_flow env transcript args
    (with_globals (noted transcript (globals m)) m).
Proof.
  intros Hf Hp Ha; rewrite process_with_function_calling_unfold; cbv zeta.
  destruct (noted_frame transcript (globals m)) as (_ & _ & Hp' & _).
  rewrite noted_is_pending; unfold is_pending; rewrite Hf, Hp, Ha, Hp', Hp.
  reflexivity.
Qed.

End Step.

(** ** The confirmation state *)

Section Confirmation.

Context {World : Type} (env : Env World).

(** The turn taken while a confirmation is pending, branch by branch: an
    utterance with a confirm keyword causes exactly one dispatch of
    [confirm_email_and_create_ticket] with the pending arguments and clears
    the pending state; an utterance with a deny keyword and no confirm
    keyword clears the pending state and the session email without any
    dispatch; an utterance with neither re-prompts and leaves the pending
    state as it was.  The trace of none of these turns holds a model
    call. *)
Lemma confirmation_turn (transcript : string) (args : Arguments)
    (m : @Machine World) :
  email_confirmation_pending (globals m) = true ->
  pending_ticket_request (globals m) = Some args ->
  truthy_arguments args = true ->
  let g := noted transcript (globals m) in
  let confirm := any_in confirmation_keywords (strip (lower transcript)) in
  let deny := any_in denial_keywords (strip (lower transcript)) in
  (confirm = true ->
   exists response w,
     process_with_function_calling env transcript m =
     (Ok (Some response),
      mkMachine
        (replied transcript (Some response)
           (set_pending None (set_confirmation_pending false g)))
        w
        (trace m ++
         [EvDispatch (VStr "confirm_email_and_create_ticket") args]))) /\
  (confirm = false -> deny = true ->
   process_with_function_calling env transcript m =
   (Ok (Some ask_correct_email),
    with_globals
      (replied transcript (Some ask_correct_email)
         (set_email None
            (set_pending None (set_confirmation_pending false g))))
      m)) /\
  (confirm = false -> deny = false ->
   process_with_function_calling env transcript m =
   (Ok (Some ask_yes_or_no),
    with_globals (replied transcript (Some ask_yes_or_no) g) m)).
Proof.
  intros Hf Hp Ha g confirm deny.
  rewrite (pending_step env transcript args m Hf Hp Ha).
  repeat split.
  - intros Hc.
    destruct (confirmation_flow_confirmed env transcript args
                (with_globals (noted transcript (globals m)) m) Hc)
      as (response & w & E).
    exists response, w; exact E.
  - intros Hc Hd; now rewrite confirmation_flow_denied.
  - intros Hc Hd; now rewrite confirmation_flow_unclear.
Qed.

(** C3: a denial worded with "incorrect" or "not correct" is taken for a
    confirmation.  Both are deny keywords of the code, but the confirm
    keyword "correct" is part of each and the confirm keywords are tested
    first: while a confirmation is pending, every utterance whose lowered
    and trimmed text holds one of the two, and so passes the deny test of
    the code, dispatches [confirm_email_and_create_ticket] with the pending
    arguments and keeps the session email, where the claim has the pending
    state and the session email cleared without any dispatch. *)
Theorem denial_with_correct_confirms (transcript keyword : string)
    (args : Arguments) (m : @Machine World) :
  email_confirmation_pending (globals m) = true ->
  pending_ticket_request (globals m) = Some args ->
  truthy_arguments args = true ->
  keyword = "incorrect" \/ keyword = "not correct" ->
  contains keyword (strip (lower transcript)) = true ->
  let out := process_with_function_calling env transcript m in
  In keyword denial_keywords /\
  any_in denial_keywords (strip (lower transcript)) = true /\
  (exists response w,
     out =
     (Ok (Some response),
      mkMachine
        (replied transcript (Some response)
           (set_pending None
              (set_confirmation_pending false
                 (noted transcript (globals m)))))
        w
        (trace m ++
         [EvDispatch (VStr "confirm_email_and_create_ticket") args]))) /\
  customer_email (globals (snd out))
  = customer_email (noted transcript (globals m)).
Proof.
  intros Hf Hp Ha Hk Hin; cbv zeta.
  assert (Hd : In keyword denial_keywords)
    by (destruct Hk as [-> | ->]; simpl; tauto).
  assert (Hpart : contains "correct" keyword = true)
    by (destruct Hk as [-> | ->]; reflexivity).
  assert (Hdeny : any_in denial_keywords (strip (lower transcript)) = true)
    by (apply any_in_intro with (k := keyword); assumption).
  assert (Hc : any_in confirmation_keywords (strip (lower transcript))
               = true).
  { apply any_in_intro with (k := "correct"); [simpl; tauto|].
    exact (contains_trans _ _ _ Hpart Hin). }
  rewrite (pending_step env transcript args m Hf Hp Ha).
  destruct (confirmation_flow_confirmed env transcript args
              (with_globals (noted transcript (globals m)) m) Hc)
    as (response & w & ->).
  split; [exact Hd|]; split; [exact Hdeny|]; split; [|reflexivity].
  now exists response, w.
Qed.

(** C4, as amended: a denial during confirmation clears the session email,
    the pending request and the confirmation flag, and leaves the stored
    customer identity as it was. *)
Theorem denial_keeps_identity (transcript : string) (args : Arguments)
    (m : @Machine World) :
  email_confirmation_pending (globals m) = true ->
  pending_ticket_request (globals m) = Some args ->
  truthy_arguments args = true ->
  any_in confirmation_keywords (strip (lower transcript)) = false ->
  any_in denial_keywords (strip (lower transcript)) = true ->
  let m' := snd (process_with_function_calling env transcript m) in
  customer_data (globals m') = customer_data (globals m) /\
  customer_email (globals m') = None /\
  pending_ticket_request (globals m') = None /\
  email_confirmation_pending (globals m') = false.
Proof.
  intros Hf Hp Ha Hc Hd.
  rewrite (pending_step env transcript args m Hf Hp Ha).
  rewrite confirmation_flow_denied by assumption.
  destruct (noted_frame transcript (globals m)) as (_ & Hdata & _).
  cbn; repeat split; exact Hdata.
Qed.

(** C9: while a confirmation is pending, every utterance whose lowered
    text contains "correct" takes the confirm branch: one dispatch of
    [confirm_email_and_create_ticket] with the pending arguments, pending
    state cleared, and the session email not cleared as a denial would. *)
Theorem correct_substring_confirms (transcript : string) (args : Arguments)
    (m : @Machine World) :
  email_confirmation_pending (globals m) = true ->
  pending_ticket_request (globals m) = Some args ->
  truthy_arguments args = true ->
  contains "correct" (lower transcript) = true ->
  exists response w,
    process_with_function_calling env transcript m =
    (Ok (Some response),
     mkMachine
       (replied transcript (Some response)
          (set_pending None
             (set_confirmation_pending false
                (noted transcript (globals m)))))
       w
       (trace m ++
        [EvDispatch (VStr "confirm_email_and_create_ticket") args])).
Proof.
  intros Hf Hp Ha Hin.
  rewrite (pending_step env transcript args m Hf Hp Ha).
  assert (Hc : any_in confirmation_keywords (strip (lower transcript))
               = true).
  { apply any_in_intro with (k := "correct"); [simpl; tauto|].
    apply contains_strip; [reflexivity | exact Hin]. }
  destruct (confirmation_flow_confirmed env transcript args
              (with_globals (noted transcript (globals m)) m) Hc)
    as (response & w & E).
  exists response, w; exact E.
Qed.

(** C10: outside the confirmation state, an utterance whose lowered text
    contains a greeting word anywhere is answered with the greeting
    template, with the stored name when an identity is known; the world and
    the trace are untouched, so neither the model nor the dispatcher is
    called. *)
Theorem greeting_substring_short_circuits (transcript greeting : string)
    (m : @Machine World) :
  is_pending (globals m) = false ->
  In greeting simple_greetings ->
  contains greeting (lower transcript) = true ->
  let response :=
    match customer_data (globals m) with
    | Some c => greeting_named (cust_name c)
    | None => greeting_plain
    end in
  process_with_function_calling env transcript m =
  (Ok (Some response),
   with_globals
     (replied transcript (Some response) (noted transcript (globals m))) m).
Proof.
  intros Hp Hin Hc response.
  assert (Hs : solid greeting = true).
  { simpl in Hin.
    repeat (destruct Hin as [<-|Hin]; [reflexivity|]); destruct Hin. }
  assert (Hg : any_in simple_greetings (strip (lower transcript)) = true).
  { apply any_in_intro with (k := greeting); [exact Hin|].
    now apply contains_strip. }
  rewrite process_with_function_calling_unfold; cbv zeta.
  rewrite noted_is_pending, Hp, Hg.
  destruct (noted_frame transcript (globals m)) as (_ & Hdata & _).
  rewrite Hdata; subst response.
  destruct (customer_data (globals m)); now rewrite reply_eq.
Qed.

End Confirmation.

(** ** Ticket creation through the model *)

Section Creation.

Context {World : Type} (env : Env World).

(** The test of the confirmation flag reads the local [result] before any
    dispatch has bound it. *)
Lemma handle_create_support_ticket (transcript : string) (args : Args)
    (m : @Machine World) :
  truthy (get args "email") = true ->
  handle_function_call env transcript (VStr "create_support_ticket") args m
  = (Raised UnboundLocalError, m).
Proof.
  intros He; unfold handle_function_call, bind, read, args_get, ret.
  cbn [is_name String.eqb Ascii.eqb Bool.eqb andb negb].
  rewrite He; reflexivity.
Qed.

Lemma email_gives_arguments (args : Args) :
  truthy (get args "email") = true -> nonempty_args args = true.
Proof. destruct args; [discriminate | reflexivity]. Qed.

(** C1: when the model asks for [create_support_ticket] with an email
    while a session email is set, the step raises before any dispatch and
    answers with the fixed apology: the dispatcher is not called, so the
    backend is never asked about the customer, and the pending state is not
    set. *)
Theorem create_support_ticket_never_dispatched
    (transcript prompt text : string) (args : Args) (w : World)
    (m : @Machine World) :
  let g := noted transcript (globals m) in
  is_pending g = false ->
  any_in simple_greetings (strip (lower transcript)) = false ->
  any_in general_questions (strip (lower transcript)) = false ->
  truthy_str (customer_email g) = true ->
  build_function_calling_prompt env transcript (conversation_history g)
    (customer_data g) (customer_email g) = Ok prompt ->
  generate_content env prompt (world m) = (Some text, w) ->
  scan_function_call env (strip text)
    = Some (VStr "create_support_ticket", Object args) ->
  truthy (get args "email") = true ->
  process_with_function_calling env transcript m =
  (Ok (Some llm_trouble),
   mkMachine (replied transcript (Some llm_trouble) g) w
     (trace m ++ [EvLLM prompt])).
Proof.
  intros g Hp Hg Hq He Hprompt Hgen Hscan Hemail.
  rewrite process_with_function_calling_unfold; cbv zeta.
  fold g; rewrite Hp, Hg, Hq, He, Hprompt.
  rewrite !andb_false_r.
  unfold bind at 1, lift at 1.
  unfold ask_llm, try_except, bind, emit, call.
  cbn [globals world trace with_globals fst snd].
  rewrite Hgen, Hscan.
  cbn [truthy nonempty is_empty negb andb truthy_arguments].
  rewrite (email_gives_arguments args Hemail).
  rewrite (handle_create_support_ticket transcript args _ Hemail).
  now rewrite reply_eq.
Qed.

End Creation.

(** ** History *)

(** C2: seven greetings processed from a fresh session leave a history of
    twelve entries that holds the last three exchanges, each turn twice:
    every processed utterance appends two user turns and two assistant
    turns before the truncation, not one of each. *)
Theorem seven_utterances_history :
  let reply := assistant_turn (Some greeting_plain) in
  let h :=
    conversation_history
      (globals (converse demo_env seven_hellos (Desk.start greeting_world)))
  in
  length h = 12 /\
  h = [user_turn "hello 5"; user_turn "hello 5"; reply; reply;
       user_turn "hello 6"; user_turn "hello 6"; reply; reply;
       user_turn "hello 7"; user_turn "hello 7"; reply; reply].
Proof. split; vm_compute; reflexivity. Qed.

(** One greeting into a fresh session already leaves four turns. *)
Example one_utterance_history :
  conversation_history
    (globals (converse demo_env ["hello"] (Desk.start greeting_world)))
  = [user_turn "hello"; user_turn "hello";
     assistant_turn (Some greeting_plain);
     assistant_turn (Some greeting_plain)].
Proof. vm_compute; reflexivity. Qed.

(** The wrapper asks the model for the topic of the first utterance of a
    session, whatever branch the step then takes. *)
Example first_utterance_topic_call :
  trace (snd (process_with_gemini demo_env "hello"
                (Desk.start greeting_world)))
  = [EvLLM (topic_prompt "hello")].
Proof. vm_compute; reflexivity. Qed.

(** ** Ticket search *)

Section Search.

Context {World : Type} (env : Env World).

Lemma select_by (test : Ticket -> outcome bool) (textual keep : Ticket -> bool)
    (tickets : list Ticket) :
  (forall t, textual t = true -> test t = Ok (keep t)) ->
  (forall t, textual t = false ->
             exists v,
               is_text v = false /\
               test t = Raised (AttributeError (type_name v) "lower")) ->
  if forallb textual tickets then
    select test tickets = Ok (filter keep tickets)
  else
    exists v,
      is_text v = false /\
      select test tickets = Raised (AttributeError (type_name v) "lower").
Proof.
  intros Hok Hbad; induction tickets as [|t tickets IH]; [reflexivity|].
  cbn [forallb select filter].
  destruct (textual t) eqn:Et; cbn [andb].
  - rewrite (Hok t Et); cbn [and_then].
    revert IH; destruct (forallb textual tickets); intros IH.
    + rewrite IH; reflexivity.
    + destruct IH as (v & Hv & ->); exists v; split; [exact Hv|reflexivity].
  - destruct (Hbad t Et) as (v & Hv & ->).
    exists v; split; [exact Hv|reflexivity].
Qed.

Lemma select_appointments (tickets : list Ticket) :
  if forallb text_fields tickets then
    select is_appointment tickets
    = Ok (filter (spec_mentions appointment_keywords) tickets)
  else
    exists v,
      is_text v = false /\
      select is_appointment tickets
      = Raised (AttributeError (type_name v) "lower").
Proof.
  apply select_by; intros [id subject description];
    unfold text_fields, is_appointment, spec_mentions;
    cbn [t_subject t_description].
  - destruct subject, description; try discriminate; reflexivity.
  - destruct subject;
      try (intros _; eexists; split; [|reflexivity]; reflexivity).
    destruct description; try discriminate;
      intros _; eexists; (split; [|reflexivity]); reflexivity.
Qed.

Lemma select_orders (tickets : list Ticket) :
  if forallb text_subject tickets then
    select is_order tickets
    = Ok (filter (subject_mentions order_keywords) tickets)
  else
    exists v,
      is_text v = false /\
      select is_order tickets = Raised (AttributeError (type_name v) "lower").
Proof.
  apply select_by; intros [id subject description];
    unfold text_subject, is_order, subject_mentions; cbn [t_subject].
  - destruct subject; try discriminate; reflexivity.
  - destruct subject; try discriminate;
      intros _; eexists; (split; [|reflexivity]); reflexivity.
Qed.

(** What a search returns, for each search type. *)
Lemma search_customer_tickets_result (arguments : Args)
    (m : @Machine World) :
  truthy (get arguments "email") = true ->
  let search_type := get_or arguments "search_type" (VStr "all") in
  let found :=
    get_open_tickets_by_email env (get arguments "email") (world m) in
  execute_zendesk_function env (VStr "search_customer_tickets") arguments m
  = (Ok (if is_name search_type "appointments" then
           match select is_appointment (fst found) with
           | Ok appointments => appointments_result appointments
           | Raised e =>
               error_result ("Function execution failed: " +++ str_of_exn e)
           end
         else if is_name search_type "orders" then
           match select is_order (fst found) with
           | Ok orders => orders_result orders
           | Raised e =>
               error_result ("Function execution failed: " +++ str_of_exn e)
           end
         else tickets_result (fst found)),
     mkMachine (globals m) (snd found)
       (trace m ++
        [EvDispatch (VStr "search_customer_tickets") arguments])).
Proof.
  intros He search_type found.
  unfold execute_zendesk_function, try_except, bind, emit, call, args_get,
    args_get_or, lift, ret.
  cbn [is_name String.eqb Ascii.eqb Bool.eqb globals world trace].
  rewrite He; cbn [negb globals world trace].
  subst found search_type.
  destruct (get_open_tickets_by_email env (get arguments "email") (world m))
    as [tickets w]; cbn [fst snd].
  destruct (is_name (get_or arguments "search_type" (VStr "all"))
              "appointments").
  - destruct (select is_appointment tickets); reflexivity.
  - destruct (is_name (get_or arguments "search_type" (VStr "all"))
                "orders"); [|reflexivity].
    destruct (select is_order tickets); reflexivity.
Qed.

(** C6, as amended: a search returns at most one bucket, chosen by the
    requested search type tested in the order appointments, orders,
    anything else, and not by classifying each ticket.  The appointments
    bucket holds, in the order of the backend, the open tickets whose
    lowered subject or lowered description contains an appointment keyword;
    the orders bucket holds, in that order, open tickets that mention an
    order keyword, among them every ticket whose subject does; the generic
    bucket holds all open tickets.  When a field that the chosen filter
    lowers is not text in some open ticket, the result is the error of the
    dispatcher's handler and holds no bucket. *)
Theorem search_customer_tickets_buckets (arguments : Args)
    (m : @Machine World) :
  truthy (get arguments "email") = true ->
  let search_type := get_or arguments "search_type" (VStr "all") in
  let found :=
    get_open_tickets_by_email env (get arguments "email") (world m) in
  let tickets := fst found in
  exists result,
    execute_zendesk_function env (VStr "search_customer_tickets") arguments m
    = (Ok result,
       mkMachine (globals m) (snd found)
         (trace m ++
          [EvDispatch (VStr "search_customer_tickets") arguments])) /\
    if is_name search_type "appointments" then
      if forallb text_fields tickets then
        result =
        appointments_result
          (filter (spec_mentions appointment_keywords) tickets)
      else exists v, is_text v = false /\ result = cannot_lower v
    else if is_name search_type "orders" then
      if forallb text_subject tickets then
        exists keep,
          result = orders_result (filter keep tickets) /\
          forall t,
            (subject_mentions order_keywords t = true -> keep t = true) /\
            (keep t = true -> spec_mentions order_keywords t = true)
      else exists v, is_text v = false /\ result = cannot_lower v
    else result = tickets_result tickets.
Proof.
  intros He search_type found tickets.
  eexists; split;
    [exact (search_customer_tickets_result arguments m He)|].
  fold search_type found tickets.
  destruct (is_name search_type "appointments").
  - pose proof (select_appointments tickets) as H.
    revert H; destruct (forallb text_fields tickets); intros H.
    + now rewrite H.
    + destruct H as (v & Hv & ->); exists v; split; [exact Hv|reflexivity].
  - destruct (is_name search_type "orders"); [|reflexivity].
    pose proof (select_orders tickets) as H.
    revert H; destruct (forallb text_subject tickets); intros H.
    + rewrite H; exists (subject_mentions order_keywords).
      split; [reflexivity|].
      intros t; split; [tauto|].
      unfold subject_mentions, spec_mentions; intros ->; reflexivity.
    + destruct H as (v & Hv & ->); exists v; split; [exact Hv|reflexivity].
Qed.

End Search.

(** ** Utterance assembly *)

Section Assembly.

Context {World : Type} (env : Env World).

Lemma cleared_idle (m : @Machine World) :
  transcript_buffer (globals m) = [] -> cleared m = m.
Proof.
  destruct m as [[h tp e d p f i dt b] w tr]; cbn; intros ->; reflexivity.
Qed.

(** Final segments with text are appended to the buffer, in order. *)
Lemma feed_final_segments (is_speaking : bool)
    (segments : list (string * bool)) (rest : list SttMessage)
    (m : @Machine World) :
  feed env is_speaking (map final_segment segments ++ rest) m =
  feed env is_speaking rest
    (with_globals
       (set_buffer (transcript_buffer (globals m) ++ buffered segments)
          (globals m)) m).
Proof.
  revert m; induction segments as [|[text sf] segments IH]; intros m.
  - cbn [map app buffered filter]; rewrite app_nil_r.
    now destruct m as [[h tp e d p f i dt b] w tr].
  - cbn [map app feed final_segment fst snd on_stt_message].
    unfold buffered; cbn [map filter fst]; fold (buffered segments).
    destruct (nonempty text); cbn [andb].
    + rewrite (bind_ok _ _ m tt
                 (with_globals
                    (set_buffer (transcript_buffer (globals m) ++ [text])
                       (globals m)) m)) by reflexivity.
      rewrite IH; cbn. now rewrite <- app_assoc.
    + rewrite (bind_ok _ _ m tt m) by reflexivity.
      apply IH.
Qed.

Lemma then_done (c : @M World unit) (m : @Machine World) :
  bind c (fun _ => ret tt) m = c m.
Proof. unfold bind; now destruct (c m) as [[[]|e] m']. Qed.

(** The end of an utterance, from a buffer holding [texts]. *)
Lemma utterance_end (is_speaking : bool) (m : @Machine World) :
  let utterance := strip (join " " (transcript_buffer (globals m))) in
  on_stt_message env is_speaking UtteranceEnd m =
  (if nonempty utterance && negb is_speaking then deliver env utterance
   else ret tt) (cleared m).
Proof.
  cbn [on_stt_message]; unfold bind at 1, read at 1.
  destruct (transcript_buffer (globals m)) as [|text texts] eqn:Eb.
  - cbn. now rewrite cleared_idle.
  - cbn [length Nat.eqb negb].
    rewrite (bind_ok _ _ m tt (cleared m)) by reflexivity.
    destruct (nonempty _), is_speaking; reflexivity.
Qed.

(** C7: after any final segments, the end of the utterance delivers the
    trimmed, space-joined text of the buffered segments (when it is not
    empty) from a machine whose buffer is empty, and the buffer is empty
    afterwards; with an empty buffer and no segment, nothing is delivered
    and the machine is unchanged. *)
Theorem utterance_assembly (segments : list (string * bool))
    (m : @Machine World) :
  let texts := transcript_buffer (globals m) ++ buffered segments in
  let utterance := strip (join " " texts) in
  let out :=
    feed env false (map final_segment segments ++ [UtteranceEnd]) m in
  out = (if nonempty utterance then deliver env utterance else ret tt)
          (cleared m) /\
  transcript_buffer (globals (snd out)) = [] /\
  forall is_speaking,
    on_stt_message env is_speaking UtteranceEnd (cleared m)
    = (Ok tt, cleared m).
Proof.
  intros texts utterance out.
  assert (E : out = (if nonempty utterance then deliver env utterance
                     else ret tt) (cleared m)).
  { subst out; rewrite feed_final_segments.
    cbn [feed]; rewrite then_done, utterance_end.
    cbn [negb]; rewrite andb_true_r. reflexivity. }
  split; [exact E|]; split.
  - rewrite E; destruct (nonempty utterance).
    + rewrite (deliver_buffer env utterance (cleared m)); reflexivity.
    + reflexivity.
  - intros is_speaking; rewrite utterance_end; reflexivity.
Qed.

(** C8: while the speaking flag is set, final segments followed by the end
    of the utterance leave the world, the trace and the session as they
    were, the buffer apart, which is emptied: the assembled utterance is
    neither processed, logged, spoken nor kept. *)
Theorem speaking_drops_utterance (segments : list (string * bool))
    (m : @Machine World) :
  feed env true (map final_segment segments ++ [UtteranceEnd]) m
    = (Ok tt, cleared m) /\
  on_stt_message env true UtteranceEnd m = (Ok tt, cleared m).
Proof.
  split.
  - rewrite feed_final_segments.
    cbn [feed]; rewrite then_done, utterance_end.
    cbn [negb]; rewrite andb_false_r. reflexivity.
  - rewrite utterance_end; cbn [negb]; now rewrite andb_false_r.
Qed.

End Assembly.

(** ** The properties on sample sessions *)

Lemma create_support_ticket_never_dispatched_witness :
  let g := noted printer_request (globals email_known) in
  let out :=
    process_with_function_calling demo_env printer_request email_known in
  (is_pending g = false /\
   any_in simple_greetings (strip (lower printer_request)) = false /\
   any_in general_questions (strip (lower printer_request)) = false /\
   truthy_str (customer_email g) = true /\
   build_function_calling_prompt demo_env printer_request
     (conversation_history g) (customer_data g) (customer_email g)
     = Ok printer_prompt /\
   generate_content demo_env printer_prompt (world email_known)
     = (Some demo_call_text, demo_world_answered) /\
   scan_function_call demo_env (strip demo_call_text)
     = Some (VStr "create_support_ticket", Object demo_args) /\
   truthy (get demo_args "email") = true) /\
  out =
  (Ok (Some llm_trouble),
   mkMachine (replied printer_request (Some llm_trouble) g)
     demo_world_answered (trace email_known ++ [EvLLM printer_prompt])) /\
  is_pending (globals (snd out)) = false /\
  filter is_dispatch (trace (snd out)) = [].
Proof.
  cbv zeta.
  assert (H1 : is_pending (noted printer_request (globals email_known))
               = false) by (vm_compute; reflexivity).
  assert (H2 : any_in simple_greetings (strip (lower printer_request))
               = false) by (vm_compute; reflexivity).
  assert (H3 : any_in general_questions (strip (lower printer_request))
               = false) by (vm_compute; reflexivity).
  assert (H4 : truthy_str
                 (customer_email
                    (noted printer_request (globals email_known))) = true)
    by (vm_compute; reflexivity).
  assert (H5 : build_function_calling_prompt demo_env printer_request
                 (conversation_history
                    (noted printer_request (globals email_known)))
                 (customer_data
                    (noted printer_request (globals email_known)))
                 (customer_email
                    (noted printer_request (globals email_known)))
               = Ok printer_prompt) by (vm_compute; reflexivity).
  assert (H6 : generate_content demo_env printer_prompt (world email_known)
               = (Some demo_call_text, demo_world_answered))
    by (vm_compute; reflexivity).
  assert (H7 : scan_function_call demo_env (strip demo_call_text)
               = Some (VStr "create_support_ticket", Object demo_args))
    by (vm_compute; reflexivity).
  assert (H8 : truthy (get demo_args "email") = true)
    by (vm_compute; reflexivity).
  split; [repeat split; assumption|].
  rewrite (create_support_ticket_never_dispatched demo_env printer_request
             printer_prompt demo_call_text demo_args demo_world_answered
             email_known H1 H2 H3 H4 H5 H6 H7 H8).
  repeat split.
Defined.

(** Had the pending state been reached, the confirming utterance would
    create the customer and the ticket. *)
Example confirmation_creates_customer_and_ticket :
  fst (process_with_function_calling demo_env "yes that's right" awaiting)
  = Ok (Some account_created_message).
Proof. vm_compute; reflexivity. Qed.

(** C3: "that's incorrect" holds the deny keyword "incorrect", yet the turn
    dispatches [confirm_email_and_create_ticket]: the desk creates an
    account for the address that the caller has just rejected and opens the
    ticket, the reply announces it, and the session email is kept. *)
Example incorrect_creates_the_account :
  let out :=
    process_with_function_calling demo_env "that's incorrect" awaiting in
  is_pending (globals awaiting) = true /\
  any_in denial_keywords (strip (lower "that's incorrect")) = true /\
  fst out = Ok (Some account_created_message) /\
  trace (snd out) = [confirm_event] /\
  customer_email (globals (snd out)) = Some "new@example.com" /\
  map cust_email (Desk.users (world (snd out))) = [VStr "new@example.com"] /\
  length (Desk.open_tickets (world (snd out))) = 1.
Proof. repeat split; vm_compute; reflexivity. Qed.

Lemma denial_with_correct_confirms_witness :
  let out :=
    process_with_function_calling demo_env "that's incorrect" awaiting in
  (email_confirmation_pending (globals awaiting) = true /\
   pending_ticket_request (globals awaiting) = Some (Object demo_args) /\
   truthy_arguments demo_args = true /\
   contains "incorrect" (strip (lower "that's incorrect")) = true) /\
  In "incorrect" denial_keywords /\
  any_in denial_keywords (strip (lower "that's incorrect")) = true /\
  (exists response w,
     out =
     (Ok (Some response),
      mkMachine
        (replied "that's incorrect" (Some response)
           (set_pending None
              (set_confirmation_pending false
                 (noted "that's incorrect" (globals awaiting)))))
        w (trace awaiting ++ [confirm_event]))) /\
  customer_email (globals (snd out))
  = customer_email (noted "that's incorrect" (globals awaiting)).
Proof.
  assert (Hin : contains "incorrect" (strip (lower "that's incorrect"))
                = true) by (vm_compute; reflexivity).
  split; [repeat split; assumption|].
  exact (denial_with_correct_confirms demo_env "that's incorrect"
           "incorrect" demo_args awaiting eq_refl eq_refl eq_refl
           (or_introl eq_refl) Hin).
Defined.

(** The three branches on the session [awaiting]. *)
Example confirmation_turn_on_samples :
  (exists response w,
     process_with_function_calling demo_env "yes that's right" awaiting =
     (Ok (Some response),
      mkMachine
        (replied "yes that's right" (Some response)
           (set_pending None
              (set_confirmation_pending false
                 (noted "yes that's right" (globals awaiting)))))
        w (trace awaiting ++ [confirm_event]))) /\
  process_with_function_calling demo_env "no that's wrong" awaiting =
  (Ok (Some ask_correct_email),
   with_globals
     (replied "no that's wrong" (Some ask_correct_email)
        (set_email None
           (set_pending None
              (set_confirmation_pending false
                 (noted "no that's wrong" (globals awaiting))))))
     awaiting) /\
  process_with_function_calling demo_env "maybe later" awaiting =
  (Ok (Some ask_yes_or_no),
   with_globals
     (replied "maybe later" (Some ask_yes_or_no)
        (noted "maybe later" (globals awaiting)))
     awaiting).
Proof.
  split; [|split].
  - apply (confirmation_turn demo_env "yes that's right" demo_args awaiting
             eq_refl eq_refl eq_refl).
    vm_compute; reflexivity.
  - apply (confirmation_turn demo_env "no that's wrong" demo_args awaiting
             eq_refl eq_refl eq_refl); vm_compute; reflexivity.
  - apply (confirmation_turn demo_env "maybe later" demo_args awaiting
             eq_refl eq_refl eq_refl); vm_compute; reflexivity.
Qed.

(** C4: the session [awaiting] holds the identity of Ann; after the
    denial "no that's wrong" the identity is still stored. *)
Lemma denied_email_keeps_identity_counterexample :
  let out :=
    process_with_function_calling demo_env "no that's wrong" awaiting in
  is_pending (globals awaiting) = true /\
  any_in confirmation_keywords (strip (lower "no that's wrong")) = false /\
  any_in denial_keywords (strip (lower "no that's wrong")) = true /\
  fst out = Ok (Some ask_correct_email) /\
  customer_data (globals (snd out)) = Some ann /\
  customer_data (globals (snd out)) <> None.
Proof.
  assert (E : customer_data
                (globals
                   (snd (process_with_function_calling demo_env
                           "no that's wrong" awaiting))) = Some ann)
    by (vm_compute; reflexivity).
  cbv zeta; rewrite E.
  repeat split; try (vm_compute; reflexivity).
  discriminate.
Qed.

Lemma denial_keeps_identity_witness :
  let out :=
    process_with_function_calling demo_env "no that's wrong" awaiting in
  (email_confirmation_pending (globals awaiting) = true /\
   pending_ticket_request (globals awaiting) = Some (Object demo_args) /\
   truthy_arguments demo_args = true /\
   any_in confirmation_keywords (strip (lower "no that's wrong")) = false /\
   any_in denial_keywords (strip (lower "no that's wrong")) = true) /\
  customer_data (globals (snd out)) = customer_data (globals awaiting) /\
  customer_email (globals (snd out)) = None /\
  pending_ticket_request (globals (snd out)) = None /\
  email_confirmation_pending (globals (snd out)) = false.
Proof.
  assert (Hc : any_in confirmation_keywords (strip (lower "no that's wrong"))
               = false) by (vm_compute; reflexivity).
  assert (Hd : any_in denial_keywords (strip (lower "no that's wrong"))
               = true) by (vm_compute; reflexivity).
  split; [repeat split; assumption|].
  exact (denial_keeps_identity demo_env "no that's wrong" demo_args awaiting
           eq_refl eq_refl eq_refl Hc Hd).
Defined.

Lemma correct_substring_confirms_witness :
  (email_confirmation_pending (globals awaiting) = true /\
   pending_ticket_request (globals awaiting) = Some (Object demo_args) /\
   truthy_arguments demo_args = true /\
   contains "correct" (lower "That's INCORRECT") = true) /\
  exists response w,
    process_with_function_calling demo_env "That's INCORRECT" awaiting =
    (Ok (Some response),
     mkMachine
       (replied "That's INCORRECT" (Some response)
          (set_pending None
             (set_confirmation_pending false
                (noted "That's INCORRECT" (globals awaiting)))))
       w (trace awaiting ++ [confirm_event])).
Proof.
  assert (Hin : contains "correct" (lower "That's INCORRECT") = true)
    by (vm_compute; reflexivity).
  split; [repeat split; assumption|].
  exact (correct_substring_confirms demo_env "That's INCORRECT" demo_args
           awaiting eq_refl eq_refl eq_refl Hin).
Defined.

Lemma greeting_substring_short_circuits_witness :
  (is_pending (globals email_known) = false /\
   In "hi" simple_greetings /\
   contains "hi" (lower "Is this the right number") = true) /\
  process_with_function_calling demo_env "Is this the right number"
    email_known =
  (Ok (Some greeting_plain),
   with_globals
     (replied "Is this the right number" (Some greeting_plain)
        (noted "Is this the right number" (globals email_known)))
     email_known).
Proof.
  assert (Hin : In "hi" simple_greetings) by (simpl; tauto).
  assert (Hc : contains "hi" (lower "Is this the right number") = true)
    by (vm_compute; reflexivity).
  split; [repeat split; assumption|].
  exact (greeting_substring_short_circuits demo_env
           "Is this the right number" "hi" email_known eq_refl Hin Hc).
Defined.

(** C6: the ticket "Payment for visa appointment", an appointment by the
    classification of the claim, is returned under the appointments bucket,
    under the orders bucket and under the generic bucket, according to the
    search type asked for; the ticket whose description alone mentions an
    order is not returned under orders. *)
Lemma search_buckets_counterexample :
  let run search_type :=
    fst (execute_zendesk_function demo_env (VStr "search_customer_tickets")
           (search_args search_type) (Desk.start ann_world)) in
  spec_bucket visa_ticket = Appointments /\
  spec_bucket late_ticket = Orders /\
  run "appointments" = Ok (appointments_result [visa_ticket]) /\
  run "orders" = Ok (orders_result [visa_ticket]) /\
  run "all" = Ok (tickets_result [visa_ticket; late_ticket]).
Proof. repeat split; vm_compute; reflexivity. Qed.

Lemma search_customer_tickets_buckets_witness :
  truthy (get (search_args "orders") "email") = true /\
  exists result,
    execute_zendesk_function demo_env (VStr "search_customer_tickets")
      (search_args "orders") (Desk.start ann_world)
    = (Ok result,
       mkMachine Desk.fresh ann_world
         [EvDispatch (VStr "search_customer_tickets")
            (search_args "orders")]) /\
    exists keep,
      result = orders_result (filter keep [visa_ticket; late_ticket]) /\
      forall t,
        (subject_mentions order_keywords t = true -> keep t = true) /\
        (keep t = true -> spec_mentions order_keywords t = true).
Proof.
  split; [reflexivity|].
  exact (search_customer_tickets_buckets demo_env (search_args "orders")
           (Desk.start ann_world) eq_refl).
Defined.

(** A ticket without a subject among the open tickets: the two filters
    fail on it and the search returns the error of the dispatcher's
    handler; the unfiltered search returns every ticket. *)
Example search_with_null_subject :
  let run search_type :=
    fst (execute_zendesk_function demo_env (VStr "search_customer_tickets")
           (search_args search_type) (Desk.start draft_world)) in
  run "appointments" = Ok (cannot_lower VNone) /\
  run "orders" = Ok (cannot_lower VNone) /\
  run "all" = Ok (tickets_result [visa_ticket; draft_ticket]) /\
  r_error (cannot_lower VNone)
  = Some "Function execution failed: 'NoneType' object has no attribute 'lower'".
Proof. repeat split; vm_compute; reflexivity. Qed.

(** Segments, then the end of the utterance, with the flag clear. *)
Example assembled_utterance :
  let out :=
    feed demo_env false
      [Results "I need" true false false; Results "" true false false;
       Results "help please " true false true; UtteranceEnd]
      (Desk.start demo_world) in
  map content (conversation_history (globals (snd out)))
    = [Some "I need help please"; Some "I need help please";
       Some llm_trouble; Some llm_trouble] /\
  transcript_buffer (globals (snd out)) = [].
Proof. split; vm_compute; reflexivity. Qed.

(** * Further properties *)

(** ** The dispatcher *)

Section DispatcherShape.

Context {World : Type} (env : Env World).

Lemma settles_ret {A} (P : A -> Prop) (a : A) :
  P a -> settles P (@ret World A a).
Proof.
  intros H m; exists (Ok a), (world m); split; [now destruct m | exact H].
Qed.

Lemma settles_any {A} (c : @M World A) :
  backend_or_raise c -> settles (fun _ => True) c.
Proof.
  intros H m; destruct (H m) as (o & w & ->).
  exists o, w; split; [reflexivity | now destruct o].
Qed.

Lemma settles_bind {A B} (P : B -> Prop) (c : @M World A) (k : A -> M B) :
  backend_or_raise c -> (forall a, settles P (k a)) -> settles P (bind c k).
Proof.
  intros Hc Hk m; unfold bind.
  destruct (Hc m) as ([a|e] & w & ->).
  - destruct (Hk a (mkMachine (globals m) w (trace m))) as (o & w' & E & H).
    exists o, w'; split; [exact E | exact H].
  - exists (Raised e), w; split; [reflexivity | exact I].
Qed.

Lemma settles_if {A} (P : A -> Prop) (b : bool) (c1 c2 : @M World A) :
  settles P c1 -> settles P c2 -> settles P (if b then c1 else c2).
Proof. now destruct b. Qed.

(** The shape of the dispatcher: the event, then the body inside the
    handler that turns an exception into a result. *)
Lemma emit_try_returns {A} (P : A -> Prop) (ev : Event) (c : @M World A)
    (h : Exn -> A) (m : @Machine World) :
  settles P c -> (forall e, P (h e)) ->
  exists a w,
    bind (emit ev) (fun _ => try_except c (fun e => ret (h e))) m
    = (Ok a, mkMachine (globals m) w (trace m ++ [ev])) /\
    P a.
Proof.
  intros Hc Hh; unfold bind, emit, try_except.
  destruct (Hc (mkMachine (globals m) (world m) (trace m ++ [ev])))
    as ([a|e] & w & -> & H).
  - exists a, w; split; [reflexivity | exact H].
  - exists (h e), w; split; [reflexivity | apply Hh].
Qed.

Lemma is_name_eq (v : pyval) (name : string) :
  is_name v name = true -> v = VStr name.
Proof.
  destruct v; try discriminate; simpl; intros H.
  apply String.eqb_eq in H; now subst.
Qed.

End DispatcherShape.

Ltac shaped :=
  first [ left; split; reflexivity
        | right; split; [reflexivity | eexists; reflexivity] ].

Ltac leaf_step :=
  match goal with
  | |- backend_or_raise (call _) =>
      apply backend_or_raise_only, backend_only_call
  | |- backend_or_raise (lift _) => apply backend_or_raise_lift
  | |- backend_or_raise (args_get _ _) => apply backend_or_raise_args_get
  | |- backend_or_raise (args_get_or _ _ _) =>
      apply backend_or_raise_args_get_or
  end.

Ltac settling leaf :=
  repeat match goal with
         | |- settles _ (ret _) => apply settles_ret; leaf
         | |- settles _ (bind _ _) =>
             apply settles_bind; [leaf_step | intros ?]
         | |- settles _ (if _ then _ else _) => apply settles_if
         | |- settles _ (match ?x with _ => _ end) => destruct x
         end.

(** The body of the dispatcher for arguments that are an object: each
    [arguments.get] is the value read. *)
Ltac object_args :=
  repeat match goal with
         | |- context [bind (args_get (Object ?d) ?k) ?f] =>
             change (bind (args_get (Object d) k) f) with (f (get d k));
             cbv beta
         | |- context [bind (args_get_or (Object ?d) ?k ?v) ?f] =>
             change (bind (args_get_or (Object d) k v) f)
               with (f (get_or d k v));
             cbv beta
         end.

Section DispatcherProperties.

Context {World : Type} (env : Env World).

(** X1: every dispatch returns a result and never raises; it leaves the
    session variables alone, records itself once in the trace, and its
    result has the uniform shape: [success] true with no [error], or an
    [error] with [success] absent or false. *)
Theorem dispatch_result_shape (function_name : pyval)
    (arguments : Arguments) (m : @Machine World) :
  exists result w,
    execute_zendesk_function env function_name arguments m =
    (Ok result,
     mkMachine (globals m) w
       (trace m ++ [EvDispatch function_name arguments])) /\
    well_shaped result.
Proof.
  unfold execute_zendesk_function.
  apply emit_try_returns; [settling shaped | intros e; shaped].
Qed.

(** X2: a name that is none of the six operations is refused with the
    error "Unknown function: <name>", and the backend is not touched. *)
Theorem unknown_function_refused (function_name : pyval)
    (arguments : Arguments) (m : @Machine World) :
  (forall name, In name the_six -> is_name function_name name = false) ->
  execute_zendesk_function env function_name arguments m =
  (Ok (error_result ("Unknown function: " +++ py_str function_name)),
   mkMachine (globals m) (world m)
     (trace m ++ [EvDispatch function_name arguments])).
Proof.
  intros H; unfold execute_zendesk_function, bind, emit, try_except.
  rewrite !H by (simpl; tauto).
  reflexivity.
Qed.

Lemma all_truthy_false (vs : list pyval) (v : pyval) :
  In v vs -> truthy v = false -> all_truthy vs = false.
Proof.
  intros Hin Hv; unfold all_truthy.
  destruct (forallb truthy vs) eqn:E; [|reflexivity].
  rewrite forallb_forall in E; rewrite (E v Hin) in Hv; discriminate.
Qed.

(** X3: a call that lacks (or has a falsy value for) a parameter that the
    schema given to the model declares required is answered with an error
    before the backend is touched; the one exception is [search_type],
    which the dispatcher defaults to "all". *)
Theorem missing_required_parameter (name key : string)
    (required : list string) (arguments : Args) (m : @Machine World) :
  In (name, required) ZENDESK_FUNCTIONS_required ->
  In key required ->
  key <> "search_type" ->
  truthy (get arguments key) = false ->
  exists e,
    execute_zendesk_function env (VStr name) arguments m =
    (Ok (error_result e),
     mkMachine (globals m) (world m)
       (trace m ++ [EvDispatch (VStr name) arguments])).
Proof.
  intros Hn Hk Hs Hv; simpl in Hn.
  repeat (destruct Hn as [Hn|Hn];
          [injection Hn as <- <-; simpl in Hk|]); try destruct Hn;
    repeat (destruct Hk as [<-|Hk]; try contradiction);
    try congruence;
    unfold execute_zendesk_function, try_except, bind, emit, args_get,
      args_get_or, ret;
    cbn [is_name String.eqb Ascii.eqb Bool.eqb];
    rewrite ?Hv; cbn [negb];
    try match goal with
        | Hv : truthy ?v = false |- context [all_truthy ?l] =>
            rewrite (all_truthy_false l v) by
              (first [exact Hv | simpl; tauto]);
            cbn [negb]
        end;
    eexists; reflexivity.
Qed.

(** X4: a result is flagged [needs_confirmation] exactly when the
    operation is [create_support_ticket], its three arguments are present
    and the backend knows no customer with that email; the result then
    carries the email and the error "Customer not found". *)
Theorem needs_confirmation_signal (function_name : pyval) (arguments : Args)
    (m m' : @Machine World) (result : Result) :
  execute_zendesk_function env function_name arguments m = (Ok result, m') ->
  let email := get arguments "email" in
  (flagged_needs_confirmation result = true <->
   function_name = VStr "create_support_ticket" /\
   all_truthy [email; get arguments "subject"; get arguments "description"]
     = true /\
   fst (get_customer_by_email env email (world m)) = None) /\
  (flagged_needs_confirmation result = true ->
   result = needs_confirmation_result email).
Proof.
  intros H email; revert H.
  assert (Hnot : forall e,
             flagged_needs_confirmation
               (error_result ("Function execution failed: " +++ str_of_exn e))
             = false) by reflexivity.
  destruct (is_name function_name "create_support_ticket") eqn:Ec.
  - apply is_name_eq in Ec; subst function_name.
    unfold execute_zendesk_function.
    cbn [is_name String.eqb Ascii.eqb Bool.eqb].
    object_args; fold email.
    unfold bind at 1, emit, try_except.
    destruct (all_truthy _) eqn:Ea; cbn [negb].
    + unfold bind at 1, call at 1; cbn [world globals trace].
      destruct (get_customer_by_email env email (world m)) as [[c|] w] eqn:Eg;
        cbv beta iota.
      * match goal with
        | |- match ?c ?m1 with _ => _ end = _ -> _ =>
            assert (Hr : settles
                           (fun r => flagged_needs_confirmation r = false) c)
              by settling reflexivity;
            destruct (Hr m1) as ([r0|e0] & w0 & -> & HP)
        end.
        -- intros H; injection H as <- _.
           rewrite HP; split; [split|]; try discriminate.
           intros (_ & _ & Hn); discriminate.
        -- unfold ret; intros H; injection H as <- _.
           cbn [flagged_needs_confirmation error_result
                  r_needs_confirmation];
             split; [split|]; try discriminate.
           intros (_ & _ & Hn); discriminate.
      * unfold ret; intros H; injection H as <- _.
        split; [split|]; try reflexivity. now intros _.
    + unfold ret; intros H; injection H as <- _.
      split; [split|]; try discriminate.
      intros (_ & Ht & _); discriminate.
  - unfold execute_zendesk_function; rewrite Ec.
    match goal with
    | |- ?run = _ -> _ =>
        assert (Hx : exists r w,
                   run = (Ok r,
                          mkMachine (globals m) w
                            (trace m ++
                             [EvDispatch function_name arguments])) /\
                   flagged_needs_confirmation r = false)
          by (apply (emit_try_returns
                       (fun r => flagged_needs_confirmation r = false));
              [settling reflexivity | exact Hnot])
    end.
    destruct Hx as (r & w & -> & HP).
    intros H; injection H as <- _.
    rewrite HP; split; [split|]; try discriminate.
    intros (-> & _); discriminate.
Qed.

(** X5: [create_support_ticket] and [escalate_to_billing] for a known
    customer with an open ticket report success only by adding to the first
    open ticket: the ticket id reported by [create_support_ticket] is the id
    of that ticket, and when the note cannot be added both return an error
    instead of opening a new ticket. *)
Theorem merges_into_first_open_ticket (function_name : pyval)
    (arguments : Args) (m m' : @Machine World) (result : Result)
    (customer : Customer) (first : Ticket) (others : list Ticket)
    (w1 w2 : World) :
  function_name = VStr "create_support_ticket" \/
  function_name = VStr "escalate_to_billing" ->
  all_truthy
    (if is_name function_name "create_support_ticket"
     then [get arguments "email"; get arguments "subject";
           get arguments "description"]
     else [get arguments "email"; get arguments "reason"]) = true ->
  get_customer_by_email env (get arguments "email") (world m)
    = (Some customer, w1) ->
  get_open_tickets_by_email env (get arguments "email") w1
    = (first :: others, w2) ->
  execute_zendesk_function env function_name arguments m = (Ok result, m') ->
  let ticket_id := py_str (VInt (t_id first)) in
  let note :=
    if is_name function_name "create_support_ticket"
    then get arguments "description"
    else VStr (escalation_note (get arguments "reason")) in
  let added :=
    add_comment_to_ticket env (VStr ticket_id) note (VBool false) w2 in
  world m' = snd added /\
  (fst added = true ->
   succeeded result = true /\
   (is_name function_name "create_support_ticket" = true ->
    r_action result = Some "note_added" /\
    r_ticket_id result = Some ticket_id)) /\
  (fst added = false -> succeeded result = false).
Proof.
  intros [-> | ->] Ha Hc Ho; cbn [is_name String.eqb Ascii.eqb Bool.eqb] in *;
    unfold execute_zendesk_function, try_except, bind, emit, call, args_get,
      args_get_or, ret;
    cbn [is_name String.eqb Ascii.eqb Bool.eqb globals world trace];
    rewrite Ha; cbn [negb globals world trace];
    rewrite Hc; cbv beta iota; cbn [globals world trace];
    rewrite Ho; cbv beta iota; cbn [first_ticket_id globals world trace];
    destruct (add_comment_to_ticket env _ _ _ w2) as [[|] w3];
    intros H; injection H as <- <-; cbn;
    repeat split; try discriminate; reflexivity.
Qed.

End DispatcherProperties.

(** ** What a step changes *)

Section StepFrames.

Context {World : Type} (env : Env World).

(** The branches of the step after steps 1 and 2, as one computation. *)
Lemma step_frame {B} (proj : Globals -> B) (transcript : string)
    (m : @Machine World) (rest : @M World (option string)) :
  process_with_function_calling env transcript m
    = rest (with_globals (noted transcript (globals m)) m) ->
  keeps (same proj) rest ->
  proj (globals (snd (process_with_function_calling env transcript m)))
  = proj (noted transcript (globals m)).
Proof. intros -> H; exact (H _). Qed.

Ltac open_step :=
  unfold confirmation_flow, ask_llm, handle_function_call, reply,
    append_turn;
  cbv beta iota zeta.

(** X6: the sticky intent after a step is decided by step 2 alone,
    whatever branch the step takes and whatever the model and the backend
    answer: refund words win over escalation words, which win over support
    words, and an utterance with none of them leaves the intent and its
    text as they were. *)
Theorem sticky_intent (transcript : string) (m : @Machine World) :
  let m' := snd (process_with_function_calling env transcript m) in
  let lowered := strip (lower transcript) in
  let hit :=
    any_in refund_words lowered || any_in escalate_words lowered ||
    any_in support_words lowered in
  last_intent (globals m') =
    (if any_in refund_words lowered then Some refund
     else if any_in escalate_words lowered then Some escalate
     else if any_in support_words lowered then Some support
     else last_intent (globals m)) /\
  last_intent_details (globals m') =
    (if hit then Some transcript else last_intent_details (globals m)).
Proof.
  cbv zeta; split.
  - erewrite (step_frame last_intent);
      [| apply process_with_function_calling_unfold | open_step; frame].
    unfold noted, note_email, track_intent.
    repeat match goal with
           | |- context [if ?b then _ else _] => destruct b
           end; reflexivity.
  - erewrite (step_frame last_intent_details);
      [| apply process_with_function_calling_unfold | open_step; frame].
    unfold noted, note_email, track_intent.
    destruct (any_in refund_words _), (any_in escalate_words _),
      (any_in support_words _), (truthy_str _); reflexivity.
Qed.

Lemma is_pending_inv (g : Globals) :
  is_pending g = true ->
  exists args,
    email_confirmation_pending g = true /\
    pending_ticket_request g = Some args /\ truthy_arguments args = true.
Proof.
  unfold is_pending; intros H; apply andb_true_iff in H as [Hf Hp].
  destruct (pending_ticket_request g) as [args|]; [|discriminate].
  now exists args.
Qed.

(** The step outside the confirmation state, as one computation. *)
Lemma ready_step (transcript : string) (m : @Machine World) :
  is_pending (globals m) = false ->
  exists rest : @M World (option string),
    process_with_function_calling env transcript m
      = rest (with_globals (noted transcript (globals m)) m) /\
    keeps (same customer_email) rest /\
    keeps (same pending_ticket_request) rest /\
    keeps (same email_confirmation_pending) rest.
Proof.
  intros Hp.
  rewrite process_with_function_calling_unfold; cbv zeta.
  rewrite noted_is_pending, Hp.
  eexists; split; [reflexivity|].
  repeat split; open_step; frame.
Qed.

(** X7: the session email after a step is the address extracted from the
    utterance if there is one, and the previous email otherwise; the one
    exception is a denial during confirmation, which clears the email even
    when the utterance carries an address. *)
Theorem session_email_after_step (transcript : string)
    (m : @Machine World) :
  let m' := snd (process_with_function_calling env transcript m) in
  let lowered := strip (lower transcript) in
  let denied :=
    is_pending (globals m) &&
    negb (any_in confirmation_keywords lowered) &&
    any_in denial_keywords lowered in
  customer_email (globals m') =
    if denied then None
    else if truthy_str (extract_email_from_text transcript)
         then extract_email_from_text transcript
         else customer_email (globals m).
Proof.
  cbv zeta.
  assert (Hn : customer_email (noted transcript (globals m)) =
               if truthy_str (extract_email_from_text transcript)
               then extract_email_from_text transcript
               else customer_email (globals m)).
  { unfold noted, note_email, track_intent.
    repeat match goal with
           | |- context [if ?b then _ else _] => destruct b
           end; reflexivity. }
  destruct (is_pending (globals m)) eqn:Hp; cbn [andb].
  - destruct (is_pending_inv _ Hp) as (args & Hf & Hr & Ha).
    rewrite (pending_step env transcript args m Hf Hr Ha).
    destruct (any_in confirmation_keywords (strip (lower transcript)))
      eqn:Hc; cbn [negb andb].
    + destruct (confirmation_flow_confirmed env transcript args
                  (with_globals (noted transcript (globals m)) m) Hc)
        as (response & w & ->).
      exact Hn.
    + destruct (any_in denial_keywords (strip (lower transcript))) eqn:Hd.
      * now rewrite confirmation_flow_denied.
      * rewrite confirmation_flow_unclear by assumption. exact Hn.
  - destruct (ready_step transcript m Hp) as (rest & -> & He & _).
    rewrite <- Hn; exact (He _).
Qed.

(** X8: no step sets the pending request or the confirmation flag: after a
    step both are as before, or cleared by a confirmation or a denial. *)
Theorem pending_only_cleared (transcript : string) (m : @Machine World) :
  let m' := snd (process_with_function_calling env transcript m) in
  let lowered := strip (lower transcript) in
  let answered :=
    is_pending (globals m) &&
    (any_in confirmation_keywords lowered ||
     any_in denial_keywords lowered) in
  pending_ticket_request (globals m') =
    (if answered then None else pending_ticket_request (globals m)) /\
  email_confirmation_pending (globals m') =
    (if answered then false else email_confirmation_pending (globals m)).
Proof.
  cbv zeta.
  destruct (noted_frame transcript (globals m)) as (_ & _ & Hr' & Hf' & _).
  destruct (is_pending (globals m)) eqn:Hp; cbn [andb].
  - destruct (is_pending_inv _ Hp) as (args & Hf & Hr & Ha).
    rewrite (pending_step env transcript args m Hf Hr Ha).
    destruct (any_in confirmation_keywords (strip (lower transcript)))
      eqn:Hc; cbn [orb].
    + destruct (confirmation_flow_confirmed env transcript args
                  (with_globals (noted transcript (globals m)) m) Hc)
        as (response & w & ->).
      split; reflexivity.
    + destruct (any_in denial_keywords (strip (lower transcript))) eqn:Hd.
      * rewrite confirmation_flow_denied by assumption; split; reflexivity.
      * rewrite confirmation_flow_unclear by assumption.
        split; [exact Hr' | exact Hf'].
  - destruct (ready_step transcript m Hp) as (rest & -> & _ & Hq & Hg).
    split; [rewrite <- Hr'; exact (Hq _) | rewrite <- Hf'; exact (Hg _)].
Qed.

End StepFrames.

(** ** What a conversation keeps *)

Section Conversation.

Context {World : Type} (env : Env World).

Lemma remembers_refl (m : @Machine World) : remembers m m.
Proof. intros H; exact H. Qed.

Lemma remembers_trans (a b c : @Machine World) :
  remembers a b -> remembers b c -> remembers a c.
Proof. unfold remembers; auto. Qed.

Lemma stays_idle_refl (m : @Machine World) : stays_idle m m.
Proof. intros H; exact H. Qed.

Lemma stays_idle_trans (a b c : @Machine World) :
  stays_idle a b -> stays_idle b c -> stays_idle a c.
Proof. unfold stays_idle; auto. Qed.

Lemma remembers_of_same {A} (c : @M World A) :
  keeps (same customer_data) c -> keeps remembers c.
Proof. intros H m Hm; rewrite (H m); exact Hm. Qed.

Lemma stays_idle_of_same {A} (c : @M World A) :
  keeps (same pending_ticket_request) c ->
  keeps (same email_confirmation_pending) c -> keeps stays_idle c.
Proof.
  intros Hp Hf m [H1 H2]; split; [rewrite (Hp m) | rewrite (Hf m)];
    assumption.
Qed.

Lemma keeps_if {A} (R : @Machine World -> @Machine World -> Prop) (b : bool)
    (c1 c2 : @M World A) :
  keeps R c1 -> keeps R c2 -> keeps R (if b then c1 else c2).
Proof. now destruct b. Qed.

(** A lookup that succeeds carries the customer. *)
Lemma get_customer_info_result (arguments : Arguments)
    (m : @Machine World) :
  exists result w,
    execute_zendesk_function env (VStr "get_customer_info") arguments m =
    (Ok result,
     mkMachine (globals m) w
       (trace m ++ [EvDispatch (VStr "get_customer_info") arguments])) /\
    (succeeded result = true -> exists c, r_customer result = Some c).
Proof.
  unfold execute_zendesk_function.
  cbn [is_name String.eqb Ascii.eqb Bool.eqb].
  apply (emit_try_returns
           (fun r => succeeded r = true -> exists c, r_customer r = Some c));
    [|intros e H; discriminate H].
  settling ltac:(cbv beta; intros H;
                 first [discriminate H | eexists; reflexivity]).
Qed.

Lemma handle_function_call_remembers (transcript : string)
    (function_name : pyval) (arguments : Arguments) :
  keeps remembers
    (handle_function_call env transcript function_name arguments).
Proof.
  unfold handle_function_call.
  apply (keeps_bind _ remembers_trans);
    [apply remembers_of_same; frame|intros email].
  apply (keeps_bind _ remembers_trans);
    [apply remembers_of_same; frame|intros without_email].
  apply keeps_if; [apply remembers_of_same; unfold reply, append_turn; frame|].
  destruct (is_name function_name "get_customer_info" && truthy_str email)
    eqn:E.
  - apply andb_true_iff in E as [E _]; apply is_name_eq in E; subst.
    intros m; unfold bind at 1.
    destruct (get_customer_info_result arguments m) as (r & w & -> & HP).
    destruct (succeeded r) eqn:Es.
    + destruct (HP eq_refl) as (c & Hc).
      unfold bind at 1, update at 1.
      match goal with
      | |- remembers _ (snd (?k ?m1)) =>
          assert (Hk : keeps (same customer_data) k)
            by (unfold reply, append_turn; cbv beta iota zeta; frame);
          specialize (Hk m1)
      end.
      intros _; unfold same in Hk; rewrite Hk; cbn; now rewrite Hc.
    + match goal with
      | |- remembers _ (snd (?k ?m1)) =>
          assert (Hk : keeps (same customer_data) k)
            by (unfold reply, append_turn; frame);
          specialize (Hk m1)
      end.
      intros Hm; unfold same in Hk; rewrite Hk; exact Hm.
  - apply remembers_of_same; unfold reply, append_turn.
    cbv beta iota zeta; frame.
Qed.

Lemma process_with_function_calling_remembers (transcript : string) :
  keeps remembers (process_with_function_calling env transcript).
Proof.
  unfold process_with_function_calling.
  apply (keeps_bind _ remembers_trans);
    [apply remembers_of_same; frame|intros _].
  apply (keeps_bind _ remembers_trans);
    [apply remembers_of_same; frame|intros _].
  cbv zeta.
  apply (keeps_bind _ remembers_trans);
    [apply remembers_of_same; frame|intros g].
  apply keeps_if;
    [apply remembers_of_same; unfold confirmation_flow, reply, append_turn;
     cbv beta iota zeta; frame|].
  apply keeps_if;
    [apply remembers_of_same; unfold reply, append_turn; frame|].
  apply keeps_if;
    [apply remembers_of_same; unfold reply, append_turn; frame|].
  apply keeps_if;
    [apply remembers_of_same; unfold reply, append_turn; frame|].
  apply (keeps_bind _ remembers_trans);
    [apply remembers_of_same; frame|intros prompt].
  unfold ask_llm.
  apply (keeps_try _ remembers_trans);
    [|intros _; apply remembers_of_same; unfold reply, append_turn; frame].
  apply (keeps_bind _ remembers_trans);
    [apply remembers_of_same; frame|intros _].
  apply (keeps_bind _ remembers_trans);
    [apply remembers_of_same; frame|intros response].
  destruct response as [text|];
    [|apply remembers_of_same; frame].
  cbv zeta.
  destruct (scan_function_call env (strip text)) as [[fn args]|];
    [|apply remembers_of_same; unfold reply, append_turn; frame].
  apply keeps_if;
    [apply handle_function_call_remembers
    |apply remembers_of_same; unfold reply, append_turn; frame].
Qed.

Lemma process_with_function_calling_stays_idle (transcript : string) :
  keeps stays_idle (process_with_function_calling env transcript).
Proof.
  intros m [Hr Hf].
  assert (Hp : is_pending (globals m) = false)
    by (unfold is_pending; now rewrite Hf).
  destruct (noted_frame transcript (globals m)) as (_ & _ & Hr' & Hf' & _).
  destruct (ready_step env transcript m Hp) as (rest & -> & _ & Hq & Hg).
  split.
  - transitivity (pending_ticket_request (globals m)); [|exact Hr].
    rewrite <- Hr'; exact (Hq _).
  - transitivity (email_confirmation_pending (globals m)); [|exact Hf].
    rewrite <- Hf'; exact (Hg _).
Qed.

Lemma process_with_gemini_keeps
    (R : @Machine World -> @Machine World -> Prop) (transcript : string) :
  (forall m, R m m) ->
  (forall a b c, R a b -> R b c -> R a c) ->
  (forall A (c : @M World A),
     keeps (same customer_data) c ->
     keeps (same pending_ticket_request) c ->
     keeps (same email_confirmation_pending) c -> keeps R c) ->
  keeps R (process_with_function_calling env transcript) ->
  keeps R (process_with_gemini env transcript).
Proof.
  intros Rr Rt Rs Hstep.
  assert (Hleaf : forall A (c : @M World A),
             (forall B (proj : Globals -> B),
                (forall g h, proj (set_history h g) = proj g) ->
                (forall g tp, proj (set_topic tp g) = proj g) ->
                keeps (same proj) c) -> keeps R c).
  { intros A c H; apply Rs; apply H; reflexivity. }
  unfold process_with_gemini.
  apply (keeps_try _ Rt);
    [|intros _; apply Hleaf; intros; apply same_ret].
  apply (keeps_bind _ Rt).
  { apply Hleaf; intros B proj Hh Ht; unfold append_turn.
    apply same_update; intros g; apply Hh. }
  intros _.
  apply (keeps_bind _ Rt);
    [apply Hleaf; intros; apply same_read|intros g].
  apply (keeps_bind _ Rt).
  { apply Hleaf; intros B proj Hh Ht.
    apply same_if; [|apply same_ret].
    unfold detect_topic.
    apply same_bind; [apply same_emit|intros _].
    apply same_bind; [apply same_call|intros [text|]];
      apply same_update; intros g'; apply Ht. }
  intros _.
  apply (keeps_bind _ Rt); [exact Hstep|intros response_text].
  apply (keeps_bind _ Rt).
  { apply Hleaf; intros B proj Hh Ht; unfold append_turn.
    apply same_update; intros g'; apply Hh. }
  intros _.
  apply (keeps_bind _ Rt).
  { apply Hleaf; intros B proj Hh Ht.
    apply same_update; intros g'; apply Hh. }
  intros _; apply Hleaf; intros; apply same_ret.
Qed.

(** X9: a conversation never starts to await a confirmation: from a
    session with no pending request and the flag clear, as at process
    start, every sequence of utterances leaves no pending request and the
    flag clear, whatever the model and the backend answer. *)
Theorem awaiting_confirmation_unreachable (utterances : list string)
    (m : @Machine World) :
  idle (globals m) -> idle (globals (converse env utterances m)).
Proof.
  revert m; induction utterances as [|transcript rest IH]; intros m Hm;
    [exact Hm|].
  cbn [converse]; apply IH.
  refine (process_with_gemini_keeps stays_idle transcript
            stays_idle_refl stays_idle_trans _ _ m Hm).
  - intros A c _ Hp Hf; now apply stays_idle_of_same.
  - apply process_with_function_calling_stays_idle.
Qed.

(** X10: a stored customer identity is never cleared: once a conversation
    knows the customer, it knows a customer after every further
    utterance. *)
Theorem identity_never_forgotten (utterances : list string)
    (m : @Machine World) :
  is_some (customer_data (globals m)) = true ->
  is_some (customer_data (globals (converse env utterances m))) = true.
Proof.
  revert m; induction utterances as [|transcript rest IH]; intros m Hm;
    [exact Hm|].
  cbn [converse]; apply IH.
  refine (process_with_gemini_keeps remembers transcript
            remembers_refl remembers_trans _ _ m Hm).
  - intros A c Hd _ _; now apply remembers_of_same.
  - apply process_with_function_calling_remembers.
Qed.

End Conversation.

(** ** The turn and its failure *)

Section TurnShape.

Context {World : Type} (env : Env World).

Lemma truncate_bound (l : list Turn) :
  length (truncate l) <= 12 /\ exists dropped, dropped ++ truncate l = l.
Proof.
  unfold truncate, last_n.
  destruct (12 <? length l) eqn:E.
  - apply Nat.ltb_lt in E; split.
    + rewrite length_skipn; lia.
    + exists (firstn (length l - 12) l); apply firstn_skipn.
  - apply Nat.ltb_ge in E; split; [exact E | now exists []].
Qed.

(** X11: a processed utterance always yields a reply.  Either the history
    is then at most twelve turns long and is the tail of the old history
    followed by the user turn twice and the reply twice, or the reply is the
    fallback "didn't catch that" and the history has grown by the single
    user turn, without truncation. *)
Theorem turn_history (transcript : string) (m : @Machine World) :
  let h := conversation_history (globals m) in
  let u := user_turn transcript in
  let out := process_with_gemini env transcript m in
  let h' := conversation_history (globals (snd out)) in
  exists r,
    fst out = Ok r /\
    ((length h' <= 12 /\
      exists dropped,
        dropped ++ h' = h ++ [u; u; assistant_turn r; assistant_turn r]) \/
     (r = Some please_repeat /\ h' = h ++ [u])).
Proof.
  cbv zeta.
  destruct (process_with_gemini_history env transcript m)
    as [(r & Hr & Hh) | (Hr & Hh)]; cbv zeta in *.
  - exists r; split; [exact Hr|]; left; rewrite Hh; apply truncate_bound.
  - exists (Some please_repeat); split; [exact Hr|]; right; now split.
Qed.

Lemma ask_llm_returns (transcript prompt : string) (m : @Machine World) :
  exists r m', ask_llm env transcript prompt m = (Ok r, m').
Proof.
  unfold ask_llm, try_except.
  match goal with |- context [let (_, _) := ?c m in _] =>
    destruct (c m) as [[r|e] m1] end.
  - now exists r, m1.
  - rewrite reply_eq; eauto.
Qed.

Lemma confirmation_flow_returns (transcript : string) (args : Arguments)
    (m : @Machine World) :
  exists r m', confirmation_flow env transcript args m = (Ok r, m').
Proof.
  destruct (any_in confirmation_keywords (strip (lower transcript))) eqn:Hc.
  - destruct (confirmation_flow_confirmed env transcript args m Hc)
      as (response & w & ->); eauto.
  - destruct (any_in denial_keywords (strip (lower transcript))) eqn:Hd.
    + rewrite confirmation_flow_denied by assumption; eauto.
    + rewrite confirmation_flow_unclear by assumption; eauto.
Qed.

Lemma already_found_none (responses : list (option string)) (e : Exn) :
  already_found responses = Raised e ->
  e = AttributeError "NoneType" "lower" /\ In None responses.
Proof.
  induction responses as [|[r|] rest IH]; simpl; [discriminate| |].
  - destruct (_ && _); [discriminate|]; intros H.
    destruct (IH H); auto.
  - intros H; injection H as <-; auto.
Qed.

(** X12: the conversation step raises in one situation only: outside the
    confirmation state and past the canned replies, when the prompt is
    built over a history of more than two turns whose last four hold an
    assistant turn with content [None] that is met before a reply
    mentioning a found appointment.  The exception is then the
    AttributeError of [None.lower()]. *)
Theorem step_raises_only_on_none_reply (transcript : string)
    (m : @Machine World) (e : Exn) :
  let g := noted transcript (globals m) in
  let lowered := strip (lower transcript) in
  let h := conversation_history (globals m) in
  (fst (process_with_function_calling env transcript m) = Raised e <->
   is_pending (globals m) = false /\
   any_in simple_greetings lowered = false /\
   any_in general_questions lowered = false /\
   (any_in account_keywords lowered && negb (is_some (customer_data g)) &&
    negb (truthy_str (customer_email g))) = false /\
   2 < length h /\
   already_found (assistant_replies (last_n 4 h)) = Raised e) /\
  (fst (process_with_function_calling env transcript m) = Raised e ->
   e = AttributeError "NoneType" "lower" /\
   In (assistant_turn None) (last_n 4 h)).
Proof.
  intros g lowered h.
  assert (Hiff :
    fst (process_with_function_calling env transcript m) = Raised e <->
    is_pending (globals m) = false /\
    any_in simple_greetings lowered = false /\
    any_in general_questions lowered = false /\
    (any_in account_keywords lowered && negb (is_some (customer_data g)) &&
     negb (truthy_str (customer_email g))) = false /\
    2 < length h /\
    already_found (assistant_replies (last_n 4 h)) = Raised e).
  { rewrite process_with_function_calling_unfold; cbv zeta.
    rewrite noted_is_pending.
    fold g; fold lowered.
    destruct (noted_frame transcript (globals m)) as (Hh & _).
    fold g in Hh; fold h in Hh.
    destruct (is_pending (globals m)).
    { destruct (confirmation_flow_returns transcript
                  (match pending_ticket_request g with
                   | Some a => a | None => Object [] end)
                  (with_globals g m))
        as (r & m' & ->).
      split; [discriminate | intros (H & _); discriminate]. }
    destruct (any_in simple_greetings lowered).
    { destruct (customer_data g); rewrite reply_eq;
        (split; [discriminate | intros (_ & H & _); discriminate]). }
    destruct (any_in general_questions lowered).
    { rewrite reply_eq;
        split; [discriminate | intros (_ & _ & H & _); discriminate]. }
    destruct (_ && _).
    { rewrite reply_eq.
      split; [discriminate | intros (_ & _ & _ & H & _); discriminate]. }
    unfold bind, lift, build_function_calling_prompt.
    rewrite Hh.
    destruct (2 <? length h) eqn:E2.
    - apply Nat.ltb_lt in E2.
      destruct (already_found (assistant_replies (last_n 4 h)))
        as [hit|e'] eqn:Ef.
      + match goal with |- context [ask_llm env transcript ?p ?m1] =>
          destruct (ask_llm_returns transcript p m1) as (r & m' & ->) end.
        split; [discriminate | intros (_ & _ & _ & _ & _ & H)].
        discriminate.
      + cbn [fst]; split.
        * intros H; injection H as ->; repeat split; assumption.
        * intros (_ & _ & _ & _ & _ & H); congruence.
    - apply Nat.ltb_ge in E2.
      match goal with |- context [ask_llm env transcript ?p ?m1] =>
        destruct (ask_llm_returns transcript p m1) as (r & m' & ->) end.
      split; [discriminate | intros (_ & _ & _ & _ & H & _); lia]. }
  split; [exact Hiff|].
  intros H; apply Hiff in H as (_ & _ & _ & _ & _ & H).
  apply already_found_none in H as [-> Hin]; split; [reflexivity|].
  unfold assistant_replies in Hin; apply in_map_iff in Hin
    as ([[|] c] & Hc & Hin); apply filter_In in Hin as [Hin Hr];
    try discriminate.
  simpl in Hc; subst c; exact Hin.
Qed.

End TurnShape.

(** ** Replies without the model, and the model's answers *)

Section Replies.

Context {World : Type} (env : Env World).

(** X13: outside the confirmation state and without a greeting word, a
    general question is answered from the help template (the variant for a
    known identity when one is stored), and otherwise an account keyword
    with neither identity nor session email is answered by asking for the
    email; in both cases the world and the trace are untouched. *)
Theorem canned_help_and_email_request (transcript : string)
    (m : @Machine World) :
  is_pending (globals m) = false ->
  any_in simple_greetings (strip (lower transcript)) = false ->
  let g := noted transcript (globals m) in
  let lowered := strip (lower transcript) in
  let answer (text : string) :=
    (Ok (Some text), with_globals (replied transcript (Some text) g) m) in
  (any_in general_questions lowered = true ->
   process_with_function_calling env transcript m =
   answer (if is_some (customer_data (globals m)) then help_known
           else help_plain)) /\
  (any_in general_questions lowered = false ->
   any_in account_keywords lowered = true ->
   customer_data (globals m) = None ->
   truthy_str (customer_email g) = false ->
   process_with_function_calling env transcript m = answer ask_for_email).
Proof.
  intros Hp Hg g lowered answer.
  destruct (noted_frame transcript (globals m)) as (_ & Hdata & _).
  split.
  - intros Hq.
    rewrite process_with_function_calling_unfold; cbv zeta.
    rewrite noted_is_pending, Hp, Hg; fold lowered; rewrite Hq, Hdata.
    now rewrite reply_eq.
  - intros Hq Ha Hd He.
    rewrite process_with_function_calling_unfold; cbv zeta.
    rewrite noted_is_pending, Hp, Hg; fold lowered; fold g.
    rewrite Hq, Ha; unfold g at 1; rewrite Hdata, Hd, He; cbn [is_some negb andb].
    now rewrite reply_eq.
Qed.

(** X14: a [create_support_ticket] call from the model is never
    dispatched: when its arguments are an object without an email the step
    asks for the email, and otherwise (an email is given, or the arguments
    are not an object) it fails before the dispatch and gives the fixed
    apology. *)
Theorem create_support_ticket_not_dispatched (transcript prompt text : string)
    (arguments : Arguments) (w : World) (m : @Machine World) :
  generate_content env prompt (world m) = (Some text, w) ->
  scan_function_call env (strip text)
    = Some (VStr "create_support_ticket", arguments) ->
  truthy_arguments arguments = true ->
  let response :=
    match arguments with
    | Object fields =>
        if truthy (get fields "email") then llm_trouble else ask_for_email
    | _ => llm_trouble
    end in
  ask_llm env transcript prompt m =
  (Ok (Some response),
   mkMachine (replied transcript (Some response) (globals m)) w
     (trace m ++ [EvLLM prompt])).
Proof.
  intros Hgen Hscan Ha response; subst response.
  unfold ask_llm, try_except, bind, emit, call.
  cbn [globals world trace fst snd].
  rewrite Hgen, Hscan.
  cbn [truthy nonempty is_empty negb andb]; rewrite Ha.
  destruct arguments as [args|v|items].
  - destruct (truthy (get args "email")) eqn:He.
    + rewrite (handle_create_support_ticket env transcript args _ He).
      now rewrite reply_eq.
    + unfold handle_function_call, bind, read, args_get, ret.
      cbn [is_name String.eqb Ascii.eqb Bool.eqb andb negb].
      rewrite He; cbn [negb]. now rewrite reply_eq.
  - unfold handle_function_call, bind, read, args_get, raise.
    cbn [is_name String.eqb Ascii.eqb Bool.eqb andb negb].
    now rewrite reply_eq.
  - unfold handle_function_call, bind, read, args_get, raise.
    cbn [is_name String.eqb Ascii.eqb Bool.eqb andb negb].
    now rewrite reply_eq.
Qed.

(** X15: when the model call fails the reply is the fixed apology; when
    its answer holds no function call, or a call without a name or without
    arguments, the reply is the answer itself, trimmed.  In all these cases
    nothing is dispatched and both turns are appended. *)
Theorem answers_without_dispatch (transcript prompt : string)
    (response : option string) (w : World) (m : @Machine World) :
  generate_content env prompt (world m) = (response, w) ->
  match response with
  | Some text =>
      match scan_function_call env (strip text) with
      | Some (function_name, arguments) =>
          truthy function_name && truthy_arguments arguments
      | None => false
      end
  | None => false
  end = false ->
  let reply_text :=
    match response with
    | Some text => strip text
    | None => llm_trouble
    end in
  ask_llm env transcript prompt m =
  (Ok (Some reply_text),
   mkMachine (replied transcript (Some reply_text) (globals m)) w
     (trace m ++ [EvLLM prompt])).
Proof.
  intros Hgen Hcall reply_text; subst reply_text.
  unfold ask_llm, try_except, bind, emit, call.
  cbn [globals world trace fst snd].
  rewrite Hgen.
  destruct response as [text|].
  - destruct (scan_function_call env (strip text)) as [[fn args]|].
    + rewrite Hcall. now rewrite reply_eq.
    + now rewrite reply_eq.
  - unfold raise; cbv beta iota. now rewrite reply_eq.
Qed.

Lemma escalate_to_billing_result (arguments : Arguments)
    (m : @Machine World) :
  exists result w,
    execute_zendesk_function env (VStr "escalate_to_billing") arguments m =
    (Ok result,
     mkMachine (globals m) w
       (trace m ++ [EvDispatch (VStr "escalate_to_billing") arguments])) /\
    (if succeeded result then r_message result = Some escalated_message
     else r_message result = None).
Proof.
  unfold execute_zendesk_function.
  cbn [is_name String.eqb Ascii.eqb Bool.eqb].
  apply (emit_try_returns
           (fun r => if succeeded r
                     then r_message r = Some escalated_message
                     else r_message r = None));
    [settling reflexivity | reflexivity].
Qed.

Lemma get_customer_info_lookup (arguments : Args) (m : @Machine World) :
  truthy (get arguments "email") = true ->
  execute_zendesk_function env (VStr "get_customer_info") arguments m =
  let found := get_customer_by_email env (get arguments "email") (world m) in
  (Ok (match fst found with
       | Some customer => customer_result (copy_customer customer)
       | None => not_found_result
       end),
   mkMachine (globals m) (snd found)
     (trace m ++ [EvDispatch (VStr "get_customer_info") arguments])).
Proof.
  intros He.
  unfold execute_zendesk_function, try_except, bind, emit, call, args_get,
    ret.
  cbn [is_name String.eqb Ascii.eqb Bool.eqb globals world trace].
  rewrite He; cbn [negb globals world trace]; cbv zeta.
  destruct (get_customer_by_email env (get arguments "email") (world m))
    as [[c|] w]; reflexivity.
Qed.

End Replies.

(** ** Lookups and escalations through the model *)

Section Billing.

Context {World : Type} (env : Env World).

(** X16: with a session email and a refund or escalation intent, a
    [get_customer_info] call that finds the customer stores the identity
    and is followed at once by one [escalate_to_billing] dispatch for the
    session email, with the text of the sticky intent as the reason and
    priority high; the reply says the request was escalated whether or not
    that second dispatch succeeded. *)
Theorem lookup_resumes_billing (transcript : string) (args : Args)
    (customer : Customer) (w1 : World) (m : @Machine World) :
  let email := customer_email (globals m) in
  let details := last_intent_details (globals m) in
  truthy_str email = true ->
  truthy (get args "email") = true ->
  get_customer_by_email env (get args "email") (world m)
    = (Some customer, w1) ->
  resumes_billing (last_intent (globals m)) = true ->
  let escalation : Args :=
    [("email", val_of email);
     ("reason",
      VStr (if truthy_str details then fmt details else "Refund request"));
     ("priority", VStr "high")] in
  exists r w,
    handle_function_call env transcript (VStr "get_customer_info") args m =
    (Ok (Some r),
     mkMachine
       (replied transcript (Some r)
          (set_customer_data (Some (copy_customer customer)) (globals m)))
       w
       (trace m ++
        [EvDispatch (VStr "get_customer_info") args;
         EvDispatch (VStr "escalate_to_billing") escalation])) /\
    (r = escalated_message \/ r = escalated_anyway).
Proof.
  intros email details He Ha Hc Hi escalation.
  unfold handle_function_call.
  rewrite (bind_ok _ _ m email m) by reflexivity.
  cbn [is_name String.eqb Ascii.eqb Bool.eqb andb].
  rewrite (bind_ok _ _ m false m) by reflexivity.
  rewrite He.
  erewrite bind_ok by (apply get_customer_info_lookup; exact Ha).
  rewrite Hc; cbn [fst snd succeeded customer_result r_success r_customer].
  erewrite bind_ok by reflexivity.
  erewrite bind_ok by reflexivity.
  erewrite bind_ok by reflexivity.
  cbn [globals set_customer_data last_intent last_intent_details].
  rewrite Hi; cbn [world trace].
  match goal with
  | |- context [bind (execute_zendesk_function env ?f ?a) ?k ?mm] =>
      destruct (escalate_to_billing_result env a mm) as (r & w & E & HP);
      rewrite (bind_ok _ k mm r _ E)
  end.
  cbn [globals world trace].
  destruct (succeeded r).
  - rewrite HP, reply_eq.
    exists escalated_message, w; split; [|now left].
    cbn [globals world trace with_globals]. now rewrite <- app_assoc.
  - rewrite reply_eq.
    exists escalated_anyway, w; split; [|now right].
    cbn [globals world trace with_globals]. now rewrite <- app_assoc.
Qed.

(** X17: with a session email, an [escalate_to_billing] call from the
    model is preceded by a lookup of the session email; when the backend
    knows no such customer the escalation is not dispatched and the reply
    asks for the correct address. *)
Theorem escalation_refused_for_unknown_email (transcript : string)
    (args : Args) (w1 : World) (m : @Machine World) :
  let email := customer_email (globals m) in
  truthy_str email = true ->
  get_customer_by_email env (val_of email) (world m) = (None, w1) ->
  handle_function_call env transcript (VStr "escalate_to_billing") args m =
  (Ok (Some (no_account email "escalate your request")),
   mkMachine
     (replied transcript (Some (no_account email "escalate your request"))
        (globals m))
     w1
     (trace m ++ [EvDispatch (VStr "get_customer_info") (lookup_args email)])).
Proof.
  intros email He Hc.
  assert (Ht : truthy (get (lookup_args email) "email") = true).
  { unfold lookup_args; cbn. destruct email; [exact He | discriminate]. }
  unfold handle_function_call.
  rewrite (bind_ok _ _ m email m) by reflexivity.
  cbn [is_name String.eqb Ascii.eqb Bool.eqb andb].
  rewrite (bind_ok _ _ m false m) by reflexivity.
  rewrite He.
  erewrite bind_ok
    by (apply (get_customer_info_lookup env (lookup_args email)); exact Ht).
  change (get (lookup_args email) "email") with (val_of email).
  rewrite Hc; cbn [fst snd succeeded not_found_result r_success].
  now rewrite reply_eq.
Qed.

(** X18: an [escalate_to_billing] call from the model made without a
    session email is dispatched as it is; when it fails (missing email or
    reason, unknown customer, backend failure) the reply of the step is
    [None] rather than an apology, and when it succeeds the reply is the
    escalation message. *)
Theorem failed_escalation_has_no_reply (transcript : string)
    (args : Arguments) (m : @Machine World) :
  truthy_str (customer_email (globals m)) = false ->
  exists result w,
    execute_zendesk_function env (VStr "escalate_to_billing") args m =
    (Ok result,
     mkMachine (globals m) w
       (trace m ++ [EvDispatch (VStr "escalate_to_billing") args])) /\
    handle_function_call env transcript (VStr "escalate_to_billing") args m =
    (Ok (r_message result),
     mkMachine (replied transcript (r_message result) (globals m)) w
       (trace m ++ [EvDispatch (VStr "escalate_to_billing") args])) /\
    r_message result =
      if succeeded result then Some escalated_message else None.
Proof.
  intros He.
  destruct (escalate_to_billing_result env args m) as (r & w & E & HP).
  exists r, w; split; [exact E|]; split.
  - unfold handle_function_call.
    rewrite (bind_ok _ _ m (customer_email (globals m)) m) by reflexivity.
    cbn [is_name String.eqb Ascii.eqb Bool.eqb andb].
    rewrite (bind_ok _ _ m false m) by reflexivity.
    rewrite He.
    erewrite bind_ok by exact E.
    now rewrite reply_eq.
  - destruct (succeeded r); exact HP.
Qed.

End Billing.

(** ** Transcript events *)

Section Events.

Context {World : Type} (env : Env World).

(** X19: among transcript events other than the end of an utterance, only
    the final segments with text change anything, and what they change is
    the buffer: interim results, empty segments, malformed and other
    messages leave the machine as it is, whether or not the agent is
    speaking. *)
Theorem only_final_segments_buffered (is_speaking : bool)
    (messages : list SttMessage) (m : @Machine World) :
  forallb (fun message => negb (is_utterance_end message)) messages = true ->
  feed env is_speaking messages m =
  (Ok tt,
   with_globals
     (set_buffer
        (transcript_buffer (globals m) ++ flat_map buffered_text messages)
        (globals m)) m).
Proof.
  revert m; induction messages as [|message rest IH]; intros m H.
  - cbn; rewrite app_nil_r.
    now destruct m as [[h tp e d p f i dt b] w tr].
  - cbn [forallb] in H; apply andb_true_iff in H as [Hm Hr].
    cbn [feed flat_map].
    assert (E : on_stt_message env is_speaking message m =
                (Ok tt,
                 with_globals
                   (set_buffer
                      (transcript_buffer (globals m) ++ buffered_text message)
                      (globals m)) m)).
    { destruct message as [| |text is_final is_interim sf|];
        try discriminate; cbn [on_stt_message buffered_text].
      - rewrite app_nil_r.
        now destruct m as [[h tp e d p f i dt b] w tr].
      - destruct (nonempty text && is_final); [reflexivity|].
        rewrite app_nil_r.
        now destruct m as [[h tp e d p f i dt b] w tr].
      - rewrite app_nil_r.
        now destruct m as [[h tp e d p f i dt b] w tr]. }
    rewrite (bind_ok _ _ m tt _ E), (IH _ Hr).
    cbn. now rewrite <- app_assoc.
Qed.

End Events.

(** ** Intent detection *)

(** X20: in [detect_customer_intent] the last matching test decides the
    type (support over meeting over order over account, "general" when no
    keyword occurs), an email is required exactly when the type is not
    "general", account access exactly when an account keyword occurs, and
    the action is "create_ticket" exactly when a support keyword occurs. *)
Theorem detect_customer_intent_summary (text : string) :
  let lowered := lower text in
  let account := any_in CustomerIntent.account_keywords lowered in
  let order := any_in CustomerIntent.order_keywords lowered in
  let meeting := any_in CustomerIntent.meeting_keywords lowered in
  let support := any_in CustomerIntent.support_keywords lowered in
  let intent := detect_customer_intent text in
  CustomerIntent.type intent =
    (if support then "support_request"
     else if meeting then "meeting_management"
     else if order then "order_inquiry"
     else if account then "account_management"
     else "general") /\
  CustomerIntent.requires_email intent
    = negb (String.eqb (CustomerIntent.type intent) "general") /\
  CustomerIntent.requires_account_access intent = account /\
  CustomerIntent.action_needed intent
    = (if support then Some "create_ticket" else None).
Proof.
  cbv zeta; unfold detect_customer_intent.
  destruct (any_in CustomerIntent.account_keywords (lower text)),
    (any_in CustomerIntent.order_keywords (lower text)),
    (any_in CustomerIntent.meeting_keywords (lower text)),
    (any_in CustomerIntent.support_keywords (lower text));
    repeat split.
Qed.

(** ** The text submitted for speech *)

Lemma all_chars_append (p : ascii -> bool) (a b : string) :
  all_chars p (a +++ b) = all_chars p a && all_chars p b.
Proof.
  induction a as [|c a IH]; simpl; [reflexivity|].
  now rewrite IH, andb_assoc.
Qed.

Lemma forallb_firstn {A} (p : A -> bool) (n : nat) (l : list A) :
  forallb p l = true -> forallb p (firstn n l) = true.
Proof.
  revert l; induction n as [|n IH]; intros [|a l]; simpl; try reflexivity.
  intros H; apply andb_true_iff in H as [Ha Hl].
  now rewrite Ha, IH.
Qed.

Lemma replace1_line_feeds (s : list N) :
  forallb (fun c => negb (N.eqb c Speech.LF))
    (Speech.replace1 Speech.LF [Speech.SPACE] s) = true.
Proof.
  unfold Speech.replace1.
  induction s as [|c s IH]; [reflexivity|].
  cbn [flat_map]; rewrite forallb_app, IH, andb_true_r.
  destruct (N.eqb c Speech.LF) eqn:E; cbn [forallb]; [reflexivity|].
  now rewrite E.
Qed.

Lemma replace1_carriage_returns (s : list N) :
  forallb (fun c => negb (N.eqb c Speech.LF)) s = true ->
  forallb (fun c => negb (N.eqb c Speech.LF || N.eqb c Speech.CR))
    (Speech.replace1 Speech.CR [] s) = true.
Proof.
  unfold Speech.replace1.
  induction s as [|c s IH]; [reflexivity|].
  cbn [forallb flat_map]; intros H; apply andb_true_iff in H as [Hc Hs].
  rewrite forallb_app, (IH Hs), andb_true_r.
  destruct (N.eqb c Speech.CR) eqn:E; cbn [forallb]; [reflexivity|].
  apply negb_true_iff in Hc; now rewrite Hc, E.
Qed.

Lemma replace1_length (old : N) (new s : list N) :
  length new <= 1 -> length (Speech.replace1 old new s) <= length s.
Proof.
  intros Hn; unfold Speech.replace1.
  induction s as [|c s IH]; [reflexivity|].
  cbn [flat_map]; rewrite length_app; cbn [length].
  destruct (N.eqb c old); cbn [length]; lia.
Qed.

Lemma lstrip_head (s : list N) (c : N) (r : list N) :
  Speech.lstrip s = c :: r -> Speech.isspace c = false.
Proof.
  induction s as [|a s IH]; [discriminate|].
  cbn [Speech.lstrip]; destruct (Speech.isspace a) eqn:Ea; [exact IH|].
  intros H; injection H as <- _; exact Ea.
Qed.

Lemma rstrip_head (s : list N) (c : N) (r : list N) :
  Speech.rstrip s = c :: r -> exists t, s = c :: t.
Proof.
  destruct s as [|a s]; [discriminate|].
  cbn [Speech.rstrip].
  destruct (Speech.rstrip s); [destruct (Speech.isspace a)|];
    intros H; try discriminate; injection H as <- _; eauto.
Qed.

Lemma strip_head (s : list N) (c : N) (r : list N) :
  Speech.strip s = c :: r -> Speech.isspace c = false.
Proof.
  unfold Speech.strip; intros H.
  apply rstrip_head in H as (t & H).
  now apply lstrip_head in H.
Qed.

(** X21: [speak_text_elevenlabs] submits nothing exactly when the text is
    empty or all white space (that of Unicode); the text it submits is never
    longer than 503 code points (500 and the ellipsis), holds no line feed
    and no carriage return, and is the cleaned text itself when the trimmed
    text has at most 500 code points. *)
Theorem spoken_text_bounds (text : list N) :
  (speak_text_elevenlabs_text text = None <-> Speech.strip text = []) /\
  forall sent,
    speak_text_elevenlabs_text text = Some sent ->
    length sent <= 503 /\
    forallb (fun c => negb (N.eqb c Speech.LF || N.eqb c Speech.CR)) sent
      = true /\
    (length (Speech.strip text) <= 500 ->
     sent =
     Speech.replace1 Speech.CR []
       (Speech.replace1 Speech.LF [Speech.SPACE] (Speech.strip text))).
Proof.
  unfold speak_text_elevenlabs_text.
  remember 500 as limit eqn:Hl.
  set (cleaned :=
         Speech.replace1 Speech.CR []
           (Speech.replace1 Speech.LF [Speech.SPACE] (Speech.strip text))).
  assert (Hclean : forallb
                     (fun c => negb (N.eqb c Speech.LF || N.eqb c Speech.CR))
                     cleaned = true)
    by (apply replace1_carriage_returns, replace1_line_feeds).
  assert (Hlen : length cleaned <= length (Speech.strip text)).
  { unfold cleaned.
    etransitivity; [apply replace1_length; cbn; lia|].
    apply replace1_length; cbn; lia. }
  split.
  - split.
    + intros H.
      destruct (Speech.strip text) as [|c r] eqn:E; [reflexivity|exfalso].
      pose proof (strip_head _ _ _ E) as Hc.
      assert (Hhead : exists rest, cleaned = c :: rest).
      { unfold cleaned, Speech.replace1; cbn [flat_map].
        destruct (N.eqb c Speech.LF) eqn:E1;
          [apply N.eqb_eq in E1; subst c; discriminate Hc|].
        cbn [app flat_map].
        destruct (N.eqb c Speech.CR) eqn:E2;
          [apply N.eqb_eq in E2; subst c; discriminate Hc|].
        cbn [app]; eauto. }
      destruct Hhead as (rest & Hr); rewrite Hr in H.
      destruct (limit <? length (c :: rest)); [|discriminate H].
      destruct limit as [|n]; [discriminate Hl|].
      cbn [firstn app] in H; discriminate H.
    + intros H; unfold cleaned; rewrite H.
      destruct limit; [discriminate Hl | reflexivity].
  - intros sent.
    destruct (limit <? length cleaned) eqn:E.
    + apply Nat.ltb_lt in E.
      destruct (firstn limit cleaned ++ _) as [|c r] eqn:Es; [discriminate|].
      intros H; injection H as <-; rewrite <- Es.
      split; [|split].
      * rewrite length_app, length_firstn; cbn [length]; lia.
      * rewrite forallb_app, forallb_firstn by exact Hclean. reflexivity.
      * lia.
    + apply Nat.ltb_ge in E.
      destruct cleaned as [|c r] eqn:Es; [discriminate|].
      intros H; injection H as <-.
      split; [lia|]; split; [exact Hclean | reflexivity].
Qed.

(** ** Audio chunks and the playback buffer *)

Lemma firstn_plus {A} (a b : nat) (l : list A) :
  firstn (a + b) l = firstn a l ++ firstn b (skipn a l).
Proof.
  revert l; induction a as [|a IH]; intros [|x l]; simpl;
    try reflexivity.
  - now rewrite firstn_nil.
  - now rewrite IH.
Qed.

Lemma concat_slices {A} (c n : nat) (l : list A) :
  concat (map (fun k => firstn c (skipn (k * c) l)) (seq 0 n))
  = firstn (n * c) l.
Proof.
  induction n as [|n IH]; [reflexivity|].
  rewrite seq_S, map_app, concat_app, IH; cbn [map concat plus].
  rewrite app_nil_r.
  replace (S n * c) with (n * c + c) by lia.
  now rewrite firstn_plus.
Qed.

Lemma chunks_cover (c len : nat) :
  0 < c ->
  let n := (len + c - 1) / c in
  len <= n * c /\ forall k, k < n -> k * c < len.
Proof.
  intros Hc n.
  pose proof (Nat.div_mod_eq (len + c - 1) c) as E.
  pose proof (Nat.mod_upper_bound (len + c - 1) c ltac:(lia)) as Hr.
  fold n in E; split; [nia|].
  intros k Hk. nia.
Qed.

(** X22: the chunks that are queued for playback, put end to end, are the
    decoded samples, none lost, repeated or reordered; every chunk holds at
    least one and at most 1024 samples, and no chunk is queued for an empty
    recording. *)
Theorem audio_chunks_partition {A} (samples : list A) :
  concat (audio_chunks samples) = samples /\
  Forall (fun chunk => 1 <= length chunk <= chunk_size)
    (audio_chunks samples) /\
  (samples = [] -> audio_chunks samples = []).
Proof.
  assert (Hc : 0 < chunk_size) by (unfold chunk_size; lia).
  destruct (chunks_cover chunk_size (length samples) Hc) as [Hn Hk].
  unfold audio_chunks, range_step, slice.
  rewrite map_map.
  assert (E : forall k,
             firstn (k * chunk_size + chunk_size - k * chunk_size)
               (skipn (k * chunk_size) samples)
             = firstn chunk_size (skipn (k * chunk_size) samples))
    by (intros k; f_equal; lia).
  rewrite (map_ext _ _ E).
  split; [|split].
  - rewrite concat_slices; now apply firstn_all2.
  - apply Forall_forall; intros chunk Hin.
    apply in_map_iff in Hin as (k & <- & Hin).
    apply in_seq in Hin; specialize (Hk k ltac:(lia)).
    rewrite length_firstn, length_skipn; lia.
  - intros ->; reflexivity.
Qed.

(** X23: [audio_callback] always fills the whole output block; it plays
    the buffered samples in order and pads with silence only once the
    buffer is exhausted, and what it leaves in the buffer is exactly what it
    did not play. *)
Theorem audio_callback_plays_in_order (audio_buffer : list Z)
    (frames : nat) :
  let out := fst (audio_callback audio_buffer frames) in
  let left := snd (audio_callback audio_buffer frames) in
  length out = frames /\
  out ++ left
    = audio_buffer ++ repeat 0%Z (frames - length audio_buffer) /\
  left = skipn frames audio_buffer.
Proof.
  unfold audio_callback.
  destruct (frames <=? length audio_buffer) eqn:E; cbn [fst snd].
  - apply Nat.leb_le in E.
    replace (frames - length audio_buffer) with 0 by lia.
    rewrite length_firstn, firstn_skipn; cbn [repeat].
    rewrite app_nil_r; repeat split; lia.
  - apply Nat.leb_gt in E.
    rewrite (skipn_all2 audio_buffer) by lia.
    destruct (0 <? length audio_buffer) eqn:E0; cbn [fst snd].
    + rewrite length_app, repeat_length, app_nil_r.
      repeat split; lia.
    + apply Nat.ltb_ge in E0.
      destruct audio_buffer; [|simpl in E0; lia].
      rewrite repeat_length, app_nil_r; cbn [length app].
      repeat split; f_equal; lia.
Qed.

(** ** The extracted address *)

Lemma rep_final_rest (cls : ascii -> bool) (lo : nat) (hi : option nat)
    (s : string) :
  forall n prev go gc f,
    Re.rep cls lo hi n (Re.match_here []) prev go gc s = Some f ->
    String.length (Re.rest f) <= String.length s.
Proof.
  induction s as [|c s IH]; intros n prev go gc f; cbn [Re.rep].
  - destruct (lo <=? n); [|discriminate].
    intros [= <-]; simpl; lia.
  - destruct (cls c && Re.below n hi).
    + destruct (Re.rep cls lo hi (S n) (Re.match_here []) (Some c) go gc s)
        as [r|] eqn:E.
      * intros [= <-]; apply IH in E; simpl; lia.
      * destruct (lo <=? n); [|discriminate].
        intros [= <-]; simpl; lia.
    + destruct (lo <=? n); [|discriminate].
      intros [= <-]; simpl; lia.
Qed.

Lemma rep_succeeds (cls : ascii -> bool) (lo : nat) (s : string) :
  forall n prev go gc,
    lo <= n ->
    exists f, Re.rep cls lo None n (Re.match_here []) prev go gc s = Some f.
Proof.
  induction s as [|c s IH]; intros n prev go gc Hn; cbn [Re.rep];
    apply Nat.leb_le in Hn as Hb; rewrite Hb.
  - cbn [Re.match_here]; eauto.
  - destruct (cls c && Re.below n None); [|cbn [Re.match_here]; eauto].
    destruct (IH (S n) (Some c) go gc ltac:(lia)) as (f & ->); eauto.
Qed.

Lemma sub_spaces (s : string) :
  forall prev skip,
    all_chars (fun c => negb (is_space c))
      (Re.sub_from [Re.Rep is_space 1 None] EmptyString prev skip s) = true.
Proof.
  induction s as [|c s IH]; intros prev skip; [reflexivity|].
  cbn [Re.sub_from]; destruct skip as [|k]; [|apply IH].
  change (Re.match_here [Re.Rep is_space 1 None])
    with (Re.rep is_space 1 None 0 (Re.match_here [])).
  cbn [Re.rep].
  destruct (is_space c) eqn:Ec; cbn [andb Re.below].
  - destruct (rep_succeeds is_space 1 s 1 (Some c) None None ltac:(lia))
      as (f & E).
    rewrite E.
    apply rep_final_rest in E.
    cbn [String.length].
    destruct (S (String.length s) - String.length (Re.rest f)) eqn:El;
      [lia|].
    apply IH.
  - cbn [Nat.leb all_chars]. now rewrite Ec, IH.
Qed.

Lemma sub_from_keeps (p : ascii -> bool) (pat : Re.pattern)
    (repl s : string) :
  all_chars p repl = true ->
  forall prev skip,
    all_chars p s = true ->
    all_chars p (Re.sub_from pat repl prev skip s) = true.
Proof.
  intros Hr; induction s as [|c s IH]; intros prev skip Hs; [reflexivity|].
  cbn [all_chars] in Hs; apply andb_true_iff in Hs as [Hc Hs].
  cbn [Re.sub_from]; destruct skip as [|k]; [|now apply IH].
  destruct (Re.match_here pat prev None None (String c s)) as [f|].
  - destruct (String.length (String c s) - String.length (Re.rest f)).
    + cbn [all_chars]; now rewrite Hc, IH.
    + rewrite all_chars_append, Hr; now apply IH.
  - cbn [all_chars]; now rewrite Hc, IH.
Qed.

(** X24: an address returned by [extract_email_from_text] holds no
    whitespace, whichever of the three patterns matched. *)
Theorem extracted_email_has_no_whitespace (text email : string) :
  extract_email_from_text text = Some email ->
  all_chars (fun c => negb (is_space c)) email = true.
Proof.
  unfold extract_email_from_text.
  destruct (first_match email_patterns text) as [m|]; [|discriminate].
  intros H; injection H as <-.
  unfold clean_email, Re.sub.
  apply sub_from_keeps; [reflexivity|].
  apply sub_from_keeps; [reflexivity|].
  apply sub_spaces.
Qed.

(** ** Failures of the function-call handler *)

Section Handler.

Context {World : Type} (env : Env World).

Lemma succeeds_reply (transcript : string) (r : option string) :
  succeeds (@reply World transcript r).
Proof. intros m; rewrite reply_eq; eauto. Qed.

Lemma succeeds_ret {A} (a : A) : succeeds (@ret World A a).
Proof. intros m; unfold ret; eauto. Qed.

Lemma succeeds_bind {A B} (c : @M World A) (k : A -> M B) :
  succeeds c -> (forall a, succeeds (k a)) -> succeeds (bind c k).
Proof.
  intros Hc Hk m; unfold bind.
  destruct (Hc m) as (a & m1 & ->); apply Hk.
Qed.

Lemma succeeds_if {A} (b : bool) (c1 c2 : @M World A) :
  succeeds c1 -> succeeds c2 -> succeeds (if b then c1 else c2).
Proof. now destruct b. Qed.

Lemma succeeds_execute (function_name : pyval) (arguments : Arguments) :
  succeeds (execute_zendesk_function env function_name arguments).
Proof.
  intros m.
  destruct (execute_zendesk_function_spec env function_name arguments m)
    as (r & w & ->); eauto.
Qed.

Lemma succeeds_read {A} (f : Globals -> A) : succeeds (@read World A f).
Proof. intros m; unfold read; eauto. Qed.

Lemma succeeds_update (f : Globals -> Globals) : succeeds (@update World f).
Proof. intros m; unfold update; eauto. Qed.

(** The three renderings of a list of tickets. *)

Lemma render_order_outcome (t : Ticket) :
  if text_description t then exists line, render_order t = Ok line
  else render_order t = Raised TypeError.
Proof.
  unfold text_description, render_order.
  destruct (t_description t); cbn [is_text]; eauto.
Qed.

Lemma render_orders_outcome (l : list Ticket) :
  if forallb text_description l then
    exists lines, render_each render_order l = Ok lines
  else render_each render_order l = Raised TypeError.
Proof.
  induction l as [|t l IH]; [now exists EmptyString|].
  cbn [forallb render_each].
  pose proof (render_order_outcome t) as Ht.
  destruct (text_description t); cbn [andb];
    [destruct Ht as (line & ->) | now rewrite Ht].
  cbn [and_then].
  destruct (forallb text_description l).
  - destruct IH as (lines & ->); cbn [and_then]; eauto.
  - now rewrite IH.
Qed.

Lemma render_appointments_ok (l : list Ticket) :
  forallb text_description l = true ->
  exists lines, render_each render_appointment l = Ok lines.
Proof.
  induction l as [|t l IH]; [now exists EmptyString|].
  cbn [forallb render_each].
  intros H; apply andb_true_iff in H as [Ht Hl].
  assert (Hr : exists line, render_appointment t = Ok line).
  { unfold text_description in Ht; unfold render_appointment.
    destruct (t_description t); try discriminate; eauto. }
  destruct Hr as (line & ->); cbn [and_then].
  destruct (IH Hl) as (lines & ->); cbn [and_then]; eauto.
Qed.

Lemma render_tickets_ok (l : list Ticket) :
  exists lines, render_each render_ticket l = Ok lines.
Proof.
  induction l as [|t l IH]; [now exists EmptyString|].
  cbn [render_each].
  change (render_ticket t) with
    (Ok ("Ticket #" +++ py_str (VInt (t_id t)) +++ ": " +++
         py_str (t_subject t) +++ ". " +++
         "Details: " +++ py_str (t_description t) +++ " ")).
  cbn [and_then].
  destruct IH as (lines & ->); cbn [and_then]; eauto.
Qed.

Lemma forallb_filter {A} (p q : A -> bool) (l : list A) :
  forallb p l = true -> forallb p (filter q l) = true.
Proof.
  induction l as [|a l IH]; [reflexivity|].
  cbn [forallb filter]; intros H; apply andb_true_iff in H as [Ha Hl].
  destruct (q a); cbn [forallb]; [rewrite Ha|]; now apply IH.
Qed.

Lemma text_fields_description (l : list Ticket) :
  forallb text_fields l = true -> forallb text_description l = true.
Proof.
  induction l as [|t l IH]; [reflexivity|].
  cbn [forallb]; unfold text_fields at 1, text_description at 1.
  intros H; apply andb_true_iff in H as [Ht Hl].
  apply andb_true_iff in Ht as [_ ->]; now apply IH.
Qed.

Lemma is_name_refl (name : string) : is_name (VStr name) name = true.
Proof. apply String.eqb_refl. Qed.

(** The reply to the result of a search can be rendered, except when the
    orders bucket is returned and one of the orders shown has a description
    that is not text. *)
Lemma search_reply (fields : Args) (m : @Machine World)
    (intent : option Intent) :
  truthy (get fields "email") = true ->
  let tickets :=
    fst (get_open_tickets_by_email env (get fields "email") (world m)) in
  let search_type := get_or fields "search_type" (VStr "all") in
  exists result w,
    execute_zendesk_function env (VStr "search_customer_tickets") fields m
    = (Ok result,
       mkMachine (globals m) w
         (trace m ++ [EvDispatch (VStr "search_customer_tickets") fields]))
    /\
    if is_name search_type "orders" && forallb text_subject tickets &&
       negb (forallb text_description (shown_orders tickets))
    then render (VStr "search_customer_tickets") result intent
         = Raised TypeError
    else exists text,
        render (VStr "search_customer_tickets") result intent = Ok text.
Proof.
  intros He tickets search_type.
  rewrite (search_customer_tickets_result env fields m He).
  fold tickets search_type.
  eexists; eexists; split; [reflexivity|].
  unfold render.
  cbn [is_name String.eqb Ascii.eqb Bool.eqb].
  destruct (is_name search_type "appointments") eqn:Ea.
  - apply is_name_eq in Ea; rewrite Ea.
    cbn [is_name String.eqb Ascii.eqb Bool.eqb andb].
    pose proof (select_appointments tickets) as H.
    destruct (forallb text_fields tickets) eqn:Et.
    + rewrite H.
      cbn [succeeded appointments_result r_success render_search
             r_appointments].
      destruct (negb _); [|cbn [and_then]; eauto].
      unfold render_first3.
      destruct (render_appointments_ok
                  (firstn 3
                     (filter (spec_mentions appointment_keywords) tickets)))
        as (lines & ->); [|cbn [and_then]; eauto].
      apply forallb_firstn, forallb_filter.
      now apply text_fields_description.
    + destruct H as (v & _ & ->).
      cbn [succeeded error_result r_success]; eauto.
  - destruct (is_name search_type "orders") eqn:Eo; cbn [andb].
    + pose proof (select_orders tickets) as H.
      destruct (forallb text_subject tickets) eqn:Et; cbn [andb].
      * rewrite H.
        cbn [succeeded orders_result r_success render_search
               r_appointments r_orders].
        unfold render_first3.
        pose proof (render_orders_outcome
                      (firstn 3
                         (filter (subject_mentions order_keywords) tickets)))
          as Hr.
        fold (shown_orders tickets) in Hr |- *.
        destruct (forallb text_description (shown_orders tickets)) eqn:Ed;
          cbn [negb].
        -- destruct Hr as (lines & ->).
           destruct (negb _); cbn [and_then]; eauto.
        -- rewrite Hr.
           destruct (filter (subject_mentions order_keywords) tickets)
             as [|t l] eqn:El;
             [unfold shown_orders in Ed; rewrite El in Ed; discriminate|].
           reflexivity.
      * destruct H as (v & _ & ->).
        cbn [succeeded error_result r_success]; eauto.
    + cbn [succeeded tickets_result r_success render_search
             r_appointments r_orders r_tickets].
      destruct (negb _); [|cbn [and_then]; eauto].
      unfold render_first3.
      destruct (render_tickets_ok (firstn 3 tickets)) as (lines & ->).
      cbn [and_then]; eauto.
Qed.

(** A dispatch of another operation can always be replied to. *)
Lemma dispatch_renders (function_name : pyval) (arguments : Arguments) :
  is_name function_name "search_customer_tickets" = false ->
  succeeds
    (bind (execute_zendesk_function env function_name arguments)
       (fun result =>
          bind (read last_intent)
            (fun intent => lift (render function_name result intent)))).
Proof.
  intros Es m; unfold bind at 1.
  assert (Hi : forall i, asks_for_details i = false)
    by (intros [[]|]; reflexivity).
  destruct (is_name function_name "get_customer_info") eqn:En.
  - apply is_name_eq in En; subst.
    destruct (get_customer_info_result env arguments m)
      as (r & w & -> & HP).
    unfold bind, read, lift, render.
    cbn [is_name String.eqb Ascii.eqb Bool.eqb].
    destruct (succeeded r); [|eauto].
    destruct (HP eq_refl) as (c & ->); eauto.
  - destruct (execute_zendesk_function_spec env function_name arguments m)
      as (r & w & ->).
    unfold bind, read, lift, render; rewrite En, Es, Hi.
    cbn [globals].
    repeat match goal with
           | |- context [if ?b then _ else _] => destruct b
           end; eauto.
Qed.

(** A search that the dispatcher refuses is answered with the apology. *)
Lemma search_refused (arguments : Arguments) (m : @Machine World) :
  match arguments with
  | Object fields => truthy (get fields "email") = false
  | _ => True
  end ->
  exists result w,
    execute_zendesk_function env (VStr "search_customer_tickets") arguments m
    = (Ok result,
       mkMachine (globals m) w
         (trace m ++
          [EvDispatch (VStr "search_customer_tickets") arguments])) /\
    succeeded result = false.
Proof.
  intros H.
  unfold execute_zendesk_function, try_except, bind, emit, args_get,
    args_get_or, ret, raise.
  cbn [is_name String.eqb Ascii.eqb Bool.eqb].
  destruct arguments; [rewrite H; cbn [negb]| |];
    eexists; eexists; split; reflexivity.
Qed.

Ltac sure :=
  repeat match goal with
         | |- succeeds (reply _ _) => apply succeeds_reply
         | |- succeeds (ret _) => apply succeeds_ret
         | |- succeeds (execute_zendesk_function _ _ _) =>
             apply succeeds_execute
         | |- succeeds (read _) => apply succeeds_read
         | |- succeeds (update _) => apply succeeds_update
         | |- succeeds (bind _ _) => apply succeeds_bind; [|intros ?]
         | |- succeeds (if _ then _ else _) => apply succeeds_if
         end.

(** X25: the handler of a function call fails in three cases only.  A
    [create_support_ticket] call fails on the read of the unbound local
    when its arguments are an object with an email, and on [arguments.get]
    when they are not an object; a [search_customer_tickets] call fails
    when the orders bucket comes back and one of the three orders shown has
    a description that is not text, which [re.search] refuses.  Every other
    call, whatever the backend answers, ends in a reply. *)
Theorem handler_failures (transcript : string) (function_name : pyval)
    (arguments : Arguments) (m : @Machine World) (e : Exn) :
  fst (handle_function_call env transcript function_name arguments m)
    = Raised e <->
  (function_name = VStr "create_support_ticket" /\
   match arguments with
   | Object fields =>
       truthy (get fields "email") = true /\ e = UnboundLocalError
   | _ => e = AttributeError (arguments_type arguments) "get"
   end) \/
  (function_name = VStr "search_customer_tickets" /\
   e = TypeError /\
   exists fields,
     arguments = Object fields /\
     truthy (get fields "email") = true /\
     get_or fields "search_type" (VStr "all") = VStr "orders" /\
     let tickets :=
       fst (get_open_tickets_by_email env (get fields "email") (world m)) in
     forallb text_subject tickets = true /\
     forallb text_description (shown_orders tickets) = false).
Proof.
  assert (Hok : forall c : @M World (option string),
             succeeds c -> fst (c m) = Raised e -> False).
  { intros c Hc; destruct (Hc m) as (r & m' & ->); discriminate. }
  unfold handle_function_call.
  rewrite (bind_ok _ _ m (customer_email (globals m)) m) by reflexivity.
  destruct (is_name function_name "create_support_ticket") eqn:Ec.
  - apply is_name_eq in Ec; subst.
    cbn [is_name String.eqb Ascii.eqb Bool.eqb andb].
    destruct arguments as [fields|v|items].
    + unfold bind at 1 2, args_get, ret.
      destruct (truthy (get fields "email")) eqn:He; cbn [negb].
      * unfold raise; cbn [fst]; split.
        -- intros H; injection H as <-; left; auto.
        -- intros [(_ & _ & ->)|(H & _)]; [reflexivity | discriminate H].
      * rewrite reply_eq; cbn [fst]; split; [discriminate|].
        intros [(_ & H & _)|(H & _)]; discriminate H.
    + unfold bind, args_get, raise; cbn [fst arguments_type]; split.
      * intros H; injection H as <-; left; auto.
      * intros [(_ & ->)|(H & _)]; [reflexivity | discriminate H].
    + unfold bind, args_get, raise; cbn [fst arguments_type]; split.
      * intros H; injection H as <-; left; auto.
      * intros [(_ & ->)|(H & _)]; [reflexivity | discriminate H].
  - assert (Hnc : function_name <> VStr "create_support_ticket")
      by (intros ->; discriminate Ec).
    rewrite (bind_ok _ _ m false m) by reflexivity.
    destruct (is_name function_name "get_customer_info" &&
              truthy_str (customer_email (globals m))) eqn:Eg.
    { apply andb_true_iff in Eg as [Eg _]; apply is_name_eq in Eg; subst.
      split; [|intros [(H & _)|(H & _)]; discriminate H].
      intros H; exfalso; revert H; apply Hok.
      intros m0; unfold bind at 1.
      destruct (get_customer_info_result env arguments m0)
        as (r & w & -> & HP).
      destruct (succeeded r); [|rewrite reply_eq; eauto].
      destruct (HP eq_refl) as (c & Hc).
      match goal with
      | |- exists a m', ?c ?mm = (Ok a, m') =>
          enough (Hs : succeeds c) by apply Hs
      end.
      rewrite Hc; sure; cbv iota; sure. }
    destruct (is_name function_name "escalate_to_billing") eqn:Ee.
    { apply is_name_eq in Ee; subst.
      split; [|intros [(H & _)|(H & _)]; discriminate H].
      intros H; exfalso; revert H; apply Hok; sure. }
    cbv zeta iota.
    destruct (is_name function_name "search_customer_tickets") eqn:Es.
    2:{ split.
        - intros H; exfalso; revert H; apply Hok.
          pose proof (dispatch_renders function_name arguments Es) as Hd.
          intros m0; destruct (Hd m0) as (x & m1 & E).
          revert E; unfold bind.
          destruct (execute_zendesk_function env function_name arguments m0)
            as [[r|e0] m2]; [|discriminate].
          unfold read, lift.
          destruct (render function_name r (last_intent (globals m2)));
            [|discriminate].
          intros _; rewrite reply_eq; eauto.
        - intros [(H & _)|(H & _)]; [contradiction|].
          subst; discriminate Es. }
    apply is_name_eq in Es; subst.
    assert (Hrefused :
      match arguments with
      | Object fields => truthy (get fields "email") = false
      | _ => True
      end ->
      (fst (bind (execute_zendesk_function env
                    (VStr "search_customer_tickets") arguments)
              (fun result =>
                 bind (read last_intent)
                   (fun intent =>
                      bind (lift (render (VStr "search_customer_tickets")
                                    result intent))
                        (reply transcript))) m) = Raised e <-> False)).
    { intros H.
      destruct (search_refused arguments m H) as (r & w & E & Hr).
      rewrite (bind_ok _ _ m r _ E).
      unfold bind at 1, read at 1, bind at 1, lift, render.
      rewrite Hr, reply_eq; split; [discriminate | tauto]. }
    destruct arguments as [fields|v|items].
    + destruct (truthy (get fields "email")) eqn:He.
      * destruct (search_reply fields m (last_intent (globals m)) He)
          as (r & w & E & Hr).
        rewrite (bind_ok _ _ m r _ E).
        unfold bind at 1, read at 1; cbn [globals].
        unfold bind at 1, lift.
        destruct (is_name (get_or fields "search_type" (VStr "all"))
                    "orders") eqn:Eo; cbn [andb] in Hr.
        -- apply is_name_eq in Eo.
           destruct (forallb text_subject _) eqn:Et; cbn [andb] in Hr.
           ++ destruct (forallb text_description _) eqn:Ed; cbn [negb] in Hr.
              ** destruct Hr as (text & ->); rewrite reply_eq; split;
                   [discriminate|].
                 intros [(H & _)|(_ & _ & f & Hf & _ & _ & _ & H)];
                   [discriminate H|].
                 injection Hf as <-; cbv zeta in H; congruence.
              ** rewrite Hr; cbn [fst]; split.
                 --- intros H; injection H as <-; right.
                     split; [reflexivity|]; split; [reflexivity|].
                     exists fields; cbv zeta; auto.
                 --- intros [(H & _)|(_ & -> & _)];
                       [discriminate H | reflexivity].
           ++ destruct Hr as (text & ->); rewrite reply_eq; split;
                [discriminate|].
              intros [(H & _)|(_ & _ & f & Hf & _ & _ & H & _)];
                [discriminate H|].
              injection Hf as <-; cbv zeta in H; congruence.
        -- destruct Hr as (text & ->); rewrite reply_eq; split;
             [discriminate|].
           intros [(H & _)|(_ & _ & f & Hf & _ & H & _)];
             [discriminate H|].
           injection Hf as <-; rewrite H in Eo; discriminate Eo.
      * rewrite (Hrefused eq_refl); split; [tauto|].
        intros [(H & _)|(_ & _ & f & Hf & H & _)]; [discriminate H|].
        injection Hf as <-; congruence.
    + rewrite (Hrefused I); split; [tauto|].
      intros [(H & _)|(_ & _ & f & Hf & _)]; discriminate.
    + rewrite (Hrefused I); split; [tauto|].
      intros [(H & _)|(_ & _ & f & Hf & _)]; discriminate.
Qed.

End Handler.

(** ** The further properties on sample sessions *)

Lemma unknown_function_refused_witness :
  (forall name, In name the_six ->
                is_name (VStr "cancel_order") name = false) /\
  execute_zendesk_function demo_env (VStr "cancel_order") (Object [])
    (Desk.start ann_world) =
  (Ok (error_result "Unknown function: cancel_order"),
   mkMachine Desk.fresh ann_world
     [EvDispatch (VStr "cancel_order") (Object [])]).
Proof.
  assert (H : forall name, In name the_six ->
                           is_name (VStr "cancel_order") name = false).
  { intros name Hin; simpl in Hin.
    repeat destruct Hin as [<-|Hin]; try reflexivity; contradiction. }
  split; [exact H|].
  exact (unknown_function_refused demo_env (VStr "cancel_order") (Object [])
           (Desk.start ann_world) H).
Defined.

Lemma missing_required_parameter_witness :
  (In ("add_comment_to_ticket", ["ticket_id"; "comment"])
      ZENDESK_FUNCTIONS_required /\
   In "comment" ["ticket_id"; "comment"] /\
   "comment" <> "search_type" /\
   truthy (get ticket_only "comment") = false) /\
  exists e,
    execute_zendesk_function demo_env (VStr "add_comment_to_ticket")
      ticket_only (Desk.start ann_world) =
    (Ok (error_result e),
     mkMachine Desk.fresh ann_world
       [EvDispatch (VStr "add_comment_to_ticket") ticket_only]).
Proof.
  assert (H1 : In ("add_comment_to_ticket", ["ticket_id"; "comment"])
                 ZENDESK_FUNCTIONS_required) by (simpl; tauto).
  assert (H2 : In "comment" ["ticket_id"; "comment"]) by (simpl; tauto).
  assert (H3 : "comment" <> "search_type") by discriminate.
  split; [repeat split; assumption|].
  exact (missing_required_parameter demo_env "add_comment_to_ticket"
           "comment" ["ticket_id"; "comment"] ticket_only
           (Desk.start ann_world) H1 H2 H3 eq_refl).
Defined.

Lemma needs_confirmation_signal_witness :
  let result := needs_confirmation_result (VStr "new@example.com") in
  let m' :=
    mkMachine Desk.fresh demo_world
      [EvDispatch (VStr "create_support_ticket") demo_args] in
  execute_zendesk_function demo_env (VStr "create_support_ticket") demo_args
    (Desk.start demo_world) = (Ok result, m') /\
  (flagged_needs_confirmation result = true <->
   VStr "create_support_ticket" = VStr "create_support_ticket" /\
   all_truthy [get demo_args "email"; get demo_args "subject";
               get demo_args "description"] = true /\
   fst (get_customer_by_email demo_env (get demo_args "email") demo_world)
     = None) /\
  (flagged_needs_confirmation result = true ->
   result = needs_confirmation_result (get demo_args "email")).
Proof.
  cbv zeta.
  assert (H : execute_zendesk_function demo_env
                (VStr "create_support_ticket") demo_args
                (Desk.start demo_world) =
              (Ok (needs_confirmation_result (VStr "new@example.com")),
               mkMachine Desk.fresh demo_world
                 [EvDispatch (VStr "create_support_ticket") demo_args]))
    by (vm_compute; reflexivity).
  split; [exact H|].
  exact (needs_confirmation_signal demo_env (VStr "create_support_ticket")
           demo_args (Desk.start demo_world) _ _ H).
Defined.

Lemma merges_into_first_open_ticket_witness :
  let result :=
    action_result "note_added" "41" None
      "Your request has been added to your existing ticket." in
  let m' :=
    mkMachine Desk.fresh ann_world
      [EvDispatch (VStr "create_support_ticket") visa_note_args] in
  (all_truthy [get visa_note_args "email"; get visa_note_args "subject";
               get visa_note_args "description"] = true /\
   get_customer_by_email demo_env (get visa_note_args "email") ann_world
     = (Some ann, ann_world) /\
   get_open_tickets_by_email demo_env (get visa_note_args "email") ann_world
     = ([visa_ticket; late_ticket], ann_world) /\
   execute_zendesk_function demo_env (VStr "create_support_ticket")
     visa_note_args (Desk.start ann_world) = (Ok result, m')) /\
  world m' = ann_world /\
  succeeded result = true /\
  r_action result = Some "note_added" /\
  r_ticket_id result = Some (py_str (VInt (t_id visa_ticket))).
Proof.
  cbv zeta.
  assert (H : execute_zendesk_function demo_env
                (VStr "create_support_ticket") visa_note_args
                (Desk.start ann_world) =
              (Ok (action_result "note_added" "41" None
                     "Your request has been added to your existing ticket."),
               mkMachine Desk.fresh ann_world
                 [EvDispatch (VStr "create_support_ticket") visa_note_args]))
    by (vm_compute; reflexivity).
  split; [repeat split; try reflexivity; exact H|].
  destruct (merges_into_first_open_ticket demo_env
              (VStr "create_support_ticket") visa_note_args
              (Desk.start ann_world) _ _ ann visa_ticket [late_ticket]
              ann_world ann_world (or_introl eq_refl) eq_refl eq_refl
              eq_refl H) as (Hw & Hok & _).
  destruct (Hok eq_refl) as (Hs & Ha).
  destruct (Ha eq_refl) as (Hact & Hid).
  repeat split; assumption.
Defined.

Lemma awaiting_confirmation_unreachable_witness :
  idle (globals email_known) /\
  idle (globals
          (converse demo_env [printer_request; "yes that's right"]
             email_known)).
Proof.
  assert (H : idle (globals email_known)) by (split; reflexivity).
  split; [exact H|].
  exact (awaiting_confirmation_unreachable demo_env
           [printer_request; "yes that's right"] email_known H).
Defined.

Lemma identity_never_forgotten_witness :
  is_some (customer_data (globals awaiting)) = true /\
  is_some
    (customer_data
       (globals (converse demo_env ["no that's wrong"; "hello"] awaiting)))
    = true.
Proof.
  split; [reflexivity|].
  exact (identity_never_forgotten demo_env ["no that's wrong"; "hello"]
           awaiting eq_refl).
Defined.

Lemma canned_help_and_email_request_witness :
  let m := Desk.start demo_world in
  let answer (transcript text : string) :=
    (Ok (Some text),
     with_globals
       (replied transcript (Some text) (noted transcript (globals m))) m) in
  (is_pending (globals m) = false /\
   any_in simple_greetings (strip (lower "What can you do?")) = false /\
   any_in general_questions (strip (lower "What can you do?")) = true /\
   any_in simple_greetings (strip (lower "check my order")) = false /\
   any_in general_questions (strip (lower "check my order")) = false /\
   any_in account_keywords (strip (lower "check my order")) = true /\
   customer_data (globals m) = None /\
   truthy_str (customer_email (noted "check my order" (globals m)))
     = false) /\
  process_with_function_calling demo_env "What can you do?" m
    = answer "What can you do?" help_plain /\
  process_with_function_calling demo_env "check my order" m
    = answer "check my order" ask_for_email.
Proof.
  cbv zeta.
  assert (G1 : any_in simple_greetings (strip (lower "What can you do?"))
               = false) by (vm_compute; reflexivity).
  assert (Q1 : any_in general_questions (strip (lower "What can you do?"))
               = true) by (vm_compute; reflexivity).
  assert (G2 : any_in simple_greetings (strip (lower "check my order"))
               = false) by (vm_compute; reflexivity).
  assert (Q2 : any_in general_questions (strip (lower "check my order"))
               = false) by (vm_compute; reflexivity).
  assert (A2 : any_in account_keywords (strip (lower "check my order"))
               = true) by (vm_compute; reflexivity).
  assert (E2 : truthy_str
                 (customer_email
                    (noted "check my order" (globals (Desk.start demo_world))))
               = false) by (vm_compute; reflexivity).
  split; [repeat split; try assumption; reflexivity|].
  split.
  - exact (proj1 (canned_help_and_email_request demo_env "What can you do?"
                    (Desk.start demo_world) eq_refl G1) Q1).
  - exact (proj2 (canned_help_and_email_request demo_env "check my order"
                    (Desk.start demo_world) eq_refl G2) Q2 A2 eq_refl E2).
Defined.

Lemma create_support_ticket_not_dispatched_witness :
  (generate_content demo_env printer_prompt (world email_known)
     = (Some demo_call_text, demo_world_answered) /\
   scan_function_call demo_env (strip demo_call_text)
     = Some (VStr "create_support_ticket", Object demo_args) /\
   truthy_arguments demo_args = true) /\
  ask_llm demo_env printer_request printer_prompt email_known =
  (Ok (Some llm_trouble),
   mkMachine (replied printer_request (Some llm_trouble) (globals email_known))
     demo_world_answered (trace email_known ++ [EvLLM printer_prompt])).
Proof.
  assert (H1 : generate_content demo_env printer_prompt (world email_known)
               = (Some demo_call_text, demo_world_answered))
    by reflexivity.
  assert (H2 : scan_function_call demo_env (strip demo_call_text)
               = Some (VStr "create_support_ticket", Object demo_args))
    by (vm_compute; reflexivity).
  split; [repeat split; try assumption; reflexivity|].
  exact (create_support_ticket_not_dispatched demo_env printer_request
           printer_prompt demo_call_text demo_args demo_world_answered
           email_known H1 H2 eq_refl).
Defined.

Lemma answers_without_dispatch_witness :
  let m := Desk.start greeting_world in
  (generate_content demo_env "prompt" (world m)
     = (Some "greeting", demo_world_answered) /\
   scan_function_call demo_env (strip "greeting") = None) /\
  ask_llm demo_env "good day" "prompt" m =
  (Ok (Some "greeting"),
   mkMachine (replied "good day" (Some "greeting") (globals m))
     demo_world_answered (trace m ++ [EvLLM "prompt"])).
Proof.
  cbv zeta.
  assert (H1 : generate_content demo_env "prompt"
                 (world (Desk.start greeting_world))
               = (Some "greeting", demo_world_answered)) by reflexivity.
  assert (H2 : scan_function_call demo_env (strip "greeting") = None)
    by (vm_compute; reflexivity).
  split; [split; assumption|].
  refine (answers_without_dispatch demo_env "good day" "prompt"
            (Some "greeting") demo_world_answered
            (Desk.start greeting_world) H1 _).
  vm_compute; reflexivity.
Defined.

Lemma lookup_resumes_billing_witness :
  let args : Args := [("email", VStr "ann@example.com")] in
  let escalation : Args :=
    [("email", VStr "ann@example.com"); ("reason", VStr "I want a refund");
     ("priority", VStr "high")] in
  (truthy_str (customer_email (globals refund_caller)) = true /\
   truthy (get args "email") = true /\
   get_customer_by_email demo_env (get args "email") (world refund_caller)
     = (Some ann, ann_world) /\
   resumes_billing (last_intent (globals refund_caller)) = true) /\
  exists r w,
    handle_function_call demo_env "I want a refund"
      (VStr "get_customer_info") args refund_caller =
    (Ok (Some r),
     mkMachine
       (replied "I want a refund" (Some r)
          (set_customer_data (Some (copy_customer ann))
             (globals refund_caller)))
       w
       (trace refund_caller ++
        [EvDispatch (VStr "get_customer_info") args;
         EvDispatch (VStr "escalate_to_billing") escalation])) /\
    (r = escalated_message \/ r = escalated_anyway).
Proof.
  cbv zeta.
  split; [repeat split; reflexivity|].
  exact (lookup_resumes_billing demo_env "I want a refund"
           [("email", VStr "ann@example.com")] ann ann_world refund_caller
           eq_refl eq_refl eq_refl eq_refl).
Defined.

Lemma escalation_refused_for_unknown_email_witness :
  let email := customer_email (globals email_known) in
  let args : Args :=
    [("email", VStr "new@example.com"); ("reason", VStr "charged twice")] in
  (truthy_str email = true /\
   get_customer_by_email demo_env (val_of email) (world email_known)
     = (None, demo_world)) /\
  handle_function_call demo_env "I was charged twice"
    (VStr "escalate_to_billing") args email_known =
  (Ok (Some (no_account email "escalate your request")),
   mkMachine
     (replied "I was charged twice"
        (Some (no_account email "escalate your request"))
        (globals email_known))
     demo_world
     (trace email_known ++
      [EvDispatch (VStr "get_customer_info") (lookup_args email)])).
Proof.
  cbv zeta.
  split; [split; reflexivity|].
  exact (escalation_refused_for_unknown_email demo_env "I was charged twice"
           [("email", VStr "new@example.com");
            ("reason", VStr "charged twice")]
           demo_world email_known eq_refl eq_refl).
Defined.

Lemma failed_escalation_has_no_reply_witness :
  let m := Desk.start ann_world in
  truthy_str (customer_email (globals m)) = false /\
  exists result w,
    execute_zendesk_function demo_env (VStr "escalate_to_billing")
      stranger_args m =
    (Ok result,
     mkMachine (globals m) w
       (trace m ++ [EvDispatch (VStr "escalate_to_billing") stranger_args]))
    /\
    handle_function_call demo_env "escalate this" (VStr "escalate_to_billing")
      stranger_args m =
    (Ok (r_message result),
     mkMachine (replied "escalate this" (r_message result) (globals m)) w
       (trace m ++ [EvDispatch (VStr "escalate_to_billing") stranger_args]))
    /\
    r_message result =
      if succeeded result then Some escalated_message else None.
Proof.
  cbv zeta.
  split; [reflexivity|].
  exact (failed_escalation_has_no_reply demo_env "escalate this"
           stranger_args (Desk.start ann_world) eq_refl).
Defined.

(** The escalation for the unknown address fails, and the reply is
    [None]. *)
Example failed_escalation_reply :
  fst (handle_function_call demo_env "escalate this"
         (VStr "escalate_to_billing") stranger_args (Desk.start ann_world))
  = Ok None.
Proof. vm_compute; reflexivity. Qed.

Lemma only_final_segments_buffered_witness :
  let m := Desk.start demo_world in
  forallb (fun message => negb (is_utterance_end message)) sample_messages
    = true /\
  feed demo_env false sample_messages m =
  (Ok tt, with_globals (set_buffer ["hello"; "there"] (globals m)) m).
Proof.
  cbv zeta.
  split; [reflexivity|].
  exact (only_final_segments_buffered demo_env false sample_messages
           (Desk.start demo_world) eq_refl).
Defined.

Lemma extracted_email_has_no_whitespace_witness :
  extract_email_from_text "my email is ann@example.com"
    = Some "ann@example.com" /\
  all_chars (fun c => negb (is_space c)) "ann@example.com" = true.
Proof.
  assert (H : extract_email_from_text "my email is ann@example.com"
              = Some "ann@example.com") by (vm_compute; reflexivity).
  split; [exact H|].
  exact (extracted_email_has_no_whitespace "my email is ann@example.com"
           "ann@example.com" H).
Defined.

(** A call whose arguments are not an object is not dispatched either: the
    read of the email fails and the reply is the fixed apology. *)
Example flat_call_not_dispatched :
  let out :=
    ask_llm flat_env printer_request "prompt" (Desk.start flat_world) in
  fst (handle_function_call flat_env printer_request
         (VStr "create_support_ticket") (Scalar (VStr "new@example.com"))
         (Desk.start flat_world))
  = Raised (AttributeError "str" "get") /\
  fst out = Ok (Some llm_trouble) /\
  trace (snd out) = [EvLLM "prompt"].
Proof. repeat split; vm_compute; reflexivity. Qed.

(** An order whose description is null: the dispatcher returns it in the
    orders bucket, and the reply cannot be rendered; the unfiltered search
    is answered, with the null formatted. *)
Example order_without_description :
  let run search_type :=
    fst (handle_function_call demo_env "show my orders"
           (VStr "search_customer_tickets") (search_args search_type)
           (Desk.start bare_order_world)) in
  fst (execute_zendesk_function demo_env (VStr "search_customer_tickets")
         (search_args "orders") (Desk.start bare_order_world))
  = Ok (orders_result [bare_order]) /\
  run "orders" = Raised TypeError /\
  run "all"
  = Ok (Some "I found 1 ticket(s) for you. Ticket #44: Order 12. Details: None ").
Proof. repeat split; vm_compute; reflexivity. Qed.

(** 251 accented letters are 251 code points and are sent whole; a text of
    no-break spaces is white space and nothing is sent; the cut is at 500
    code points. *)
Example speech_of_accented_text :
  speak_text_elevenlabs_text (repeat 233%N 251) = Some (repeat 233%N 251) /\
  speak_text_elevenlabs_text [160%N; 160%N] = None /\
  speak_text_elevenlabs_text (repeat 233%N 501)
  = Some (repeat 233%N 500 ++ [46%N; 46%N; 46%N]).
Proof. repeat split; vm_compute; reflexivity. Qed.
